(** * markpdfdown: the page conversion pipeline

    A shallow embedding of [main.py] and [core/LLMClient.py]: the input
    classifier, the endpoint normalisation and request construction of the
    completion client, the retry orchestrator and the page loop that
    assembles the Markdown document.

    Python [str] values are modelled as [string] (sequences of 8-bit
    characters), [bytes] as [list byte], and everything the program does
    to the outside world as an event appended to a trace. *)

From Stdlib Require Import String Ascii List Bool Arith NArith ZArith QArith.
From Stdlib Require Import Lia Sorted Permutation Strings.Byte.
Import ListNotations.
Close Scope Q_scope.
Open Scope string_scope.

(** ** Python built-ins used by the sources *)

Module Py.

(** [s.startswith(pre)] *)
Fixpoint startswith (s pre : string) : bool :=
  match pre, s with
  | EmptyString, _ => true
  | String _ _, EmptyString => false
  | String a pre', String b s' => Ascii.eqb a b && startswith s' pre'
  end.

(** [s.endswith(suf)] *)
Fixpoint endswith (s suf : string) : bool :=
  String.eqb s suf ||
  match s with
  | EmptyString => false
  | String _ s' => endswith s' suf
  end.

(** [sub in s] *)
Fixpoint str_in (sub s : string) : bool :=
  startswith s sub ||
  match s with
  | EmptyString => false
  | String _ s' => str_in sub s'
  end.

(** [s.split(sep)[0]] for a non-empty [sep]: the part of [s] before the
    first occurrence of [sep], all of [s] when there is none. *)
Fixpoint split_head (s sep : string) : string :=
  if startswith s sep then EmptyString
  else match s with
       | EmptyString => EmptyString
       | String c s' => String c (split_head s' sep)
       end.

(** [s.isascii()]: every character of [s] has a code below 128. *)
Definition isascii (s : string) : bool :=
  forallb (fun c => (N_of_ascii c <? 128)%N) (list_ascii_of_string s).

(** [s.lower()] for a string [s] of ASCII characters ([isascii s]), where
    it changes the letters A to Z and nothing else.  On other strings
    [str.lower()] follows the Unicode case mappings, which are not
    modelled: what is proved of [lower] is proved for ASCII strings. *)
Definition lower_char (c : ascii) : ascii :=
  let n := N_of_ascii c in
  if ((65 <=? n) && (n <=? 90))%N then ascii_of_N (n + 32) else c.

Fixpoint lower (s : string) : string :=
  match s with
  | EmptyString => EmptyString
  | String c s' => String (lower_char c) (lower s')
  end.

(** [s.replace(old, new)] for one-character [old] and [new] *)
Fixpoint replace (s : string) (old new : ascii) : string :=
  match s with
  | EmptyString => EmptyString
  | String c s' =>
      String (if Ascii.eqb c old then new else c) (replace s' old new)
  end.

(** Truthiness of an optional [str]: [None] and the empty string are
    falsy.  [nonempty o] is [Some s] exactly when [o] is a truthy [s]. *)
Definition nonempty (o : option string) : option string :=
  match o with
  | Some EmptyString => None
  | Some s => Some s
  | None => None
  end.

(** [sorted(l)] on a list of [str]: ascending in the order of [str],
    which compares character codes position by position. *)
Fixpoint insert (x : string) (l : list string) : list string :=
  match l with
  | [] => [x]
  | y :: l' => if String.leb x y then x :: l else y :: insert x l'
  end.

Definition sorted (l : list string) : list string :=
  fold_right insert [] l.

(** [data.startswith(sig)] on [bytes] *)
Fixpoint bytes_startswith (data sig : list byte) : bool :=
  match sig, data with
  | [], _ => true
  | _ :: _, [] => false
  | a :: sig', b :: data' => Byte.eqb a b && bytes_startswith data' sig'
  end.

(** [s.rfind(c)] for a character [c]: the last index of [c] in [s], -1
    when there is none.  [i] is the index of the head of [s]. *)
Fixpoint rfind_from (i : Z) (s : string) (c : ascii) : Z :=
  match s with
  | EmptyString => (-1)%Z
  | String a s' =>
      let r := rfind_from (i + 1)%Z s' c in
      if (0 <=? r)%Z then r else if Ascii.eqb a c then i else (-1)%Z
  end.

Definition rfind (s : string) (c : ascii) : Z := rfind_from 0%Z s c.

(** The loop of [genericpath._splitext] that skips leading dots: is there
    a character other than [.] among the first [n] characters of [s]? *)
Fixpoint has_non_dot (n : nat) (s : string) : bool :=
  match n, s with
  | S n', String c s' => negb (Ascii.eqb c ".") || has_non_dot n' s'
  | _, _ => false
  end.

(** [os.path.splitext(p)[1]] *)
Definition splitext_ext (p : string) : string :=
  let sepIndex := rfind p "/" in
  let dotIndex := rfind p "." in
  if (sepIndex <? dotIndex)%Z then
    let filenameIndex := Z.to_nat (sepIndex + 1) in
    let dot := Z.to_nat dotIndex in
    if has_non_dot (dot - filenameIndex)
         (substring filenameIndex (String.length p - filenameIndex) p)
    then substring dot (String.length p - dot) p
    else EmptyString
  else EmptyString.

(** [os.path.join(a, b)] *)
Definition path_join (a b : string) : string :=
  if startswith b "/" then b
  else if String.eqb a "" || endswith a "/" then a ++ b
  else a ++ "/" ++ b.

(** [base64.b64encode(bs).decode('utf-8')] *)
Definition b64_alphabet : string :=
  "ABCDEFGHIJKLMNOPQRSTUVWXYZabcdefghijklmnopqrstuvwxyz0123456789+/".

Definition b64_char (n : N) : ascii :=
  match String.get (N.to_nat (N.land n 63)) b64_alphabet with
  | Some c => c
  | None => "="%char
  end.

Definition b64_group (a b c : byte) : N :=
  N.lor (N.shiftl (Byte.to_N a) 16)
        (N.lor (N.shiftl (Byte.to_N b) 8) (Byte.to_N c)).

Fixpoint b64encode (bs : list byte) : string :=
  match bs with
  | [] => EmptyString
  | [a] =>
      let n := b64_group a x00 x00 in
      String (b64_char (N.shiftr n 18)) (String (b64_char (N.shiftr n 12)) "==")
  | [a; b] =>
      let n := b64_group a b x00 in
      String (b64_char (N.shiftr n 18)) (String (b64_char (N.shiftr n 12))
        (String (b64_char (N.shiftr n 6)) "="))
  | a :: b :: c :: rest =>
      let n := b64_group a b c in
      String (b64_char (N.shiftr n 18)) (String (b64_char (N.shiftr n 12))
        (String (b64_char (N.shiftr n 6)) (String (b64_char n)
          (b64encode rest))))
  end.

End Py.

(** ** Effects

    What the program does to the outside world, in the order it does it. *)

Inductive level := INFO | ERROR.

Record log_record := LogRecord {
  logger_name : string;
  levelname : level;
  message : string
}.

(** One entry of a user message's [content] list. *)
Inductive content_part :=
| TextPart (text : string)              (* {"type": "text", "text": ...} *)
| ImageUrlPart (url : string).          (* {"type": "image_url", "image_url": {"url": ...}} *)

Inductive content :=
| Text (s : string)
| Parts (l : list content_part).

Record chat_message := ChatMessage {
  role : string;
  msg_content : content
}.

(** One call of [client.chat.completions.create], with the endpoint and
    key the [openai.OpenAI] object was built with. *)
Record request := Request {
  req_base_url : string;
  req_api_key : string;
  req_model : string;
  req_messages : list chat_message;
  req_temperature : Q;
  req_max_tokens : Z;
  req_extra_headers : list (string * string)
}.

Inductive event :=
| Log (r : log_record)
| Sleep (seconds : Q)                               (* time.sleep *)
| ChatCreate (r : request)                          (* chat.completions.create *)
| Makedirs (path : string)                          (* os.makedirs *)
| WriteBytes (path : string) (data : list byte)     (* open(path, "wb").write *)
| ConvertToImages                                   (* worker.convert_to_images *)
| WriteText (path : string) (text : string)         (* open(path, 'w').write *)
| Print (text : string)            (* print(text): text, then a newline *)
| Rmtree (path : string).                           (* shutil.rmtree *)

(** The rendering collaborator of [core/FileWorker.py], as far as
    [main.py] uses it. *)
Record Worker := { convert_to_images : list string }.

(** The surroundings of a run: the environment variables, the files that
    can be read, the clock, the model provider and the two collaborators
    whose code lives outside the files modelled here. *)
Record World := {
  getenv : string -> option string;
  (** [open(path, "rb").read()]: the bytes, or the text of the exception *)
  read_file : string -> list byte + string;
  (** [time.strftime('%Y%m%d%H%M%S')] *)
  timestamp : string;
  (** the outcome of the [n]-th call of [chat.completions.create] and of
      reading [response.choices[0].message.content]: the content, or the
      text of the exception *)
  chat_create : nat -> request -> string + string;
  (** [core.Util.remove_markdown_warp(text, language)] *)
  remove_markdown_warp : string -> string -> string;
  (** [core.FileWorker.create_worker(path, start_page, end_page)]: a
      worker, or the text of the [ValueError] *)
  create_worker : string -> Z -> Z -> Worker + string
}.

(** How a piece of the program ends: with a value, with an exception
    (of class [Exception]) or by [exit(code)]. *)
Inductive outcome (A : Type) :=
| Return (a : A)
| Raise (e : string)
| Exit (code : Z).
Arguments Return {A} a.
Arguments Raise {A} e.
Arguments Exit {A} code.

(** A computation extends the trace of events and ends in an outcome. *)
Definition M (A : Type) : Type := list event -> outcome A * list event.

Definition ret {A} (a : A) : M A := fun tr => (Return a, tr).

Definition bind {A B} (m : M A) (f : A -> M B) : M B :=
  fun tr =>
    match m tr with
    | (Return a, tr') => f a tr'
    | (Raise e, tr') => (Raise e, tr')
    | (Exit c, tr') => (Exit c, tr')
    end.

Notation "x <- m ;; k" := (bind m (fun x => k))
  (at level 61, m at next level, right associativity).
Notation "m ;; k" := (bind m (fun _ => k))
  (at level 61, right associativity).

Definition emit (e : event) : M unit := fun tr => (Return tt, (tr ++ [e])%list).
Definition raise {A} (e : string) : M A := fun tr => (Raise e, tr).
Definition exit {A} (code : Z) : M A := fun tr => (Exit code, tr).

(** [try: m  except Exception as e: handler e] *)
Definition try_except {A} (m : M A) (handler : string -> M A) : M A :=
  fun tr =>
    match m tr with
    | (Raise e, tr') => handler e tr'
    | r => r
    end.

Definition is_chat_create (e : event) : bool :=
  match e with ChatCreate _ => true | _ => false end.

(** The provider answers the [n]-th request, [n] being the number of
    requests made before it. *)
Definition chat (w : World) (r : request) : M string :=
  fun tr =>
    let n := List.length (filter is_chat_create tr) in
    (match chat_create w n r with
     | inl text => Return text
     | inr e => Raise e
     end, (tr ++ [ChatCreate r])%list).

(** ** core/LLMClient.py *)

Module LLMClient.

Definition logger (lv : level) (msg : string) : M unit :=
  emit (Log (LogRecord "core.LLMClient" lv msg)).

Record LLMClient := {
  base_url : string;
  api_key : string;
  model : string
}.

(** Lines 26-31: the [/v1] rule of [__init__]. *)
Definition with_v1 (base_url : string) : string :=
  if Py.endswith base_url "/v1" then base_url
  else if Py.endswith base_url "/" then base_url ++ "v1"
  else base_url ++ "/v1".

(** The value [__init__] stores in [self.base_url]. *)
Definition init_base_url (base_url : string) : string :=
  let base_url :=
    if Py.str_in "/models" base_url then Py.split_head base_url "/models"
    else base_url in
  with_v1 base_url.

(** [LLMClient(base_url, api_key, model)] *)
Definition init (base_url api_key model : string) : M LLMClient :=
  let base_url := init_base_url base_url in
  logger INFO ("Using API base URL: " ++ base_url) ;;
  ret {| base_url := base_url; api_key := api_key; model := model |}.

Definition encode_image (w : World) (image_path : string) : M string :=
  match read_file w image_path with
  | inl data => ret (Py.b64encode data)
  | inr e => raise e
  end.

Definition image_entry (base64_image : string) : content_part :=
  ImageUrlPart ("data:image/jpeg;base64," ++ base64_image).

(** The loop [for img_path in image_paths: user_content.append(...)] *)
Fixpoint append_images (w : World) (user_content : list content_part)
    (image_paths : list string) : M (list content_part) :=
  match image_paths with
  | [] => ret user_content
  | img_path :: rest =>
      base64_image <- encode_image w img_path ;;
      append_images w (user_content ++ [image_entry base64_image])%list rest
  end.

Definition user_content (w : World) (user_message : string)
    (image_paths : option (list string)) : M (list content_part) :=
  let user_content := [TextPart user_message] in
  match image_paths with
  | Some (p :: ps) => append_images w user_content (p :: ps)
  | _ => ret user_content
  end.

Definition messages (system_prompt : option string)
    (user_content : list content_part) : list chat_message :=
  [ ChatMessage "system"
      (Text match system_prompt with Some s => s | None => "" end);
    ChatMessage "user" (Parts user_content) ].

Definition extra_headers (self : LLMClient) : list (string * string) :=
  if Py.str_in "openrouter.ai" (Py.lower (base_url self))
  then [("X-Title", "MarkPDFdown");
        ("HTTP-Referer", "https://github.com/jorben/markpdfdown")]
  else [].

(** The arguments of [self.client.chat.completions.create]. *)
Definition create_args (self : LLMClient) (messages : list chat_message)
    (temperature : Q) (max_tokens : Z) : request :=
  {| req_base_url := base_url self;
     req_api_key := api_key self;
     req_model := model self;
     req_messages := messages;
     req_temperature := temperature;
     req_max_tokens := max_tokens;
     req_extra_headers := extra_headers self |}.

Definition completion (w : World) (self : LLMClient) (user_message : string)
    (system_prompt : option string) (image_paths : option (list string))
    (temperature : Q) (max_tokens : Z) : M string :=
  user_content <- user_content w user_message image_paths ;;
  let messages := messages system_prompt user_content in
  try_except
    (chat w (create_args self messages temperature max_tokens))
    (fun e => logger ERROR ("API request failed: " ++ e) ;; raise e).

End LLMClient.

(** ** main.py *)

Module Main.

Definition logger (lv : level) (msg : string) : M unit :=
  emit (Log (LogRecord "__main__" lv msg)).

(** The base URL [completion] hands to the client, from the value of
    [OPENAI_API_BASE]. *)
Definition api_base_url (env : option string) : string :=
  let base_url :=
    match Py.nonempty env with
    | Some b =>
        if Py.str_in "/models" b then Some (Py.split_head b "/models") else env
    | None => env
    end in
  match Py.nonempty base_url with
  | Some b => b
  | None => "https://api.openai.com"
  end.

(** The model name, from the argument and [OPENAI_DEFAULT_MODEL]. *)
Definition model_name (w : World) (model : string) : string :=
  match Py.nonempty (Some model) with
  | Some m => m
  | None =>
      match Py.nonempty (getenv w "OPENAI_DEFAULT_MODEL") with
      | Some m => m
      | None => "gpt-4o"
      end
  end.

(** The loop [for _ in range(retry_times)] around one [call] of the
    client. *)
Fixpoint attempts (retry_times : nat) (call : M string) : M string :=
  match retry_times with
  | O => ret ""
  | S n =>
      try_except call
        (fun e =>
           logger ERROR ("LLM call failed: " ++ e) ;;
           emit (Sleep (1 # 2)) ;;
           attempts n call)
  end.

Definition completion (w : World) (message model : string)
    (system_prompt : option string) (image_paths : option (list string))
    (temperature : Q) (max_tokens : Z) (retry_times : nat) : M string :=
  match Py.nonempty (getenv w "OPENAI_API_KEY") with
  | None =>
      logger ERROR "Please set the OPENAI_API_KEY environment variables" ;;
      exit 1
  | Some api_key =>
      let base_url := api_base_url (getenv w "OPENAI_API_BASE") in
      logger INFO ("Using API base URL: " ++ base_url) ;;
      let model := model_name w model in
      client <- LLMClient.init base_url api_key model ;;
      attempts retry_times
        (LLMClient.completion w client message system_prompt image_paths
           temperature max_tokens)
  end.

(** The endpoint the client ends up with, from the value of
    [OPENAI_API_BASE]: lines 41-47 followed by [LLMClient.__init__]. *)
Definition endpoint (env : option string) : string :=
  LLMClient.init_base_url (api_base_url env).

(** The client object [completion] works with (line 58), for the key
    found in the environment. *)
Definition client (w : World) (api_key model : string)
    : LLMClient.LLMClient :=
  {| LLMClient.base_url := endpoint (getenv w "OPENAI_API_BASE");
     LLMClient.api_key := api_key;
     LLMClient.model := model_name w model |}.

Definition user_prompt : string :=
  "
Please read the content in the image and transcribe it into plain Markdown format. Please note:
1. Maintain the format of headings, text, formulas, and table rows and columns
2. Mathematical formulas should be transcribed using LaTeX syntax, ensuring consistency with the original
3. No additional explanation is needed, and no content outside the original text should be added.
    ".

Definition convert_image_to_markdown (w : World) (image_path : string)
    : M string :=
  response <- completion w user_prompt "" (Some "") (Some [image_path])
                (3 # 10) 8192 3 ;;
  ret (remove_markdown_warp w response "markdown").

(** What the argument parsing and the reading of the input leave behind
    for the rest of the script. *)
Record Input := {
  input_filename : string;
  input_data : list byte;
  output_path : option string;
  start_page : Z;
  end_page : Z
}.

(** The extension chosen from the leading bytes of the input. *)
Definition sniff (input_data : list byte) : M string :=
  if Py.bytes_startswith input_data [x25; x50; x44; x46; x2d] then
    logger INFO "Recognized as PDF file by file content" ;; ret ".pdf"
  else if Py.bytes_startswith input_data [xff; xd8; xff; xdb] then
    logger INFO "Recognized as JPEG file by file content" ;; ret ".jpg"
  else if Py.bytes_startswith input_data [x89; x50; x4e; x47] then
    logger INFO "Recognized as PNG file by file content" ;; ret ".png"
  else if Py.bytes_startswith input_data [x42; x4d] then
    logger INFO "Recognized as BMP file by file content" ;; ret ".bmp"
  else
    logger ERROR "Unsupported file type" ;; exit 1.

(** Lines 151-173: the extension of the temporary copy of the input. *)
Definition classify (input_filename : string) (input_data : list byte)
    : M string :=
  let input_ext := Py.splitext_ext input_filename in
  if String.eqb input_ext "" || String.eqb input_filename "<stdin>"
  then sniff input_data
  else ret input_ext.

Definition two_newlines : string := String "010" (String "010" "").

(** The loop over the page images, already sorted. *)
Fixpoint pages (w : World) (markdown : string) (img_paths : list string)
    : M string :=
  match img_paths with
  | [] => ret markdown
  | img_path :: rest =>
      let img_path := Py.replace img_path "\" "/" in
      logger INFO ("Converting image " ++ img_path ++ " to Markdown") ;;
      fragment <- convert_image_to_markdown w img_path ;;
      pages w (markdown ++ fragment ++ two_newlines) rest
  end.

(** The script from the creation of the output directory on, in a run
    where every operation on the file system succeeds.  [Disk.run] below
    is the same script with operations that can fail. *)
Definition run (w : World) (i : Input) : M unit :=
  let output_dir := "output/" ++ timestamp w in
  emit (Makedirs output_dir) ;;
  input_ext <- classify (input_filename i) (input_data i) ;;
  let temp_input_path := Py.path_join output_dir ("input" ++ input_ext) in
  emit (WriteBytes temp_input_path (input_data i)) ;;
  match create_worker w temp_input_path (start_page i) (end_page i) with
  | inr e => logger ERROR e ;; exit 1
  | inl worker =>
      emit ConvertToImages ;;
      let img_paths := convert_to_images worker in
      logger INFO "Image conversion completed" ;;
      markdown <- pages w "" (Py.sorted img_paths) ;;
      logger INFO "Image conversion to Markdown completed" ;;
      match Py.nonempty (output_path i) with
      | Some path =>
          emit (WriteText path markdown) ;;
          logger INFO ("Markdown saved to " ++ path)
      | None => emit (Print markdown)
      end ;;
      emit (Rmtree output_dir) ;;
      exit 0
  end.

End Main.

(** ** main.py, from the command line to the input *)

Module Script.

(** What the script finds when it starts: the command line, which paths
    are files, the bytes waiting on standard input, and the built-in
    [int]. *)
Record Shell := {
  (** [sys.argv], the script's own name first *)
  argv : list string;
  (** [os.path.isfile] *)
  isfile : string -> bool;
  (** [sys.stdin.buffer.read()] *)
  stdin : list byte;
  (** [int(s)]: the number, or the text of the [ValueError] *)
  int : string -> Z + string
}.

Definition help_msg : string :=
  "Usage: python main.py [input.pdf] [output.md] [start_page] [end_page]"
  ++ String "010"
       "   or: python main.py [start_page] [end_page] < input.pdf".

(** [os.path.basename(p)] *)
Definition basename (p : string) : string :=
  let i := Z.to_nat (Py.rfind p "/" + 1) in
  substring i (String.length p - i) p.

Definition to_int (sh : Shell) (s : string) : M Z :=
  match int sh s with
  | inl n => ret n
  | inr e => raise e
  end.

(** The page numbers from the arguments [pages], which follow the path
    and the output file when there are such: none, the first page, or
    the first and the last. *)
Definition page_args (sh : Shell) (pages : list string) : M (Z * Z) :=
  match pages with
  | [] => ret (1, 0)%Z
  | first :: rest =>
      start_page <- to_int sh first ;;
      match rest with
      | [] => ret (start_page, 0%Z)
      | last :: _ =>
          end_page <- to_int sh last ;;
          ret (start_page, end_page)
      end
  end.

Record Args := {
  input_path : option string;
  output_path : option string;
  start_page : Z;
  end_page : Z
}.

(** Lines 94-128: the command line. *)
Definition parse_args (sh : Shell) : M Args :=
  match argv sh with
  | _ :: arg1 :: rest =>
      if isfile sh arg1 || Py.endswith arg1 ".pdf" then
        match rest with
        | [] => ret {| input_path := Some arg1; output_path := None;
                       start_page := 1; end_page := 0 |}
        | arg2 :: rest' =>
            if Py.endswith arg2 ".md" then
              pages <- page_args sh rest' ;;
              ret {| input_path := Some arg1; output_path := Some arg2;
                     start_page := fst pages; end_page := snd pages |}
            else
              pages <- page_args sh (arg2 :: rest') ;;
              ret {| input_path := Some arg1; output_path := None;
                     start_page := fst pages; end_page := snd pages |}
        end
      else
        try_except
          (pages <- page_args sh (arg1 :: rest) ;;
           ret {| input_path := None; output_path := None;
                  start_page := fst pages; end_page := snd pages |})
          (fun _ =>
             Main.logger ERROR "Invalid page number" ;;
             Main.logger ERROR help_msg ;;
             exit 1)
  | _ => ret {| input_path := None; output_path := None;
                start_page := 1; end_page := 0 |}
  end.

(** Lines 131-144: the bytes of the input and the file name they go
    by. *)
Definition read_input (w : World) (sh : Shell) (input_path : option string)
    : M (list byte * string) :=
  match Py.nonempty input_path with
  | Some path =>
      match read_file w path with
      | inl data => ret (data, basename path)
      | inr e => raise e
      end
  | None =>
      match stdin sh with
      | [] =>
          Main.logger ERROR "No input data received" ;;
          Main.logger ERROR help_msg ;;
          exit 1
      | data => ret (data, basename "<stdin>")
      end
  end.

(** The script as a whole. *)
Definition main (w : World) (sh : Shell) : M unit :=
  args <- parse_args sh ;;
  input <- read_input w sh (input_path args) ;;
  Main.run w {| Main.input_filename := snd input;
                Main.input_data := fst input;
                Main.output_path := output_path args;
                Main.start_page := start_page args;
                Main.end_page := end_page args |}.

End Script.

(** ** main.py, when the file operations fail

    [Main.run] is the script with every operation on the file system
    succeeding.  None of them is inside a [try], so each one can end the
    script with its exception: [os.makedirs] (line 148), the copy of the
    input (176-177), [create_worker] with an exception other than
    [ValueError] (181), [convert_to_images] (187), the output of the
    document (201-202, or [print] at 205) and [shutil.rmtree] (208). *)

Module Disk.

(** For each of these operations, whether it fails in this run, and with
    which exception. *)
Record Faults := {
  makedirs : option string;
  store : option string;
  factory : option string;
  render : option string;
  output : option string;
  rmtree : option string
}.

Definition none : Faults :=
  {| makedirs := None; store := None; factory := None; render := None;
     output := None; rmtree := None |}.

(** An operation that raises, or else takes place. *)
Definition step (fault : option string) (e : event) : M unit :=
  match fault with
  | Some err => raise err
  | None => emit e
  end.

(** The script from the creation of the output directory on; with no
    fault it is [Main.run]. *)
Definition run (w : World) (f : Faults) (i : Main.Input) : M unit :=
  let output_dir := "output/" ++ timestamp w in
  step (makedirs f) (Makedirs output_dir) ;;
  input_ext <- Main.classify (Main.input_filename i) (Main.input_data i) ;;
  let temp_input_path := Py.path_join output_dir ("input" ++ input_ext) in
  step (store f) (WriteBytes temp_input_path (Main.input_data i)) ;;
  match factory f with
  | Some err => raise err
  | None =>
      match create_worker w temp_input_path
              (Main.start_page i) (Main.end_page i) with
      | inr e => Main.logger ERROR e ;; exit 1
      | inl worker =>
          step (render f) ConvertToImages ;;
          let img_paths := convert_to_images worker in
          Main.logger INFO "Image conversion completed" ;;
          markdown <- Main.pages w "" (Py.sorted img_paths) ;;
          Main.logger INFO "Image conversion to Markdown completed" ;;
          match Py.nonempty (Main.output_path i) with
          | Some path =>
              step (output f) (WriteText path markdown) ;;
              Main.logger INFO ("Markdown saved to " ++ path)
          | None => step (output f) (Print markdown)
          end ;;
          step (rmtree f) (Rmtree output_dir) ;;
          exit 0
      end
  end.


End Disk.

(** ** Observations on a trace *)

(** The back-off waits, in order. *)
Definition sleeps (tr : list event) : list Q :=
  flat_map (fun e => match e with Sleep d => [d] | _ => [] end) tr.

(** The requests made to the provider, in order. *)
Definition requests (tr : list event) : list request :=
  flat_map (fun e => match e with ChatCreate r => [r] | _ => [] end) tr.

Definition is_error (lv : level) : bool :=
  match lv with ERROR => true | INFO => false end.

(** The messages logged at level [ERROR] by the logger [name]. *)
Definition errors_of (name : string) (tr : list event) : list string :=
  flat_map (fun e =>
    match e with
    | Log r =>
        if String.eqb (logger_name r) name && is_error (levelname r)
        then [message r] else []
    | _ => []
    end) tr.

(** The Markdown documents put out, to a file or on standard output. *)
Definition documents (tr : list event) : list string :=
  flat_map (fun e =>
    match e with
    | WriteText _ text => [text]
    | Print text => [text]
    | _ => []
    end) tr.

(** The pages taken up by the page loop, as it announces them. *)
Definition announced (tr : list event) : list string :=
  flat_map (fun e =>
    match e with
    | Log r =>
        if String.eqb (logger_name r) "__main__"
           && negb (is_error (levelname r))
           && Py.startswith (message r) "Converting image "
        then [message r] else []
    | _ => []
    end) tr.

Definition announcement (img_path : string) : string :=
  "Converting image " ++ Py.replace img_path "\" "/" ++ " to Markdown".

(** The events [completion] of [main.py] can add to a trace: waits,
    requests, what the client logs, and of its own logger the errors and
    the line on the base URL. *)
Definition of_completion (e : event) : bool :=
  match e with
  | Sleep _ | ChatCreate _ => true
  | Log r =>
      String.eqb (logger_name r) "core.LLMClient"
      || (String.eqb (logger_name r) "__main__"
          && (is_error (levelname r)
              || Py.startswith (message r) "Using API base URL: "))
  | _ => false
  end.

(** The number of image entries in the user messages of a request. *)
Definition image_entries (r : request) : nat :=
  List.length (flat_map (fun m =>
    match msg_content m with
    | Parts l =>
        if String.eqb (role m) "user"
        then filter (fun p => match p with ImageUrlPart _ => true | _ => false end) l
        else []
    | Text _ => []
    end) (req_messages r)).

Definition with_role (name : string) (msgs : list chat_message)
    : list chat_message :=
  filter (fun m => String.eqb (role m) name) msgs.

(** The fragments the pages of [img_paths] yield when
    [convert_image_to_markdown] runs on them one after the other, from
    the trace [tr] to the trace [tr']. *)
Inductive page_fragments (w : World)
    : list event -> list string -> list string -> list event -> Prop :=
| fragments_nil tr : page_fragments w tr [] [] tr
| fragments_cons tr img_path rest fragment tr1 fragments tr2 :
    Main.convert_image_to_markdown w (Py.replace img_path "\" "/")
      (tr ++ [Log (LogRecord "__main__" INFO (announcement img_path))])%list
    = (Return fragment, tr1) ->
    page_fragments w tr1 rest fragments tr2 ->
    page_fragments w tr (img_path :: rest) (fragment :: fragments) tr2.

(** Each fragment followed by two newline characters, concatenated. *)
Definition assemble (fragments : list string) : string :=
  fold_right (fun fragment acc => fragment ++ Main.two_newlines ++ acc)
    "" fragments.

(** ** Further observations on a trace *)

(** The directories created and removed. *)
Definition created (tr : list event) : list string :=
  flat_map (fun e => match e with Makedirs d => [d] | _ => [] end) tr.

Definition removed (tr : list event) : list string :=
  flat_map (fun e => match e with Rmtree d => [d] | _ => [] end) tr.

(** The text files written, with their paths, and the texts printed. *)
Definition written (tr : list event) : list (string * string) :=
  flat_map (fun e =>
    match e with WriteText path text => [(path, text)] | _ => [] end) tr.

Definition printed (tr : list event) : list string :=
  flat_map (fun e => match e with Print text => [text] | _ => [] end) tr.

(** What standard output receives: each text printed, and the newline
    [print] puts after it. *)
Definition stdout (tr : list event) : string :=
  fold_right (fun text acc => text ++ String "010" acc) "" (printed tr).

(** The binary files written, with their paths. *)
Definition stored (tr : list event) : list (string * list byte) :=
  flat_map (fun e =>
    match e with WriteBytes path data => [(path, data)] | _ => [] end) tr.

(** The headers the client adds for the aggregator. *)
Definition openrouter_headers : list (string * string) :=
  [("X-Title", "MarkPDFdown");
   ("HTTP-Referer", "https://github.com/jorben/markpdfdown")].

(** The events that touch no file or directory and put nothing out. *)
Definition leaves_files_alone (e : event) : bool :=
  match e with
  | Log _ | Sleep _ | ChatCreate _ => true
  | _ => false
  end.

(** The request of the page loop for the image [data], with the key
    [key]. *)
Definition page_request (w : World) (key : string) (data : list byte)
    : request :=
  LLMClient.create_args (Main.client w key "")
    (LLMClient.messages (Some "")
       [TextPart Main.user_prompt;
        LLMClient.image_entry (Py.b64encode data)])
    (3 # 10) 8192.

(** No character of [pat] is [a]. *)
Definition foreign (a : ascii) (pat : string) : bool :=
  forallb (fun c => negb (Ascii.eqb c a)) (list_ascii_of_string pat).

(** ** core/Util.py *)

Module Util.

Definition newline : string := String "010" "".

(** Modelled from the spec: [core/Util.py], where [remove_markdown_warp]
    is defined, is not among the sources.  "For each page response, remove
    a leading/trailing fenced-code-block wrapper whose language tag
    matches [markdown] (case-insensitive), if present; otherwise leave the
    text unchanged." *)
Definition remove_markdown_warp (text language : string) : string :=
  let opening := "```" ++ Py.lower language ++ newline in
  let closing := newline ++ "```" in
  if Py.startswith (Py.lower text) opening && Py.endswith text closing
     && (String.length opening + String.length closing
         <=? String.length text)%nat
  then substring (String.length opening)
         (String.length text - String.length opening - String.length closing)
         text
  else text.

End Util.

(** ** Sample surroundings, for concrete runs *)

Module Sample.

(** A world with the given API key, whose renderer returns [img_paths],
    all of them readable PNG files, and whose provider answers the
    [n]-th request with [answers n]. *)
Definition world (key : option string) (img_paths : list string)
    (answers : nat -> string + string) : World :=
  {| getenv := fun name =>
       if String.eqb name "OPENAI_API_KEY" then key else None;
     read_file := fun path =>
       if existsb (String.eqb path)
            (map (fun p => Py.replace p "\" "/") img_paths)
       then inl [x89; x50; x4e; x47; x0d; x0a]
       else inr ("[Errno 2] No such file or directory: " ++ path);
     timestamp := "20240101120000";
     chat_create := fun n _ => answers n;
     remove_markdown_warp := Util.remove_markdown_warp;
     create_worker := fun _ _ _ =>
       inl {| convert_to_images := img_paths |} |}.

(** A PDF piped in on standard input, output on standard output. *)
Definition piped_pdf : Main.Input :=
  {| Main.input_filename := "<stdin>";
     Main.input_data := [x25; x50; x44; x46; x2d; x31; x2e; x37];
     Main.output_path := None;
     Main.start_page := 1;
     Main.end_page := 0 |}.

(** The provider fails the first two requests and answers from the
    third on. *)
Definition third_time_lucky (n : nat) : string + string :=
  if (n <? 2)%nat then inr "Connection error." else inl "# Title".

(** Decimal digits only, as a stand-in for [int]. *)
Fixpoint digits (acc : Z) (s : string) : option Z :=
  match s with
  | EmptyString => Some acc
  | String c s' =>
      let n := Z.of_N (N_of_ascii c) in
      if ((48 <=? n) && (n <=? 57))%Z
      then digits (10 * acc + (n - 48))%Z s'
      else None
  end.

Definition int (s : string) : Z + string :=
  match s with
  | EmptyString => inr "invalid literal for int() with base 10: ''"
  | _ =>
      match digits 0 s with
      | Some n => inl n
      | None => inr ("invalid literal for int() with base 10: " ++ s)
      end
  end.

(** A shell with the given command line and standard input, in which
    the paths of [files] are files. *)
Definition shell (args : list string) (files : list string)
    (input : list byte) : Script.Shell :=
  {| Script.argv := "main.py" :: args;
     Script.isfile := fun p => existsb (String.eqb p) files;
     Script.stdin := input;
     Script.int := int |}.

(** The provider fails every request. *)
Definition down (n : nat) : string + string := inr "Connection error.".

(** The provider answers the first request only. *)
Definition first_only (n : nat) : string + string :=
  match n with
  | O => inl "# A"
  | S _ => inr "Connection error."
  end.

(** The request shows the image of the file [path]. *)
Definition shows (path : string) (r : request) : bool :=
  existsb (fun m =>
    match msg_content m with
    | Parts l =>
        existsb (fun part =>
          match part with
          | ImageUrlPart url =>
              String.eqb url
                ("data:image/jpeg;base64,"
                 ++ Py.b64encode (list_byte_of_string path))
          | TextPart _ => false
          end) l
    | Text _ => false
    end) (req_messages r).

(** A world whose pages differ: the renderer returns [img_paths], the
    image at each path of [book] holds the bytes of its own path, and
    the provider answers a request by the page it shows, as [book]
    says. *)
Definition library (key : option string)
    (book : list (string * (string + string))) (img_paths : list string)
    : World :=
  {| getenv := fun name =>
       if String.eqb name "OPENAI_API_KEY" then key else None;
     read_file := fun path =>
       if existsb (String.eqb path) (map fst book)
       then inl (list_byte_of_string path)
       else inr ("[Errno 2] No such file or directory: " ++ path);
     timestamp := "20240101120000";
     chat_create := fun _ r =>
       match find (fun entry => shows (fst entry) r) book with
       | Some entry => snd entry
       | None => inr "Connection error."
       end;
     remove_markdown_warp := Util.remove_markdown_warp;
     create_worker := fun _ _ _ =>
       inl {| convert_to_images := img_paths |} |}.

(** The world [w] with [OPENAI_API_BASE] set to [base]. *)
Definition at_base (base : string) (w : World) : World :=
  {| getenv := fun name =>
       if String.eqb name "OPENAI_API_BASE" then Some base
       else getenv w name;
     read_file := read_file w;
     timestamp := timestamp w;
     chat_create := chat_create w;
     remove_markdown_warp := remove_markdown_warp w;
     create_worker := create_worker w |}.



End Sample.

(** ** The endpoint normalisation as the specification words it

    "Strip any trailing [/models] suffix from a configured base URL; if
    the base URL already ends in [/v1] leave it; else append [/v1]
    (adding a separating slash only if absent)."  Written from these
    words, to be compared with [LLMClient.init_base_url]. *)

Module Specified.

(** [s] without its suffix [suf], [s] itself when it does not end in
    [suf]. *)
Fixpoint strip_suffix (s suf : string) : string :=
  if String.eqb s suf then EmptyString
  else match s with
       | EmptyString => EmptyString
       | String c s' => String c (strip_suffix s' suf)
       end.

Definition normalize (base_url : string) : string :=
  let base_url := strip_suffix base_url "/models" in
  if Py.endswith base_url "/v1" then base_url
  else if Py.endswith base_url "/" then base_url ++ "v1"
  else base_url ++ "/v1".

(** The signature table of the input classifier: "[%PDF-] -> PDF;
    [FF D8 FF DB] -> JPEG; [89 50 4E 47] -> PNG; [42 4D] -> BMP", each
    type written as the extension [main.py] uses for it. *)
Definition signature_table : list (list byte * string) :=
  [ ([x25; x50; x44; x46; x2d], ".pdf");
    ([xff; xd8; xff; xdb], ".jpg");
    ([x89; x50; x4e; x47], ".png");
    ([x42; x4d], ".bmp") ].

(** No signature of the table leads the data. *)
Definition no_signature (data : list byte) : bool :=
  forallb (fun entry => negb (Py.bytes_startswith data (fst entry)))
    signature_table.

(** The extensions of the document types of the data model (PDF, JPEG,
    PNG, BMP). *)
Definition recognized_ext (ext : string) : bool :=
  existsb (String.eqb (Py.lower ext))
    [".pdf"; ".jpg"; ".jpeg"; ".png"; ".bmp"].

End Specified.

(** * Properties *)

(** ** The built-ins on known values *)

Example splitext_ext_values :
  map Py.splitext_ext
    ["a.pdf"; "<stdin>"; ".bashrc"; "x.tar.gz"; "..a"; "a."; "d.x/f"; "scan"]
  = [".pdf"; ""; ""; ".gz"; ""; "."; ""; ""].
Proof. vm_compute. reflexivity. Qed.

Example b64encode_values :
  map Py.b64encode
    [list_byte_of_string "Man"; list_byte_of_string "Ma";
     list_byte_of_string "M"; list_byte_of_string "light work.";
     [xff; xd8; xff; xdb]]
  = ["TWFu"; "TWE="; "TQ=="; "bGlnaHQgd29yay4="; "/9j/2w=="].
Proof. vm_compute. reflexivity. Qed.

Example lower_value :
  Py.lower "https://OpenRouter.AI/api" = "https://openrouter.ai/api".
Proof. reflexivity. Qed.

Example path_join_value :
  Py.path_join "output/20240101120000" "input.pdf"
  = "output/20240101120000/input.pdf".
Proof. reflexivity. Qed.

Example remove_markdown_warp_values :
  Util.remove_markdown_warp
    ("```markdown" ++ Util.newline ++ "# Title" ++ Util.newline ++ "```")
    "markdown" = "# Title" /\
  Util.remove_markdown_warp "# Title" "markdown" = "# Title" /\
  Util.remove_markdown_warp "" "markdown" = "".
Proof. repeat split. Qed.

(** ** Strings *)

Section StringFacts.

Lemma append_nil_r (s : string) : s ++ "" = s.
Proof. induction s as [|c s IH]; simpl; [reflexivity | now rewrite IH]. Qed.

Lemma append_assoc (a b c : string) : (a ++ b) ++ c = a ++ (b ++ c).
Proof. induction a as [|x a IH]; simpl; [reflexivity | now rewrite IH]. Qed.

Lemma append_inv_l (p a b : string) : p ++ a = p ++ b -> a = b.
Proof.
  induction p as [|x p IH]; simpl; intros H; [exact H|].
  injection H as H. auto.
Qed.

Lemma length_append (a b : string) :
  String.length (a ++ b) = String.length a + String.length b.
Proof. induction a as [|x a IH]; simpl; [reflexivity | now rewrite IH]. Qed.

Lemma startswith_nil (s : string) : Py.startswith s "" = true.
Proof. destruct s; reflexivity. Qed.

Lemma startswith_iff (s pre : string) :
  Py.startswith s pre = true <-> exists r, s = pre ++ r.
Proof.
  revert s. induction pre as [|a pre IH]; intros s.
  - rewrite startswith_nil. split; [intros _; now exists s | reflexivity].
  - destruct s as [|b s]; simpl.
    + split; [discriminate | intros [r Hr]; discriminate].
    + rewrite andb_true_iff, IH. split.
      * intros [Hab [r ->]]. apply Ascii.eqb_eq in Hab as ->. now exists r.
      * intros [r Hr]. injection Hr as -> ->.
        split; [apply Ascii.eqb_refl | now exists r].
Qed.

Lemma endswith_nil (suf : string) :
  Py.endswith "" suf = String.eqb "" suf.
Proof. unfold Py.endswith. apply orb_false_r. Qed.

Lemma endswith_cons (c : ascii) (s suf : string) :
  Py.endswith (String c s) suf
  = String.eqb (String c s) suf || Py.endswith s suf.
Proof. reflexivity. Qed.

Lemma str_in_nil (sub : string) :
  Py.str_in sub "" = Py.startswith "" sub.
Proof. unfold Py.str_in. apply orb_false_r. Qed.

Lemma str_in_cons (sub : string) (c : ascii) (s : string) :
  Py.str_in sub (String c s)
  = Py.startswith (String c s) sub || Py.str_in sub s.
Proof. reflexivity. Qed.

Lemma endswith_iff (s suf : string) :
  Py.endswith s suf = true <-> exists p, s = p ++ suf.
Proof.
  induction s as [|c s IH].
  - rewrite endswith_nil, String.eqb_eq. split.
    + intros <-. now exists "".
    + intros [[|x p] Hp]; simpl in Hp; [exact Hp | discriminate].
  - rewrite endswith_cons, orb_true_iff, String.eqb_eq, IH. split.
    + intros [<- | [p ->]]; [now exists "" | now exists (String c p)].
    + intros [[|x p] Hp]; simpl in Hp; [now left|].
      injection Hp as -> ->. right. now exists p.
Qed.

Lemma endswith_app (p suf : string) : Py.endswith (p ++ suf) suf = true.
Proof. apply endswith_iff. now exists p. Qed.

Lemma str_in_iff (sub s : string) :
  Py.str_in sub s = true <-> exists p r, s = p ++ sub ++ r.
Proof.
  induction s as [|c s IH].
  - rewrite str_in_nil, startswith_iff. split.
    + intros [r Hr]. now exists "", r.
    + intros [[|x p] [r Hr]]; simpl in Hr; [now exists r | discriminate].
  - rewrite str_in_cons, orb_true_iff, startswith_iff, IH. split.
    + intros [[r Hr] | [p [r ->]]]; [now exists "", r | now exists (String c p), r].
    + intros [[|x p] [r Hr]]; simpl in Hr; [left; now exists r|].
      injection Hr as -> ->. right. now exists p, r.
Qed.

Lemma split_head_nil (sep : string) : Py.split_head "" sep = "".
Proof. unfold Py.split_head. now destruct (Py.startswith "" sep). Qed.

Lemma split_head_cons (c : ascii) (s sep : string) :
  Py.split_head (String c s) sep
  = if Py.startswith (String c s) sep then ""
    else String c (Py.split_head s sep).
Proof. reflexivity. Qed.

(** [split_head] returns a part of [s] that ends where [sep] begins. *)
Lemma split_head_found (s sep : string) :
  Py.str_in sep s = true ->
  exists r, s = Py.split_head s sep ++ sep ++ r.
Proof.
  induction s as [|c s IH].
  - rewrite str_in_nil, split_head_nil. intros H.
    apply startswith_iff in H. exact H.
  - rewrite str_in_cons, split_head_cons.
    destruct (Py.startswith (String c s) sep) eqn:E.
    + intros _. apply startswith_iff in E. exact E.
    + simpl. intros H. destruct (IH H) as [r Hr].
      exists r. now rewrite <- Hr.
Qed.

Lemma split_head_absent (s sep : string) :
  Py.str_in sep s = false -> Py.split_head s sep = s.
Proof.
  induction s as [|c s IH].
  - intros _. apply split_head_nil.
  - rewrite str_in_cons, split_head_cons. intros H.
    apply orb_false_iff in H as [H1 H2]. now rewrite H1, IH.
Qed.

Lemma split_head_is_prefix (s sep : string) :
  exists r, s = Py.split_head s sep ++ r.
Proof.
  destruct (Py.str_in sep s) eqn:E.
  - destruct (split_head_found _ _ E) as [r Hr]. now exists (sep ++ r).
  - exists "". now rewrite split_head_absent, append_nil_r.
Qed.

(** No occurrence of [sep] lies within what [split_head] returns: the
    occurrence it stops at is the first. *)
Lemma str_in_split_head (s sep : string) :
  sep <> "" -> Py.str_in sep (Py.split_head s sep) = false.
Proof.
  intros Hsep.
  assert (Hnil : Py.str_in sep "" = false).
  { rewrite str_in_nil. destruct sep; [congruence | reflexivity]. }
  induction s as [|c s IH].
  - now rewrite split_head_nil.
  - rewrite split_head_cons.
    destruct (Py.startswith (String c s) sep) eqn:E; [exact Hnil|].
    rewrite str_in_cons, IH, orb_false_r.
    destruct (Py.startswith (String c (Py.split_head s sep)) sep) eqn:E';
      [|reflexivity].
    apply startswith_iff in E' as [r Hr].
    destruct (split_head_is_prefix s sep) as [r' Hr'].
    assert (Py.startswith (String c s) sep = true); [|congruence].
    apply startswith_iff. exists (r ++ r').
    rewrite <- append_assoc, <- Hr. simpl. now rewrite <- Hr'.
Qed.

Lemma strip_suffix_nil (suf : string) : Specified.strip_suffix "" suf = "".
Proof. unfold Specified.strip_suffix. now destruct (String.eqb "" suf). Qed.

Lemma strip_suffix_cons (c : ascii) (s suf : string) :
  Specified.strip_suffix (String c s) suf
  = if String.eqb (String c s) suf then ""
    else String c (Specified.strip_suffix s suf).
Proof. reflexivity. Qed.

Lemma strip_suffix_found (s suf : string) :
  Py.endswith s suf = true -> s = Specified.strip_suffix s suf ++ suf.
Proof.
  induction s as [|c s IH].
  - rewrite endswith_nil, strip_suffix_nil. intros H.
    now apply String.eqb_eq in H.
  - rewrite endswith_cons, strip_suffix_cons.
    destruct (String.eqb (String c s) suf) eqn:E.
    + intros _. now apply String.eqb_eq in E.
    + simpl. intros H. now rewrite <- IH.
Qed.

Lemma strip_suffix_absent (s suf : string) :
  Py.endswith s suf = false -> Specified.strip_suffix s suf = s.
Proof.
  induction s as [|c s IH].
  - intros _. apply strip_suffix_nil.
  - rewrite endswith_cons, strip_suffix_cons. intros H.
    apply orb_false_iff in H as [H1 H2]. now rewrite H1, IH.
Qed.

End StringFacts.

(** ** The endpoint: [/models] and [/v1] *)

Section Endpoint.

(** [/models] has its only slash in front: text appended to a string
    that is not empty cannot complete an occurrence that starts in the
    string when the text begins with a character that none of [models]
    is. *)
Lemma startswith_models_app (x a : ascii) (q t : string) :
  forallb (fun c => negb (Ascii.eqb c a)) ["m"; "o"; "d"; "e"; "l"; "s"]%char
  = true ->
  Py.startswith (String x q) "/models" = false ->
  Py.startswith (String x q ++ String a t) "/models" = false.
Proof.
  intros Ha H. cbn [forallb] in Ha.
  rewrite !andb_true_iff, !negb_true_iff in Ha.
  destruct Ha as (Hm & Ho & Hd & He & Hl & Hs & _).
  destruct q as [|c1 [|c2 [|c3 [|c4 [|c5 [|c6 q]]]]]];
    cbn [Py.startswith append] in *;
    rewrite ?Hm, ?Ho, ?Hd, ?He, ?Hl, ?Hs, ?andb_false_r;
    try reflexivity.
  rewrite startswith_nil in *. exact H.
Qed.

Lemma str_in_models_app (a : ascii) (b t : string) :
  forallb (fun c => negb (Ascii.eqb c a)) ["m"; "o"; "d"; "e"; "l"; "s"]%char
  = true ->
  Py.str_in "/models" b = false ->
  Py.str_in "/models" (String a t) = false ->
  Py.str_in "/models" (b ++ String a t) = false.
Proof.
  intros Ha Hb Ht. induction b as [|x b IH]; [exact Ht|].
  rewrite str_in_cons in Hb. apply orb_false_iff in Hb as [H1 H2].
  change (String x b ++ String a t) with (String x (b ++ String a t)).
  rewrite str_in_cons, (IH H2), orb_false_r.
  now apply (startswith_models_app x a b t).
Qed.

(** The first occurrence of [/models] in [p ++ "/models" ++ r] is the
    first one of [p], or the one written out when [p] has none. *)
Lemma split_head_models_fresh (p r : string) :
  Py.str_in "/models" p = false ->
  Py.split_head (p ++ "/models" ++ r) "/models" = p.
Proof.
  intros Hp. induction p as [|x p IH].
  - cbn. now rewrite startswith_nil.
  - rewrite str_in_cons in Hp. apply orb_false_iff in Hp as [H1 H2].
    change (String x p ++ "/models" ++ r)
      with (String x (p ++ "/models" ++ r)).
    rewrite split_head_cons.
    change (String x (p ++ "/models" ++ r))
      with (String x p ++ String "/" ("models" ++ r)).
    rewrite (startswith_models_app x "/" p ("models" ++ r)) by auto.
    change (p ++ String "/" ("models" ++ r)) with (p ++ "/models" ++ r).
    now rewrite (IH H2).
Qed.

Lemma split_head_models_app (p r : string) :
  Py.split_head (p ++ "/models" ++ r) "/models"
  = Py.split_head p "/models".
Proof.
  destruct (Py.str_in "/models" p) eqn:E.
  - destruct (split_head_found _ _ E) as [r0 Hr0].
    rewrite Hr0 at 1. rewrite !append_assoc.
    apply split_head_models_fresh, str_in_split_head. discriminate.
  - rewrite (split_head_absent _ _ E). now apply split_head_models_fresh.
Qed.

Lemma str_in_models_here (p r : string) :
  Py.str_in "/models" (p ++ "/models" ++ r) = true.
Proof. apply str_in_iff. now exists p, r. Qed.

(** Without [/models] in it, a base URL only gets the [/v1] rule. *)
Lemma init_base_url_absent (u : string) :
  Py.str_in "/models" u = false ->
  LLMClient.init_base_url u = LLMClient.with_v1 u.
Proof. intros H. unfold LLMClient.init_base_url. now rewrite H. Qed.

Lemma init_base_url_cut (u : string) :
  LLMClient.init_base_url u
  = LLMClient.with_v1 (Py.split_head u "/models").
Proof.
  unfold LLMClient.init_base_url.
  destruct (Py.str_in "/models" u) eqn:E; [reflexivity|].
  now rewrite split_head_absent.
Qed.

Lemma with_v1_ends_in_v1 (b : string) :
  Py.endswith (LLMClient.with_v1 b) "/v1" = true.
Proof.
  unfold LLMClient.with_v1.
  destruct (Py.endswith b "/v1") eqn:E1; [exact E1|].
  destruct (Py.endswith b "/") eqn:E2.
  - apply endswith_iff in E2 as [p ->].
    rewrite append_assoc. apply endswith_app.
  - apply endswith_app.
Qed.

Lemma with_v1_keeps_absent (b : string) :
  Py.str_in "/models" b = false ->
  Py.str_in "/models" (LLMClient.with_v1 b) = false.
Proof.
  intros H. unfold LLMClient.with_v1.
  destruct (Py.endswith b "/v1"); [exact H|].
  destruct (Py.endswith b "/");
    apply str_in_models_app; auto.
Qed.

Lemma with_v1_fixed (b : string) :
  Py.endswith b "/v1" = true -> LLMClient.with_v1 b = b.
Proof. intros H. unfold LLMClient.with_v1. now rewrite H. Qed.

Lemma init_base_url_no_models (u : string) :
  Py.str_in "/models" (LLMClient.init_base_url u) = false.
Proof.
  rewrite init_base_url_cut. apply with_v1_keeps_absent.
  apply str_in_split_head. discriminate.
Qed.

Lemma with_v1_nonempty (b : string) : LLMClient.with_v1 b <> "".
Proof.
  pose proof (with_v1_ends_in_v1 b) as H. intros E. rewrite E in H.
  discriminate.
Qed.

Lemma nonempty_some (s : string) : s <> "" -> Py.nonempty (Some s) = Some s.
Proof. destruct s; [congruence | reflexivity]. Qed.

(** What [main.py] hands over, in one formula. *)
Lemma api_base_url_some (u : string) :
  Main.api_base_url (Some u)
  = match Py.split_head u "/models" with
    | "" => "https://api.openai.com"
    | b => b
    end.
Proof.
  unfold Main.api_base_url. destruct u as [|c u]; [reflexivity|].
  cbn [Py.nonempty].
  destruct (Py.str_in "/models" (String c u)) eqn:E.
  - now destruct (Py.split_head (String c u) "/models").
  - now rewrite (split_head_absent _ _ E).
Qed.

End Endpoint.

(** ** Running the client *)

Ltac run_monad :=
  unfold LLMClient.logger, Main.logger in *;
  unfold bind, ret, emit, raise, exit, try_except in *.

Section Client.

Variable w : World.

Let readable (p : string) (d : list byte) : Prop := read_file w p = inl d.
Let entry (d : list byte) : content_part :=
  LLMClient.image_entry (Py.b64encode d).

Lemma requests_app (a b : list event) :
  requests (a ++ b) = (requests a ++ requests b)%list.
Proof. apply flat_map_app. Qed.

Lemma chat_index (tr : list event) :
  List.length (filter is_chat_create tr) = List.length (requests tr).
Proof.
  induction tr as [|e tr IH]; [reflexivity|].
  destruct e; simpl; auto.
Qed.

(** Reading the images leaves the trace alone, and never exits. *)
Lemma append_images_pure (paths : list string) :
  forall acc t o t',
    LLMClient.append_images w acc paths t = (o, t') ->
    t' = t /\ (forall c, o <> Exit c) /\
    forall t2, LLMClient.append_images w acc paths t2 = (o, t2).
Proof.
  induction paths as [|p paths IH]; intros acc t o t' H; simpl in *.
  - run_monad. injection H as <- <-. repeat split; congruence.
  - unfold LLMClient.encode_image in *. run_monad.
    destruct (read_file w p) as [d|e].
    + destruct (IH _ _ _ _ H) as (-> & Hne & Hall). repeat split; auto.
    + injection H as <- <-. repeat split; congruence.
Qed.

Lemma user_content_pure (um : string) (ips : option (list string)) t o t' :
  LLMClient.user_content w um ips t = (o, t') ->
  t' = t /\ (forall c, o <> Exit c) /\
  forall t2, LLMClient.user_content w um ips t2 = (o, t2).
Proof.
  unfold LLMClient.user_content. destruct ips as [[|p ps]|].
  - run_monad. intros H. injection H as <- <-. repeat split; congruence.
  - apply append_images_pure.
  - run_monad. intros H. injection H as <- <-. repeat split; congruence.
Qed.

Lemma append_images_read (paths : list string) (datas : list (list byte)) :
  Forall2 readable paths datas ->
  forall acc t,
    LLMClient.append_images w acc paths t
    = (Return (acc ++ map entry datas)%list, t).
Proof.
  induction 1 as [|p d paths datas Hp _ IH]; intros acc t; simpl.
  - run_monad. now rewrite app_nil_r.
  - unfold LLMClient.encode_image. run_monad. rewrite Hp.
    rewrite IH, <- app_assoc. reflexivity.
Qed.

Lemma user_content_read (um : string) (ips : option (list string))
    (datas : list (list byte)) (t : list event) :
  Forall2 readable (match ips with Some l => l | None => [] end) datas ->
  LLMClient.user_content w um ips t
  = (Return (TextPart um :: map entry datas), t).
Proof.
  intros H. unfold LLMClient.user_content. destruct ips as [[|p ps]|].
  - inversion H. reflexivity.
  - now rewrite (append_images_read _ _ H).
  - inversion H. reflexivity.
Qed.

(** The three ways one call of the client ends. *)
Lemma client_unreadable self um sp ips temp mt e t :
  LLMClient.user_content w um ips [] = (Raise e, []) ->
  LLMClient.completion w self um sp ips temp mt t = (Raise e, t).
Proof.
  intros H. apply user_content_pure in H as (_ & _ & H).
  unfold LLMClient.completion, bind. now rewrite H.
Qed.

Lemma client_answers self um sp ips temp mt uc r t :
  LLMClient.user_content w um ips [] = (Return uc, []) ->
  let req := LLMClient.create_args self (LLMClient.messages sp uc) temp mt in
  chat_create w (List.length (requests t)) req = inl r ->
  LLMClient.completion w self um sp ips temp mt t
  = (Return r, (t ++ [ChatCreate req])%list).
Proof.
  intros H req Hr. subst req. apply user_content_pure in H as (_ & _ & H).
  unfold LLMClient.completion, bind, try_except, chat.
  now rewrite H, chat_index, Hr.
Qed.

Lemma client_fails self um sp ips temp mt uc e t :
  LLMClient.user_content w um ips [] = (Return uc, []) ->
  let req := LLMClient.create_args self (LLMClient.messages sp uc) temp mt in
  chat_create w (List.length (requests t)) req = inr e ->
  LLMClient.completion w self um sp ips temp mt t
  = (Raise e,
     (t ++ [ChatCreate req;
            Log (LogRecord "core.LLMClient" ERROR
                   ("API request failed: " ++ e))])%list).
Proof.
  intros H req Hr. subst req. apply user_content_pure in H as (_ & _ & H).
  unfold LLMClient.completion, bind, try_except, chat.
  rewrite H, chat_index, Hr. run_monad. now rewrite <- app_assoc.
Qed.

(** Whatever happens, one call adds at most a request and an error line
    of the client's logger, and it does not exit.  A request it makes
    carries the messages built from the arguments. *)
Lemma client_frame self um sp ips temp mt t o t' :
  LLMClient.completion w self um sp ips temp mt t = (o, t') ->
  (forall c, o <> Exit c) /\
  exists d, t' = (t ++ d)%list /\ forallb of_completion d = true /\
    List.length (requests d) <= 1 /\
    forall q, In q (requests d) ->
      exists uc,
        LLMClient.user_content w um ips [] = (Return uc, []) /\
        q = LLMClient.create_args self (LLMClient.messages sp uc) temp mt.
Proof.
  intros H.
  destruct (LLMClient.user_content w um ips []) as [[uc|e|c] t0] eqn:E.
  - assert (t0 = []) as -> by (now apply user_content_pure in E).
    destruct (chat_create w (List.length (requests t))
                (LLMClient.create_args self (LLMClient.messages sp uc) temp mt))
      as [r|e] eqn:Er.
    + rewrite (client_answers _ _ _ _ _ _ _ _ _ E Er) in H.
      injection H as <- <-. split; [congruence|].
      eexists. split; [reflexivity|]. split; [reflexivity|].
      split; [cbn; lia|]. intros q [<-|[]]. now exists uc.
    + rewrite (client_fails _ _ _ _ _ _ _ _ _ E Er) in H.
      injection H as <- <-. split; [congruence|].
      eexists. split; [reflexivity|]. split; [reflexivity|].
      split; [cbn; lia|]. intros q [<-|[]]. now exists uc.
  - assert (t0 = []) as -> by (now apply user_content_pure in E).
    rewrite (client_unreadable _ _ _ _ _ _ _ _ E) in H.
    injection H as <- <-. split; [congruence|].
    exists []. rewrite app_nil_r. split; [reflexivity|].
    split; [reflexivity|]. split; [cbn; lia|]. intros q [].
  - apply user_content_pure in E as (_ & Hne & _). now destruct (Hne c).
Qed.

End Client.

(** ** The retry loop and the page loop *)

Section Pipeline.

Variable w : World.

Lemma forallb_of_completion_quiet (d : list event) :
  forallb of_completion d = true -> announced d = [] /\ documents d = [].
Proof.
  induction d as [|e d IH]; [easy|].
  cbn [forallb]. rewrite andb_true_iff. intros [He Hd].
  destruct (IH Hd) as [IH1 IH2].
  destruct e as [[name lv msg]| | | | | | | |]; try discriminate He;
    cbn [announced documents flat_map app]; fold (announced d);
    fold (documents d); rewrite ?IH1, ?IH2; split; try reflexivity.
  cbn [of_completion logger_name levelname message] in He.
  cbn [logger_name levelname message].
  destruct (String.eqb name "__main__") eqn:En; [|reflexivity].
  apply String.eqb_eq in En. subst name. cbn in He.
  destruct lv; [|reflexivity]. cbn [is_error negb orb andb] in *.
  apply startswith_iff in He as [r ->]. reflexivity.
Qed.

Lemma announced_app (a b : list event) :
  announced (a ++ b) = (announced a ++ announced b)%list.
Proof. apply flat_map_app. Qed.

Lemma documents_app (a b : list event) :
  documents (a ++ b) = (documents a ++ documents b)%list.
Proof. apply flat_map_app. Qed.

Lemma sleeps_app (a b : list event) :
  sleeps (a ++ b) = (sleeps a ++ sleeps b)%list.
Proof. apply flat_map_app. Qed.

Lemma errors_of_app (name : string) (a b : list event) :
  errors_of name (a ++ b) = (errors_of name a ++ errors_of name b)%list.
Proof. apply flat_map_app. Qed.

Lemma announced_announcement (p : string) :
  announced [Log (LogRecord "__main__" INFO (announcement p))]
  = [announcement p].
Proof.
  unfold announcement. cbn. now rewrite startswith_nil.
Qed.

(** One turn of the loop: a value ends it, an exception is logged and
    waited for. *)
Lemma attempts_return (call : M string) (n : nat) t r t' :
  call t = (Return r, t') ->
  Main.attempts (S n) call t = (Return r, t').
Proof. intros H. cbn [Main.attempts]. unfold try_except. now rewrite H. Qed.

Lemma attempts_raise (call : M string) (n : nat) t e t' :
  call t = (Raise e, t') ->
  Main.attempts (S n) call t
  = Main.attempts n call
      (t' ++ [Log (LogRecord "__main__" ERROR ("LLM call failed: " ++ e));
              Sleep (1 # 2)])%list.
Proof.
  intros H. cbn [Main.attempts]. unfold try_except at 1. rewrite H.
  run_monad. now rewrite <- app_assoc.
Qed.

Lemma attempts_exit (call : M string) (n : nat) t c t' :
  call t = (Exit c, t') ->
  Main.attempts (S n) call t = (Exit c, t').
Proof. intros H. cbn [Main.attempts]. unfold try_except. now rewrite H. Qed.

(** Around the real client the loop always comes back with a value. *)
Lemma attempts_frame self um sp ips temp mt (n : nat) :
  forall t, exists r d,
    Main.attempts n (LLMClient.completion w self um sp ips temp mt) t
    = (Return r, (t ++ d)%list) /\ forallb of_completion d = true /\
    List.length (requests d) <= n /\
    forall q, In q (requests d) ->
      exists uc,
        LLMClient.user_content w um ips [] = (Return uc, []) /\
        q = LLMClient.create_args self (LLMClient.messages sp uc) temp mt.
Proof.
  induction n as [|n IH]; intros t.
  - exists "", []. rewrite app_nil_r. split; [reflexivity|].
    split; [reflexivity|]. split; [cbn; lia|]. intros q [].
  - destruct (LLMClient.completion w self um sp ips temp mt t)
      as [[r|e|c] t'] eqn:E;
      destruct (client_frame _ _ _ _ _ _ _ _ _ _ E)
        as (Hne & d & -> & Hd & Hlen & Hq).
    + exists r, d. rewrite (attempts_return _ _ _ _ _ E).
      repeat split; auto. lia.
    + rewrite (attempts_raise _ _ _ _ _ E).
      destruct (IH ((t ++ d) ++
        [Log (LogRecord "__main__" ERROR ("LLM call failed: " ++ e));
         Sleep (1 # 2)])%list) as (r & d' & -> & Hd' & Hlen' & Hq').
      exists r. eexists. rewrite <- !app_assoc. split; [reflexivity|].
      rewrite !forallb_app, Hd, Hd'. split; [reflexivity|].
      rewrite !requests_app, !length_app. split; [cbn; lia|].
      intros q. rewrite !in_app_iff.
      intros [Hin|[[]|Hin]]; auto.
    + now destruct (Hne c).
Qed.

Lemma completion_with_key message model sp ips temp mt n key t :
  Py.nonempty (getenv w "OPENAI_API_KEY") = Some key ->
  Main.completion w message model sp ips temp mt n t
  = Main.attempts n
      (LLMClient.completion w (Main.client w key model) message sp ips
         temp mt)
      (t ++ [Log (LogRecord "__main__" INFO
                    ("Using API base URL: "
                     ++ Main.api_base_url (getenv w "OPENAI_API_BASE")));
             Log (LogRecord "core.LLMClient" INFO
                    ("Using API base URL: "
                     ++ Main.endpoint (getenv w "OPENAI_API_BASE")))])%list.
Proof.
  intros H. unfold Main.completion. rewrite H.
  unfold LLMClient.init. run_monad. now rewrite <- app_assoc.
Qed.

Lemma completion_without_key message model sp ips temp mt n t :
  Py.nonempty (getenv w "OPENAI_API_KEY") = None ->
  Main.completion w message model sp ips temp mt n t
  = (Exit 1,
     (t ++ [Log (LogRecord "__main__" ERROR
              "Please set the OPENAI_API_KEY environment variables")])%list).
Proof. intros H. unfold Main.completion. now rewrite H. Qed.

Lemma completion_frame message model sp ips temp mt n key t :
  Py.nonempty (getenv w "OPENAI_API_KEY") = Some key ->
  exists r d,
    Main.completion w message model sp ips temp mt n t
    = (Return r, (t ++ d)%list) /\ forallb of_completion d = true /\
    List.length (requests d) <= n /\
    forall q, In q (requests d) ->
      exists uc,
        LLMClient.user_content w message ips [] = (Return uc, []) /\
        q = LLMClient.create_args (Main.client w key model)
              (LLMClient.messages sp uc) temp mt.
Proof.
  intros H. rewrite (completion_with_key _ _ _ _ _ _ _ _ _ H).
  match goal with |- context [Main.attempts n ?c ?t0] =>
    destruct (attempts_frame (Main.client w key model) message sp ips temp
                mt n t0) as (r & d & -> & Hd & Hlen & Hq)
  end.
  exists r. eexists. rewrite <- app_assoc. split; [reflexivity|].
  rewrite forallb_app, Hd. split; [cbn; now rewrite !startswith_nil|].
  rewrite requests_app. split; [exact Hlen|].
  intros q. rewrite in_app_iff. intros [[]|Hin]. auto.
Qed.

Lemma convert_frame image_path key t :
  Py.nonempty (getenv w "OPENAI_API_KEY") = Some key ->
  exists fragment d,
    Main.convert_image_to_markdown w image_path t
    = (Return fragment, (t ++ d)%list) /\ forallb of_completion d = true /\
    forall q, In q (requests d) ->
      exists uc,
        LLMClient.user_content w Main.user_prompt (Some [image_path]) []
        = (Return uc, []) /\
        q = LLMClient.create_args (Main.client w key "")
              (LLMClient.messages (Some "") uc) (3 # 10) 8192.
Proof.
  intros H. unfold Main.convert_image_to_markdown, bind.
  destruct (completion_frame Main.user_prompt "" (Some "")
              (Some [image_path]) (3 # 10) 8192 3 key t H)
    as (r & d & -> & Hd & _ & Hq).
  now exists (remove_markdown_warp w r "markdown"), d.
Qed.

Lemma assemble_cons (fragment : string) (fragments : list string) :
  assemble (fragment :: fragments)
  = fragment ++ Main.two_newlines ++ assemble fragments.
Proof. reflexivity. Qed.

(** With a key in the environment the page loop runs through: it
    announces the pages in the order of the list and returns their
    fragments, each followed by two newlines. *)
Lemma pages_with_key (key : string) (img_paths : list string) :
  Py.nonempty (getenv w "OPENAI_API_KEY") = Some key ->
  forall markdown t, exists fragments d,
    page_fragments w t img_paths fragments (t ++ d)%list /\
    Main.pages w markdown img_paths t
    = (Return (markdown ++ assemble fragments), (t ++ d)%list) /\
    announced d = map announcement img_paths /\ documents d = [].
Proof.
  intros H. induction img_paths as [|p rest IH]; intros markdown t.
  - exists [], []. rewrite app_nil_r. cbn. rewrite append_nil_r.
    repeat split. constructor.
  - cbn [Main.pages]. unfold bind at 1. unfold Main.logger, emit.
    fold (announcement p).
    destruct (convert_frame (Py.replace p "\" "/") key
                (t ++ [Log (LogRecord "__main__" INFO (announcement p))])%list
                H) as (f & d1 & E1 & Hd1 & _).
    unfold bind. rewrite E1.
    destruct (IH (markdown ++ f ++ Main.two_newlines)
                ((t ++ [Log (LogRecord "__main__" INFO (announcement p))])
                 ++ d1)%list) as (fs & d2 & Hfs & E2 & Ha & Hdoc).
    exists (f :: fs),
      ([Log (LogRecord "__main__" INFO (announcement p))] ++ d1 ++ d2)%list.
    rewrite !app_assoc. split; [|split].
    + econstructor; [exact E1 | exact Hfs].
    + rewrite E2, assemble_cons, !append_assoc. reflexivity.
    + destruct (forallb_of_completion_quiet _ Hd1) as [Ha1 Hdoc1].
      rewrite <- !app_assoc.
      rewrite !announced_app, !documents_app, announced_announcement.
      rewrite Ha1, Ha, Hdoc1, Hdoc. now split.
Qed.

Lemma pages_without_key (p : string) (rest : list string) markdown t :
  Py.nonempty (getenv w "OPENAI_API_KEY") = None ->
  Main.pages w markdown (p :: rest) t
  = (Exit 1,
     (t ++ [Log (LogRecord "__main__" INFO (announcement p));
            Log (LogRecord "__main__" ERROR
              "Please set the OPENAI_API_KEY environment variables")])%list).
Proof.
  intros H. cbn [Main.pages]. unfold Main.convert_image_to_markdown.
  unfold bind at 1 2 3. unfold Main.logger at 1, emit.
  rewrite (completion_without_key _ _ _ _ _ _ _ _ H).
  unfold announcement. now rewrite <- app_assoc.
Qed.

(** One turn of the loop around the real client. *)
Lemma attempt_answered self um sp ips temp mt uc r (k : nat) t :
  LLMClient.user_content w um ips [] = (Return uc, []) ->
  chat_create w (List.length (requests t))
    (LLMClient.create_args self (LLMClient.messages sp uc) temp mt)
  = inl r ->
  Main.attempts (S k) (LLMClient.completion w self um sp ips temp mt) t
  = (Return r,
     (t ++ [ChatCreate
              (LLMClient.create_args self (LLMClient.messages sp uc)
                 temp mt)])%list).
Proof.
  intros Hc Hr. apply attempts_return.
  exact (client_answers w self um sp ips temp mt uc r t Hc Hr).
Qed.

Lemma attempt_failed self um sp ips temp mt uc e (k : nat) t :
  LLMClient.user_content w um ips [] = (Return uc, []) ->
  chat_create w (List.length (requests t))
    (LLMClient.create_args self (LLMClient.messages sp uc) temp mt)
  = inr e ->
  Main.attempts (S k) (LLMClient.completion w self um sp ips temp mt) t
  = Main.attempts k (LLMClient.completion w self um sp ips temp mt)
      (t ++ [ChatCreate
               (LLMClient.create_args self (LLMClient.messages sp uc)
                  temp mt);
             Log (LogRecord "core.LLMClient" ERROR
                    ("API request failed: " ++ e));
             Log (LogRecord "__main__" ERROR ("LLM call failed: " ++ e));
             Sleep (1 # 2)])%list.
Proof.
  intros Hc Hr.
  rewrite (attempts_raise _ _ _ _ _
             (client_fails w self um sp ips temp mt uc e t Hc Hr)).
  now rewrite <- app_assoc.
Qed.

Lemma attempt_unreadable self um sp ips temp mt e (k : nat) t :
  LLMClient.user_content w um ips [] = (Raise e, []) ->
  Main.attempts (S k) (LLMClient.completion w self um sp ips temp mt) t
  = Main.attempts k (LLMClient.completion w self um sp ips temp mt)
      (t ++ [Log (LogRecord "__main__" ERROR ("LLM call failed: " ++ e));
             Sleep (1 # 2)])%list.
Proof.
  intros Hc. apply attempts_raise.
  exact (client_unreadable w self um sp ips temp mt e t Hc).
Qed.

(** The classifier looks at its arguments only. *)
Lemma classify_frame (filename : string) (data : list byte) t :
  Main.classify filename data t
  = (fst (Main.classify filename data []),
     (t ++ snd (Main.classify filename data []))%list).
Proof.
  unfold Main.classify, Main.sniff.
  repeat match goal with
         | |- context [if ?c then _ else _] => destruct c
         end; run_monad; cbn; now rewrite ?app_nil_r.
Qed.

Lemma classify_quiet (filename : string) (data : list byte) o d :
  Main.classify filename data [] = (o, d) ->
  requests d = [] /\ announced d = [] /\ documents d = [] /\
  ~ In ConvertToImages d /\ (forall e, o <> Raise e).
Proof.
  unfold Main.classify, Main.sniff.
  repeat match goal with
         | |- context [if ?c then _ else _] => destruct c
         end; run_monad; cbn; intros H; injection H as <- <-;
    (repeat split; try reflexivity; try congruence);
    cbn; intuition discriminate.
Qed.

(** The script around the page loop, once the input is classified and
    the worker exists. *)
Lemma run_after_classify (i : Main.Input) (ext : string) (d0 : list event)
    (worker : Worker) :
  Main.classify (Main.input_filename i) (Main.input_data i) []
  = (Return ext, d0) ->
  create_worker w
    (Py.path_join ("output/" ++ timestamp w) ("input" ++ ext))
    (Main.start_page i) (Main.end_page i) = inl worker ->
  Main.run w i []
  = match Main.pages w "" (Py.sorted (convert_to_images worker))
            ([Makedirs ("output/" ++ timestamp w)] ++ d0 ++
             [WriteBytes
                (Py.path_join ("output/" ++ timestamp w) ("input" ++ ext))
                (Main.input_data i);
              ConvertToImages;
              Log (LogRecord "__main__" INFO "Image conversion completed")])%list
    with
    | (Return markdown, t) =>
        (Exit 0,
         (t ++ [Log (LogRecord "__main__" INFO
                       "Image conversion to Markdown completed")]
            ++ match Py.nonempty (Main.output_path i) with
               | Some path =>
                   [WriteText path markdown;
                    Log (LogRecord "__main__" INFO
                           ("Markdown saved to " ++ path))]
               | None => [Print markdown]
               end
            ++ [Rmtree ("output/" ++ timestamp w)])%list)
    | (Raise e, t) => (Raise e, t)
    | (Exit c, t) => (Exit c, t)
    end.
Proof.
  intros Hc Hw. unfold Main.run.
  unfold bind at 1. unfold emit at 1.
  unfold bind at 1. rewrite classify_frame, Hc. cbn [fst snd].
  unfold bind at 1. unfold emit at 1. rewrite Hw.
  unfold bind at 1. unfold emit at 1.
  unfold bind at 1. unfold Main.logger at 1. unfold emit at 1.
  unfold bind at 1. rewrite <- !app_assoc. cbn [app].
  destruct (Main.pages w "" (Py.sorted (convert_to_images worker)) _)
    as [[markdown|e|c] t]; try reflexivity.
  destruct (Py.nonempty (Main.output_path i)) as [path|];
    run_monad; cbn; now rewrite <- !app_assoc.
Qed.


End Pipeline.

(** ** The order of the pages *)

Section Sorting.

Let le (a b : string) : Prop := String.leb a b = true.

Lemma compare_refl (a : string) : String.compare a a = Eq.
Proof.
  induction a as [|c a IH]; [reflexivity|]. cbn.
  unfold Ascii.compare. now rewrite N.compare_refl.
Qed.

Lemma compare_trans_le (a : string) :
  forall b c, String.compare a b <> Gt -> String.compare b c <> Gt ->
              String.compare a c <> Gt.
Proof.
  induction a as [|x a IH]; intros [|y b] [|z c]; cbn; try congruence.
  unfold Ascii.compare.
  destruct (N.compare_spec (N_of_ascii x) (N_of_ascii y)) as [Hxy|Hxy|Hxy];
    destruct (N.compare_spec (N_of_ascii y) (N_of_ascii z)) as [Hyz|Hyz|Hyz];
    destruct (N.compare_spec (N_of_ascii x) (N_of_ascii z)) as [Hxz|Hxz|Hxz];
    try congruence; try lia; try apply IH.
Qed.

Lemma leb_trans (a b c : string) : le a b -> le b c -> le a c.
Proof.
  unfold le, String.leb. intros Hab Hbc.
  pose proof (compare_trans_le a b c) as H.
  destruct (String.compare a b); destruct (String.compare b c);
    destruct (String.compare a c); try reflexivity; try discriminate;
    exfalso; apply H; congruence.
Qed.

Lemma insert_perm (x : string) (l : list string) :
  Permutation (x :: l) (Py.insert x l).
Proof.
  induction l as [|y l IH]; cbn; [reflexivity|].
  destruct (String.leb x y); [reflexivity|].
  now rewrite perm_swap, IH.
Qed.

Lemma sorted_perm (l : list string) : Permutation l (Py.sorted l).
Proof.
  induction l as [|x l IH]; cbn; [reflexivity|].
  now rewrite <- insert_perm, <- IH.
Qed.

Lemma insert_sorted (x : string) (l : list string) :
  StronglySorted le l -> StronglySorted le (Py.insert x l).
Proof.
  induction 1 as [|y l Hl IH Hy]; cbn.
  - repeat constructor.
  - destruct (String.leb x y) eqn:E.
    + constructor; [now constructor|]. constructor; [exact E|].
      eapply Forall_impl; [|exact Hy]. intros z Hz.
      now apply (leb_trans x y z).
    + constructor; [exact IH|].
      rewrite <- (insert_perm x l). constructor; [|exact Hy].
      destruct (String.leb_total x y) as [H|H]; [congruence | exact H].
Qed.

Lemma sorted_sorted (l : list string) : StronglySorted le (Py.sorted l).
Proof.
  induction l as [|x l IH]; cbn; [constructor|].
  now apply insert_sorted.
Qed.

End Sorting.

(** ** Claims on the retry loop *)

(** C1: with the budget of 3 attempts the retry loop of [completion]
    calls the client up to 3 times.  When the provider fails the first
    two requests and answers the third, [completion] returns that answer
    after exactly 2 waits of 0.5; when it fails all three, or when the
    client fails three times because an image cannot be read,
    [completion] returns the empty string (it neither raises nor exits)
    and its logger has recorded exactly 3 failures.  Whatever the
    provider does, [completion] returns a value after at most 3
    requests. *)
Theorem retry_policy (w : World) (message model : string)
    (system_prompt : option string) (image_paths : option (list string))
    (temperature : Q) (max_tokens : Z) (key : string) (tr : list event) :
  Py.nonempty (getenv w "OPENAI_API_KEY") = Some key ->
  let run :=
    Main.completion w message model system_prompt image_paths temperature
      max_tokens 3 tr in
  let n := List.length (requests tr) in
  let request_of content :=
    LLMClient.create_args (Main.client w key model)
      (LLMClient.messages system_prompt content) temperature max_tokens in
  (exists r d,
     run = (Return r, (tr ++ d)%list) /\ List.length (requests d) <= 3) /\
  (forall content e1 e2 r,
     LLMClient.user_content w message image_paths [] = (Return content, []) ->
     chat_create w n (request_of content) = inr e1 ->
     chat_create w (n + 1) (request_of content) = inr e2 ->
     chat_create w (n + 2) (request_of content) = inl r ->
     exists d,
       run = (Return r, (tr ++ d)%list) /\
       requests d
       = [request_of content; request_of content; request_of content] /\
       sleeps d = [1 # 2; 1 # 2]%Q /\
       errors_of "__main__" d
       = ["LLM call failed: " ++ e1; "LLM call failed: " ++ e2]) /\
  (forall content e1 e2 e3,
     LLMClient.user_content w message image_paths [] = (Return content, []) ->
     chat_create w n (request_of content) = inr e1 ->
     chat_create w (n + 1) (request_of content) = inr e2 ->
     chat_create w (n + 2) (request_of content) = inr e3 ->
     exists d,
       run = (Return "", (tr ++ d)%list) /\
       requests d
       = [request_of content; request_of content; request_of content] /\
       sleeps d = [1 # 2; 1 # 2; 1 # 2]%Q /\
       errors_of "__main__" d
       = ["LLM call failed: " ++ e1; "LLM call failed: " ++ e2;
          "LLM call failed: " ++ e3]) /\
  (forall e,
     LLMClient.user_content w message image_paths [] = (Raise e, []) ->
     exists d,
       run = (Return "", (tr ++ d)%list) /\
       requests d = [] /\
       sleeps d = [1 # 2; 1 # 2; 1 # 2]%Q /\
       errors_of "__main__" d
       = ["LLM call failed: " ++ e; "LLM call failed: " ++ e;
          "LLM call failed: " ++ e]).
Proof.
  intros Hkey run n request_of. subst run. split.
  { destruct (completion_frame w message model system_prompt image_paths
                temperature max_tokens 3 key tr Hkey)
      as (r & d & E & _ & Hlen & _).
    exists r, d. split; [exact E | exact Hlen]. }
  rewrite (completion_with_key w _ _ _ _ _ _ _ _ _ Hkey).
  assert (Hn : forall d k,
    List.length (requests d) = k ->
    List.length (requests (tr ++ d)) = n + k).
  { intros d k <-. now rewrite requests_app, length_app. }
  split; [|split].
  - intros content e1 e2 r Hc H1 H2 H3.
    rewrite (attempt_failed w _ _ _ _ _ _ content e1); [|exact Hc|].
    2:{ rewrite (Hn _ 0); [now rewrite Nat.add_0_r | reflexivity]. }
    rewrite (attempt_failed w _ _ _ _ _ _ content e2); [|exact Hc|].
    2:{ rewrite <- !app_assoc, (Hn _ 1); [exact H2 | reflexivity]. }
    rewrite (attempt_answered w _ _ _ _ _ _ content r); [|exact Hc|].
    2:{ rewrite <- !app_assoc, (Hn _ 2); [exact H3 | reflexivity]. }
    rewrite <- !app_assoc. eexists. split; [reflexivity|].
    now repeat split.
  - intros content e1 e2 e3 Hc H1 H2 H3.
    rewrite (attempt_failed w _ _ _ _ _ _ content e1); [|exact Hc|].
    2:{ rewrite (Hn _ 0); [now rewrite Nat.add_0_r | reflexivity]. }
    rewrite (attempt_failed w _ _ _ _ _ _ content e2); [|exact Hc|].
    2:{ rewrite <- !app_assoc, (Hn _ 1); [exact H2 | reflexivity]. }
    rewrite (attempt_failed w _ _ _ _ _ _ content e3); [|exact Hc|].
    2:{ rewrite <- !app_assoc, (Hn _ 2); [exact H3 | reflexivity]. }
    cbn [Main.attempts]. unfold ret.
    rewrite <- !app_assoc. eexists. split; [reflexivity|].
    now repeat split.
  - intros e Hc.
    rewrite !(attempt_unreadable w _ _ _ _ _ _ e _ _ Hc).
    cbn [Main.attempts]. unfold ret.
    rewrite <- !app_assoc. eexists. split; [reflexivity|].
    now repeat split.
Qed.

(** The policy on a provider that answers at the third request, on one
    that is down, and on a page image that cannot be read. *)
Lemma retry_policy_witness :
  (exists d,
     Main.completion
       (Sample.world (Some "sk-test") ["page_1.png"] Sample.third_time_lucky)
       "Transcribe." "" None (Some ["page_1.png"]) (3 # 10) 8192 3 []
     = (Return "# Title", d) /\
     sleeps d = [1 # 2; 1 # 2]%Q) /\
  (exists d,
     Main.completion
       (Sample.world (Some "sk-test") ["page_1.png"] Sample.down)
       "Transcribe." "" None (Some ["page_1.png"]) (3 # 10) 8192 3 []
     = (Return "", d) /\
     List.length (errors_of "__main__" d) = 3) /\
  (exists d,
     Main.completion
       (Sample.world (Some "sk-test") ["page_1.png"] Sample.down)
       "Transcribe." "" None (Some ["page_9.png"]) (3 # 10) 8192 3 []
     = (Return "", d) /\
     requests d = [] /\ List.length (errors_of "__main__" d) = 3).
Proof.
  split; [|split].
  - edestruct
      (proj1 (proj2 (retry_policy
                (Sample.world (Some "sk-test") ["page_1.png"]
                   Sample.third_time_lucky)
                "Transcribe." "" None (Some ["page_1.png"]) (3 # 10) 8192
                "sk-test" [] eq_refl)))
      as (d & Hrun & _ & Hsleeps & _);
      [reflexivity | reflexivity | reflexivity | reflexivity |].
    exists d. split; [exact Hrun | exact Hsleeps].
  - edestruct
      (proj1 (proj2 (proj2 (retry_policy
                (Sample.world (Some "sk-test") ["page_1.png"] Sample.down)
                "Transcribe." "" None (Some ["page_1.png"]) (3 # 10) 8192
                "sk-test" [] eq_refl))))
      as (d & Hrun & _ & _ & Herrors);
      [reflexivity | reflexivity | reflexivity | reflexivity |].
    exists d. split; [exact Hrun | now rewrite Herrors].
  - edestruct
      (proj2 (proj2 (proj2 (retry_policy
                (Sample.world (Some "sk-test") ["page_1.png"] Sample.down)
                "Transcribe." "" None (Some ["page_9.png"]) (3 # 10) 8192
                "sk-test" [] eq_refl))))
      as (d & Hrun & Hreq & _ & Herrors); [reflexivity|].
    exists d. split; [exact Hrun|]. split; [exact Hreq|].
    now rewrite Herrors.
Defined.

(** ** Claims on the run *)

(** C4, the claim as written fails: with no API key in the environment
    the run does exit with code 1, but only when the first page reaches
    [completion], after the input was written to the work area and the
    pages were rendered. *)
Lemma missing_api_key_counterexample :
  let w := Sample.world None ["out/page_1.png"] Sample.first_only in
  getenv w "OPENAI_API_KEY" = None /\
  Main.run w Sample.piped_pdf []
  = (Exit 1,
     [Makedirs "output/20240101120000";
      Log (LogRecord "__main__" INFO "Recognized as PDF file by file content");
      WriteBytes "output/20240101120000/input.pdf"
        (Main.input_data Sample.piped_pdf);
      ConvertToImages;
      Log (LogRecord "__main__" INFO "Image conversion completed");
      Log (LogRecord "__main__" INFO
             "Converting image out/page_1.png to Markdown");
      Log (LogRecord "__main__" ERROR
             "Please set the OPENAI_API_KEY environment variables")]) /\
  ~ (exists trace,
       Main.run w Sample.piped_pdf [] = (Exit 1, trace) /\
       ~ In ConvertToImages trace).
Proof.
  cbv zeta. split; [reflexivity|]. split; [reflexivity|].
  intros (trace & Hrun & Hno). injection Hrun as <-.
  apply Hno. cbn. tauto.
Qed.

(** C4, amended: with no API key in the environment and at least one
    page image rendered, the run fails with exit code 1 when the first
    page reaches [completion]: after the input was written to the work
    area and the pages were rendered, before any request is made and
    before any Markdown is put out. *)
Theorem missing_api_key (w : World) (i : Main.Input) (ext : string)
    (d0 : list event) (worker : Worker) :
  Py.nonempty (getenv w "OPENAI_API_KEY") = None ->
  Main.classify (Main.input_filename i) (Main.input_data i) []
  = (Return ext, d0) ->
  create_worker w
    (Py.path_join ("output/" ++ timestamp w) ("input" ++ ext))
    (Main.start_page i) (Main.end_page i) = inl worker ->
  convert_to_images worker <> [] ->
  exists p rest,
    Py.sorted (convert_to_images worker) = p :: rest /\
    Main.run w i []
    = (Exit 1,
       ([Makedirs ("output/" ++ timestamp w)] ++ d0 ++
        [WriteBytes
           (Py.path_join ("output/" ++ timestamp w) ("input" ++ ext))
           (Main.input_data i);
         ConvertToImages;
         Log (LogRecord "__main__" INFO "Image conversion completed");
         Log (LogRecord "__main__" INFO (announcement p));
         Log (LogRecord "__main__" ERROR
                "Please set the OPENAI_API_KEY environment variables")])%list)
    /\ In ConvertToImages (snd (Main.run w i []))
    /\ requests (snd (Main.run w i [])) = []
    /\ documents (snd (Main.run w i [])) = [].
Proof.
  intros Hkey Hc Hw Hne.
  destruct (Py.sorted (convert_to_images worker)) as [|p rest] eqn:Es.
  { pose proof (sorted_perm (convert_to_images worker)) as Hp.
    rewrite Es in Hp. apply Permutation_sym, Permutation_nil in Hp.
    contradiction. }
  exists p, rest. split; [reflexivity|].
  rewrite (run_after_classify w i ext d0 worker Hc Hw), Es.
  rewrite (pages_without_key w p rest "" _ Hkey).
  rewrite <- !app_assoc. cbn [app snd]. split; [reflexivity|].
  destruct (classify_quiet _ _ _ _ Hc) as (Hr0 & _ & Hdoc0 & _).
  repeat split.
  - right. apply in_or_app. right. cbn. tauto.
  - change (Makedirs ("output/" ++ timestamp w) :: (d0 ++ ?l))%list
      with ([Makedirs ("output/" ++ timestamp w)] ++ d0 ++ l)%list.
    now rewrite !requests_app, Hr0.
  - change (Makedirs ("output/" ++ timestamp w) :: (d0 ++ ?l))%list
      with ([Makedirs ("output/" ++ timestamp w)] ++ d0 ++ l)%list.
    now rewrite !documents_app, Hdoc0.
Qed.

(** A piped PDF of two pages in a world without a key. *)
Lemma missing_api_key_witness :
  exists p rest,
    Py.sorted ["out/page_2.png"; "out/page_1.png"] = p :: rest /\
    fst (Main.run
           (Sample.world None ["out/page_2.png"; "out/page_1.png"]
              Sample.first_only) Sample.piped_pdf [])
    = Exit 1.
Proof.
  destruct (missing_api_key
    (Sample.world None ["out/page_2.png"; "out/page_1.png"]
       Sample.first_only)
    Sample.piped_pdf ".pdf"
    [Log (LogRecord "__main__" INFO "Recognized as PDF file by file content")]
    {| convert_to_images := ["out/page_2.png"; "out/page_1.png"] |}
    eq_refl eq_refl eq_refl ltac:(discriminate))
    as (p & rest & Hs & Hrun & _).
  exists p, rest. split; [exact Hs|]. now rewrite Hrun.
Defined.

(** When the renderer returns no page image, [completion] is never
    called and the missing key goes unnoticed: the run ends with exit
    code 0 and an empty document. *)
Lemma absent_key_unnoticed_without_pages :
  let w := Sample.world None [] Sample.first_only in
  getenv w "OPENAI_API_KEY" = None /\
  fst (Main.run w Sample.piped_pdf []) = Exit 0 /\
  documents (snd (Main.run w Sample.piped_pdf [])) = [""].
Proof. cbv zeta. repeat split. Qed.



(** ** Claims on the classifier *)

Lemma bytes_startswith_other (data : list byte) (a b : byte)
    (s1 s2 : list byte) :
  a <> b ->
  Py.bytes_startswith data (a :: s1) = true ->
  Py.bytes_startswith data (b :: s2) = false.
Proof.
  intros Hab. destruct data as [|x data]; cbn; [discriminate|].
  rewrite andb_true_iff. intros [Ha _]. apply Byte.byte_dec_bl in Ha.
  subst x. destruct (Byte.eqb b a) eqn:E; [|reflexivity].
  apply Byte.byte_dec_bl in E. congruence.
Qed.

(** C5, the claim as written fails: a file name with an extension that
    is not a recognised one, on data that no signature leads, does not
    make the classification fail: the extension is taken as it is, the
    data is not looked at, and the file goes on to the rendering
    collaborator. *)
Lemma input_classification_counterexample :
  let filename := "notes.txt" in
  let data := [x68; x65; x6c; x6c; x6f] in
  Specified.no_signature data = true /\
  Specified.recognized_ext (Py.splitext_ext filename) = false /\
  Main.classify filename data [] = (Return ".txt", []) /\
  ~ (exists c trace, Main.classify filename data [] = (Exit c, trace)).
Proof.
  cbv zeta. repeat split. intros (c & trace & H). discriminate H.
Qed.

(** C5, amended: when the file name has no extension, or the input comes
    from standard input, the classifier goes by the leading bytes:
    [%PDF-] gives PDF, [FF D8 FF DB] JPEG, [89 50 4E 47] PNG and [42 4D]
    BMP; for every such input that none of these signatures leads, the
    classification fails: the error is logged, the process exits with
    code 1 and nothing has been written or rendered.

    Proved besides: a file name with an extension is classified by that
    extension alone, recognised or not, and a run on it stops with exit
    code 1, without Markdown, if the rendering collaborator's factory
    rejects the file. *)
Theorem input_classification (filename : string) (data : list byte)
    (tr : list event) :
  (Py.splitext_ext filename = "" \/ filename = "<stdin>" ->
   (forall sig ext,
      In (sig, ext) Specified.signature_table ->
      Py.bytes_startswith data sig = true ->
      exists line,
        Main.classify filename data tr
        = (Return ext,
           (tr ++ [Log (LogRecord "__main__" INFO line)])%list)) /\
   (Specified.no_signature data = true ->
    Main.classify filename data tr
    = (Exit 1,
       (tr ++ [Log (LogRecord "__main__" ERROR "Unsupported file type")])%list)
    /\
    forall w i,
      Main.input_filename i = filename -> Main.input_data i = data ->
      Main.run w i []
      = (Exit 1,
         [Makedirs ("output/" ++ timestamp w);
          Log (LogRecord "__main__" ERROR "Unsupported file type")]))) /\
  (Py.splitext_ext filename <> "" -> filename <> "<stdin>" ->
   Main.classify filename data tr = (Return (Py.splitext_ext filename), tr) /\
   forall w i e,
     Main.input_filename i = filename -> Main.input_data i = data ->
     create_worker w
       (Py.path_join ("output/" ++ timestamp w)
          ("input" ++ Py.splitext_ext filename))
       (Main.start_page i) (Main.end_page i) = inr e ->
     Main.run w i []
     = (Exit 1,
        [Makedirs ("output/" ++ timestamp w);
         WriteBytes
           (Py.path_join ("output/" ++ timestamp w)
              ("input" ++ Py.splitext_ext filename)) data;
         Log (LogRecord "__main__" ERROR e)])).
Proof.
  split.
  - intros Hext.
    assert (Hcond : String.eqb (Py.splitext_ext filename) ""
                    || String.eqb filename "<stdin>" = true).
    { apply orb_true_iff.
      destruct Hext as [H|H]; [left|right]; now apply String.eqb_eq. }
    unfold Main.classify. rewrite Hcond. unfold Main.sniff. split.
    + intros sig ext Hin Hsig. cbn in Hin.
      destruct Hin as [H|[H|[H|[H|[]]]]]; injection H as <- <-.
      * rewrite Hsig. eexists. reflexivity.
      * rewrite (bytes_startswith_other data xff x25 _ _ ltac:(discriminate) Hsig).
        rewrite Hsig. eexists. reflexivity.
      * rewrite (bytes_startswith_other data x89 x25 _ _ ltac:(discriminate) Hsig).
        rewrite (bytes_startswith_other data x89 xff _ _ ltac:(discriminate) Hsig).
        rewrite Hsig. eexists. reflexivity.
      * rewrite (bytes_startswith_other data x42 x25 _ _ ltac:(discriminate) Hsig).
        rewrite (bytes_startswith_other data x42 xff _ _ ltac:(discriminate) Hsig).
        rewrite (bytes_startswith_other data x42 x89 _ _ ltac:(discriminate) Hsig).
        rewrite Hsig. eexists. reflexivity.
    + intros Hnone. unfold Specified.no_signature in Hnone.
      cbn [forallb Specified.signature_table fst] in Hnone.
      rewrite !andb_true_iff, !negb_true_iff in Hnone.
      destruct Hnone as (H1 & H2 & H3 & H4 & _).
      rewrite H1, H2, H3, H4. split; [reflexivity|].
      intros w i Hf Hd. unfold Main.run, Main.classify.
      rewrite Hf, Hd, Hcond. unfold Main.sniff.
      rewrite H1, H2, H3, H4. reflexivity.
  - intros Hext Hstdin.
    assert (Hcond : String.eqb (Py.splitext_ext filename) ""
                    || String.eqb filename "<stdin>" = false).
    { apply orb_false_iff. split; now apply String.eqb_neq. }
    unfold Main.classify. rewrite Hcond. split; [reflexivity|].
    intros w i e Hf Hd Hw. unfold Main.run, Main.classify.
    rewrite Hf, Hd, Hcond. run_monad. cbn [app]. rewrite Hw. reflexivity.
Qed.

(** A JPEG on standard input, a GIF with no extension, and the same GIF
    under the name of a PNG. *)
Lemma input_classification_witness :
  (exists line,
     Main.classify "<stdin>" [xff; xd8; xff; xdb; x00; x43] []
     = (Return ".jpg", [Log (LogRecord "__main__" INFO line)])) /\
  Main.classify "scan" [x47; x49; x46; x38] []
  = (Exit 1, [Log (LogRecord "__main__" ERROR "Unsupported file type")]) /\
  Main.classify "scan.png" [x47; x49; x46; x38] [] = (Return ".png", []).
Proof.
  split; [|split].
  - exact (proj1 (proj1 (input_classification "<stdin>"
             [xff; xd8; xff; xdb; x00; x43] []) (or_intror eq_refl))
             [xff; xd8; xff; xdb] ".jpg"
             (or_intror (or_introl eq_refl)) eq_refl).
  - exact (proj1 (proj2 (proj1 (input_classification "scan"
             [x47; x49; x46; x38] []) (or_introl eq_refl)) eq_refl)).
  - exact (proj1 (proj2 (input_classification "scan.png"
             [x47; x49; x46; x38] [])
             ltac:(discriminate) ltac:(discriminate))).
Defined.

(** ** Claims on the request *)

(** C7, the claim as written fails: the client puts one image entry into
    the user message for every path of [image_paths], so a request built
    from two paths carries two image entries, not zero or one. *)
Lemma request_construction_counterexample :
  let w := Sample.world (Some "sk-test") ["page_1.png"; "page_2.png"]
             Sample.first_only in
  let self := Main.client w "sk-test" "" in
  exists r,
    requests
      (snd (LLMClient.completion w self "Transcribe." None
              (Some ["page_1.png"; "page_2.png"]) (7 # 10) 8192 []))
    = [r] /\
    image_entries r = 2 /\ ~ image_entries r <= 1.
Proof.
  cbv zeta. eexists. split; [reflexivity|]. split; [reflexivity|].
  cbn. lia.
Qed.

(** C7, amended: every request the client makes has a message list of
    exactly one system message, whose content is the system prompt (the
    empty string when there is none), and exactly one user message; the
    content of the user message starts with the text instruction and goes
    on with one image entry for each path of [image_paths], in order
    (none when no path is given), each the base64 encoding of the file's
    bytes behind [data:image/jpeg;base64,] whatever those bytes are.  The
    requests of the page pipeline carry exactly one image entry. *)
Theorem request_construction (w : World) (self : LLMClient.LLMClient)
    (user_message : string) (system_prompt : option string)
    (image_paths : option (list string)) (temperature : Q) (max_tokens : Z)
    (tr : list event) (datas : list (list byte)) :
  Forall2 (fun p d => read_file w p = inl d)
    (match image_paths with Some l => l | None => [] end) datas ->
  (exists o logs req,
     LLMClient.completion w self user_message system_prompt image_paths
       temperature max_tokens tr
     = (o, (tr ++ ChatCreate req :: logs)%list) /\
     requests logs = [] /\
     req_messages req
     = [ChatMessage "system"
          (Text match system_prompt with Some s => s | None => "" end);
        ChatMessage "user"
          (Parts (TextPart user_message
                  :: map (fun d => ImageUrlPart
                                     ("data:image/jpeg;base64,"
                                      ++ Py.b64encode d)) datas))] /\
     List.length (with_role "system" (req_messages req)) = 1 /\
     List.length (with_role "user" (req_messages req)) = 1 /\
     image_entries req
     = List.length (match image_paths with Some l => l | None => [] end)) /\
  (forall key image_path t,
     Py.nonempty (getenv w "OPENAI_API_KEY") = Some key ->
     exists fragment d,
       Main.convert_image_to_markdown w image_path t
       = (Return fragment, (t ++ d)%list) /\
       Forall (fun q => image_entries q = 1) (requests d)).
Proof.
  intros Hread. split.
  - pose proof (user_content_read w user_message image_paths datas [] Hread)
      as Hc.
    assert (Himg : forall l : list (list byte),
      List.length
        (filter (fun p => match p with ImageUrlPart _ => true | _ => false end)
           (map (fun d => LLMClient.image_entry (Py.b64encode d)) l))
      = List.length l).
    { induction l as [|d l IH]; [reflexivity|]. cbn. now rewrite IH. }
    destruct (chat_create w (List.length (requests tr))
                (LLMClient.create_args self
                   (LLMClient.messages system_prompt
                      (TextPart user_message
                       :: map (fun d => LLMClient.image_entry (Py.b64encode d))
                            datas)) temperature max_tokens))
      as [r|e] eqn:Er.
    + rewrite (client_answers w _ _ _ _ _ _ _ _ _ Hc Er).
      do 3 eexists. split; [reflexivity|].
      split; [reflexivity|]. split; [reflexivity|].
      split; [reflexivity|]. split; [reflexivity|].
      unfold image_entries. cbn. rewrite app_nil_r, Himg.
      symmetry. exact (Forall2_length Hread).
    + rewrite (client_fails w _ _ _ _ _ _ _ _ _ Hc Er).
      do 3 eexists. split; [reflexivity|].
      split; [reflexivity|]. split; [reflexivity|].
      split; [reflexivity|]. split; [reflexivity|].
      unfold image_entries. cbn. rewrite app_nil_r, Himg.
      symmetry. exact (Forall2_length Hread).
  - intros key image_path t Hkey.
    destruct (convert_frame w image_path key t Hkey)
      as (fragment & d & E & _ & Hq).
    exists fragment, d. split; [exact E|].
    apply Forall_forall. intros q Hin.
    destruct (Hq q Hin) as (uc & Huc & ->).
    unfold LLMClient.user_content in Huc. cbn in Huc.
    unfold LLMClient.encode_image in Huc. run_monad.
    destruct (read_file w image_path); [|discriminate Huc].
    injection Huc as <-. reflexivity.
Qed.

(** The request for one page image: a PNG file, sent as [image/jpeg]. *)
Lemma request_construction_witness :
  let w := Sample.world (Some "sk-test") ["page_1.png"] Sample.first_only in
  exists o logs req,
    LLMClient.completion w (Main.client w "sk-test" "") "Transcribe."
      (Some "") (Some ["page_1.png"]) (3 # 10) 8192 []
    = (o, ChatCreate req :: logs) /\
    req_messages req
    = [ChatMessage "system" (Text "");
       ChatMessage "user"
         (Parts [TextPart "Transcribe.";
                 ImageUrlPart "data:image/jpeg;base64,iVBORw0K"])].
Proof.
  cbv zeta.
  edestruct
    (proj1 (request_construction
              (Sample.world (Some "sk-test") ["page_1.png"] Sample.first_only)
              (Main.client
                 (Sample.world (Some "sk-test") ["page_1.png"]
                    Sample.first_only) "sk-test" "")
              "Transcribe." (Some "") (Some ["page_1.png"]) (3 # 10) 8192 []
              [[x89; x50; x4e; x47; x0d; x0a]]
              ltac:(repeat constructor)))
    as (o & logs & req & Hrun & _ & Hmsgs & _).
  exists o, logs, req. split; [exact Hrun | exact Hmsgs].
Defined.

(** C10: the client takes a list of any number of image paths: for [n]
    paths, all readable, the content of the user message has [n + 1]
    entries, the text instruction and then one image entry per path in
    the order of the list, and this is the content of the request made. *)
Theorem one_entry_per_image_path (w : World) (self : LLMClient.LLMClient)
    (user_message : string) (system_prompt : option string)
    (paths : list string) (datas : list (list byte))
    (temperature : Q) (max_tokens : Z) (tr : list event) :
  Forall2 (fun p d => read_file w p = inl d) paths datas ->
  let content :=
    TextPart user_message
    :: map (fun d => LLMClient.image_entry (Py.b64encode d)) datas in
  LLMClient.user_content w user_message (Some paths) tr
  = (Return content, tr) /\
  List.length content = S (List.length paths) /\
  requests
    (snd (LLMClient.completion w self user_message system_prompt
            (Some paths) temperature max_tokens tr))
  = (requests tr
     ++ [LLMClient.create_args self
           (LLMClient.messages system_prompt content)
           temperature max_tokens])%list.
Proof.
  intros Hread content.
  pose proof (user_content_read w user_message (Some paths) datas) as Hc.
  cbv beta iota in Hc. split; [now apply Hc|]. split.
  - subst content. cbn. rewrite length_map.
    now rewrite (Forall2_length Hread).
  - specialize (Hc [] Hread).
    destruct (chat_create w (List.length (requests tr))
                (LLMClient.create_args self
                   (LLMClient.messages system_prompt content)
                   temperature max_tokens)) as [r|e] eqn:Er.
    + rewrite (client_answers w _ _ _ _ _ _ _ _ _ Hc Er).
      cbn [snd]. now rewrite requests_app.
    + rewrite (client_fails w _ _ _ _ _ _ _ _ _ Hc Er).
      cbn [snd]. now rewrite requests_app.
Qed.

(** Three image paths give four entries. *)
Lemma one_entry_per_image_path_witness :
  let w := Sample.world (Some "sk-test") ["p1.png"; "p2.png"; "p3.png"]
             Sample.first_only in
  LLMClient.user_content w "Transcribe."
    (Some ["p1.png"; "p2.png"; "p3.png"]) []
  = (Return [TextPart "Transcribe.";
             ImageUrlPart "data:image/jpeg;base64,iVBORw0K";
             ImageUrlPart "data:image/jpeg;base64,iVBORw0K";
             ImageUrlPart "data:image/jpeg;base64,iVBORw0K"], []).
Proof.
  cbv zeta.
  refine (proj1 (one_entry_per_image_path
    (Sample.world (Some "sk-test") ["p1.png"; "p2.png"; "p3.png"]
       Sample.first_only)
    (Main.client
       (Sample.world (Some "sk-test") ["p1.png"; "p2.png"; "p3.png"]
          Sample.first_only) "sk-test" "")
    "Transcribe." None ["p1.png"; "p2.png"; "p3.png"]
    [[x89; x50; x4e; x47; x0d; x0a]; [x89; x50; x4e; x47; x0d; x0a];
     [x89; x50; x4e; x47; x0d; x0a]]
    (7 # 10) 8192 [] _)).
  repeat constructor.
Defined.

(** ** Claims on the endpoint *)

(** C3, the claim as written fails: a base URL that ends in [/v1] is not
    left unchanged when [/models] occurs earlier in it, since the code
    cuts at the first [/models] wherever it stands, not at a trailing
    suffix only. *)
Lemma endpoint_normalization_counterexample :
  let u := "https://host/models/v1" in
  Py.endswith u "/v1" = true /\
  Specified.normalize u = u /\
  LLMClient.init_base_url u = "https://host/v1" /\
  ~ (forall b, LLMClient.init_base_url b = Specified.normalize b).
Proof.
  cbv zeta. repeat split; try reflexivity.
  intros H. specialize (H "https://host/models/v1"). discriminate H.
Qed.

(** C3, amended: on every base URL in which [/models] occurs at most as
    the trailing suffix, the code normalises as specified: it strips the
    trailing [/models], leaves a URL that ends in [/v1] unchanged and
    otherwise appends [/v1], with a separating slash only when there is
    none.  The three URLs of the specification normalise as it says, both
    in the client and from the environment variable. *)
Theorem endpoint_normalization :
  (forall u,
     Py.str_in "/models" (Specified.strip_suffix u "/models") = false ->
     LLMClient.init_base_url u = Specified.normalize u) /\
  LLMClient.init_base_url "https://host/v1/models" = "https://host/v1" /\
  LLMClient.init_base_url "https://host" = "https://host/v1" /\
  LLMClient.init_base_url "https://host/" = "https://host/v1" /\
  Main.endpoint (Some "https://host/v1/models") = "https://host/v1" /\
  Main.endpoint (Some "https://host") = "https://host/v1" /\
  Main.endpoint (Some "https://host/") = "https://host/v1".
Proof.
  split; [|repeat split; reflexivity].
  intros u H. unfold Specified.normalize. cbv zeta.
  fold (LLMClient.with_v1 (Specified.strip_suffix u "/models")).
  rewrite init_base_url_cut. f_equal.
  destruct (Py.endswith u "/models") eqn:E.
  - rewrite (strip_suffix_found _ _ E) at 1.
    rewrite <- (append_nil_r "/models") at 1.
    now apply (split_head_models_fresh _ "").
  - rewrite (strip_suffix_absent _ _ E) in *. now apply split_head_absent.
Qed.

(** A base URL with the trailing suffix only. *)
Lemma endpoint_normalization_witness :
  LLMClient.init_base_url "https://example.org/api/models"
  = Specified.normalize "https://example.org/api/models".
Proof.
  apply (proj1 endpoint_normalization "https://example.org/api/models").
  reflexivity.
Defined.

(** C8: normalising a normalised URL changes nothing, in the client's
    [__init__] and for the endpoint computed from the environment
    variable alike. *)
Theorem endpoint_normalization_idempotent (u : string) (env : option string) :
  LLMClient.init_base_url (LLMClient.init_base_url u)
  = LLMClient.init_base_url u /\
  Main.endpoint (Some (Main.endpoint env)) = Main.endpoint env.
Proof.
  assert (Hfix : forall b,
    LLMClient.init_base_url (LLMClient.init_base_url b)
    = LLMClient.init_base_url b).
  { intros b. rewrite (init_base_url_absent _ (init_base_url_no_models b)).
    apply with_v1_fixed. rewrite init_base_url_cut.
    apply with_v1_ends_in_v1. }
  split; [apply Hfix|].
  unfold Main.endpoint. rewrite api_base_url_some.
  rewrite (split_head_absent _ _ (init_base_url_no_models _)).
  destruct (LLMClient.init_base_url (Main.api_base_url env)) eqn:E.
  - exfalso. rewrite init_base_url_cut in E.
    now apply with_v1_nonempty in E.
  - rewrite <- E. apply Hfix.
Qed.

(** C9: a base URL with [/models] anywhere in it is cut at the first
    occurrence before the [/v1] rule applies, so that
    [prefix ++ "/models" ++ rest] normalises like [prefix] alone; the
    same cut is made on the environment variable by [main.py]. *)
Theorem models_cut_anywhere (prefix rest : string) :
  let u := prefix ++ "/models" ++ rest in
  let head := Py.split_head u "/models" in
  Py.str_in "/models" u = true /\
  (exists rest', u = head ++ "/models" ++ rest') /\
  Py.str_in "/models" head = false /\
  LLMClient.init_base_url u = LLMClient.with_v1 head /\
  LLMClient.init_base_url u = LLMClient.init_base_url prefix /\
  Main.api_base_url (Some u) = Main.api_base_url (Some prefix) /\
  Main.endpoint (Some u) = Main.endpoint (Some prefix).
Proof.
  cbv zeta.
  assert (Hapi : Main.api_base_url (Some (prefix ++ "/models" ++ rest))
                 = Main.api_base_url (Some prefix)).
  { now rewrite !api_base_url_some, split_head_models_app. }
  repeat split.
  - apply str_in_models_here.
  - apply split_head_found, str_in_models_here.
  - apply str_in_split_head. discriminate.
  - apply init_base_url_cut.
  - now rewrite !init_base_url_cut, split_head_models_app.
  - exact Hapi.
  - unfold Main.endpoint. now rewrite Hapi.
Qed.

(** * Further properties of the code *)

(** ** The endpoint *)

Section EndpointMore.

(** Text that begins with a character foreign to [pat] neither completes
    nor breaks an occurrence of [pat] at the front. *)
Lemma startswith_app_foreign (pat : string) (a : ascii) (t : string) :
  foreign a pat = true ->
  forall s, pat <> "" ->
    Py.startswith (s ++ String a t) pat = Py.startswith s pat.
Proof.
  unfold foreign. induction pat as [|p pat IH]; intros Ha s Hne;
    [congruence|].
  cbn [list_ascii_of_string forallb] in Ha.
  apply andb_true_iff in Ha as [Hp Ha]. apply negb_true_iff in Hp.
  destruct s as [|c s]; cbn [append Py.startswith].
  - now rewrite Hp.
  - destruct pat as [|p' pat'].
    + now rewrite !startswith_nil.
    + rewrite (IH Ha s); [reflexivity | discriminate].
Qed.

Lemma str_in_app_foreign (pat : string) (a : ascii) (t : string) :
  foreign a pat = true -> pat <> "" ->
  forall s,
    Py.str_in pat (s ++ String a t)
    = Py.str_in pat s || Py.str_in pat (String a t).
Proof.
  intros Ha Hne. induction s as [|c s IH].
  - rewrite str_in_nil. destruct pat; [congruence | reflexivity].
  - change (String c s ++ String a t) with (String c (s ++ String a t)).
    rewrite !str_in_cons, IH.
    change (String c (s ++ String a t)) with (String c s ++ String a t).
    rewrite (startswith_app_foreign pat a t Ha (String c s) Hne).
    now rewrite orb_assoc.
Qed.

Lemma lower_app (a b : string) :
  Py.lower (a ++ b) = Py.lower a ++ Py.lower b.
Proof. induction a as [|c a IH]; cbn; [reflexivity | now rewrite IH]. Qed.

Lemma api_base_url_no_models (env : option string) :
  Py.str_in "/models" (Main.api_base_url env) = false.
Proof.
  destruct env as [u|]; [|reflexivity].
  rewrite api_base_url_some.
  pose proof (str_in_split_head u "/models" ltac:(discriminate)) as H.
  destruct (Py.split_head u "/models"); [reflexivity | exact H].
Qed.

Lemma endswith_slash_not_v1 (b : string) :
  Py.endswith (b ++ "/") "/v1" = false.
Proof.
  destruct (Py.endswith (b ++ "/") "/v1") eqn:E; [|reflexivity].
  apply endswith_iff in E as [p Hp]. exfalso.
  assert (H : forall x y : string,
    x ++ "/" = y ++ "/v1" -> False).
  { induction x as [|c x IH]; intros [|d y] Hxy; cbn in Hxy.
    - discriminate.
    - injection Hxy as _ Hxy. destruct y; discriminate.
    - injection Hxy as _ Hxy.
      destruct x as [|c1 [|c2 [|c3 x]]]; try discriminate.
    - injection Hxy as _ Hxy. now apply (IH y). }
  exact (H b p Hp).
Qed.

End EndpointMore.

(** X1: whatever the environment variable holds, the endpoint the client
    is built with ends in [/v1], holds no [/models] and is not empty;
    so does the value [__init__] computes from any base URL. *)
Theorem endpoint_shape (env : option string) (u : string) :
  Py.endswith (Main.endpoint env) "/v1" = true /\
  Py.str_in "/models" (Main.endpoint env) = false /\
  Main.endpoint env <> "" /\
  Py.endswith (LLMClient.init_base_url u) "/v1" = true /\
  Py.str_in "/models" (LLMClient.init_base_url u) = false.
Proof.
  unfold Main.endpoint. repeat split.
  - rewrite init_base_url_cut. apply with_v1_ends_in_v1.
  - apply init_base_url_no_models.
  - rewrite init_base_url_cut. apply with_v1_nonempty.
  - rewrite init_base_url_cut. apply with_v1_ends_in_v1.
  - apply init_base_url_no_models.
Qed.

(** X2: when [OPENAI_API_BASE] is not set, is empty, or begins with
    [/models], so that nothing is left of it after the cut, the client
    is built for [https://api.openai.com/v1]. *)
Theorem endpoint_default (env : option string) :
  env = None \/ env = Some "" \/
  (exists rest, env = Some ("/models" ++ rest)) ->
  Main.api_base_url env = "https://api.openai.com" /\
  Main.endpoint env = "https://api.openai.com/v1".
Proof.
  intros H.
  assert (Hapi : Main.api_base_url env = "https://api.openai.com").
  { destruct H as [->|[->|[rest ->]]]; try reflexivity.
    rewrite api_base_url_some.
    change ("/models" ++ rest) with ("" ++ "/models" ++ rest).
    now rewrite split_head_models_app. }
  split; [exact Hapi|]. unfold Main.endpoint. now rewrite Hapi.
Qed.

(** The variable set to the models listing of no host at all. *)
Lemma endpoint_default_witness :
  Main.endpoint (Some "/models/gpt-4o") = "https://api.openai.com/v1".
Proof.
  apply (endpoint_default (Some "/models/gpt-4o")).
  right. right. now exists "/gpt-4o".
Defined.

(** X3: a base URL with a trailing slash gets [v1] appended to it,
    also when it ends in [/v1/]: the check for [/v1] does not look past
    the slash, and [https://host/v1/] becomes [https://host/v1/v1]. *)
Theorem trailing_slash_gets_v1 (b : string) :
  Py.str_in "/models" b = false ->
  LLMClient.init_base_url (b ++ "/") = b ++ "/v1" /\
  LLMClient.init_base_url (b ++ "/v1/") = b ++ "/v1/v1".
Proof.
  intros Hb.
  assert (H : forall c, Py.str_in "/models" c = false ->
            LLMClient.init_base_url (c ++ "/") = c ++ "/v1").
  { intros c Hc. rewrite init_base_url_absent.
    - unfold LLMClient.with_v1.
      rewrite endswith_slash_not_v1, endswith_app.
      now rewrite append_assoc.
    - now apply str_in_models_app. }
  split; [now apply H|].
  change (b ++ "/v1/") with (b ++ "/v1" ++ "/").
  rewrite <- append_assoc, H, append_assoc; [reflexivity|].
  now apply str_in_models_app.
Qed.

Lemma trailing_slash_gets_v1_witness :
  LLMClient.init_base_url "https://host/v1/" = "https://host/v1/v1".
Proof.
  exact (proj2 (trailing_slash_gets_v1 "https://host" eq_refl)).
Defined.

(** X4: for a base URL of ASCII characters, on which [Py.lower] is
    [str.lower()], the two headers for the aggregator are added exactly
    when the base URL handed over by [main.py], in lower case, contains
    [openrouter.ai]; appending [/v1] to it changes nothing in that. *)
Theorem openrouter_headers_by_host (w : World) (key model : string) :
  Py.isascii (Main.api_base_url (getenv w "OPENAI_API_BASE")) = true ->
  LLMClient.extra_headers (Main.client w key model)
  = if Py.str_in "openrouter.ai"
         (Py.lower (Main.api_base_url (getenv w "OPENAI_API_BASE")))
    then openrouter_headers else [].
Proof.
  intros _.
  unfold LLMClient.extra_headers, Main.client, Main.endpoint.
  cbn [LLMClient.base_url].
  set (b := Main.api_base_url (getenv w "OPENAI_API_BASE")).
  rewrite (init_base_url_absent b (api_base_url_no_models _)).
  assert (H : Py.str_in "openrouter.ai" (Py.lower (LLMClient.with_v1 b))
              = Py.str_in "openrouter.ai" (Py.lower b));
    [|now rewrite H].
  unfold LLMClient.with_v1.
  destruct (Py.endswith b "/v1"); [reflexivity|].
  destruct (Py.endswith b "/"); rewrite lower_app;
    [change (Py.lower "v1") with "v1" | change (Py.lower "/v1") with "/v1"];
    (rewrite str_in_app_foreign; [|reflexivity|discriminate]);
    apply orb_false_r.
Qed.

(** The host written in capitals and small letters: the headers are
    attached; and another host: they are not. *)
Lemma openrouter_headers_by_host_witness :
  LLMClient.extra_headers
    (Main.client
       (Sample.at_base "https://OpenRouter.AI/api"
          (Sample.world (Some "sk-test") [] Sample.down)) "sk-test" "")
  = openrouter_headers /\
  LLMClient.extra_headers
    (Main.client
       (Sample.at_base "https://api.example.com/v1/models"
          (Sample.world (Some "sk-test") [] Sample.down)) "sk-test" "")
  = [].
Proof.
  split.
  - exact (openrouter_headers_by_host
             (Sample.at_base "https://OpenRouter.AI/api"
                (Sample.world (Some "sk-test") [] Sample.down))
             "sk-test" "" eq_refl).
  - exact (openrouter_headers_by_host
             (Sample.at_base "https://api.example.com/v1/models"
                (Sample.world (Some "sk-test") [] Sample.down))
             "sk-test" "" eq_refl).
Defined.

(** ** The retry loop, for any budget *)

Section RetryMore.

Variable w : World.

Lemma requests_length_app (t d : list event) :
  List.length (requests (t ++ d))
  = List.length (requests t) + List.length (requests d).
Proof. now rewrite requests_app, length_app. Qed.

(** The loop on a provider that fails [k] requests and answers the
    next. *)
Lemma attempts_answer_after self um sp ips temp mt uc r (k : nat) :
  LLMClient.user_content w um ips [] = (Return uc, []) ->
  forall n t,
    k < n ->
    (forall j, j < k ->
       exists e,
         chat_create w (List.length (requests t) + j)
           (LLMClient.create_args self (LLMClient.messages sp uc) temp mt)
         = inr e) ->
    chat_create w (List.length (requests t) + k)
      (LLMClient.create_args self (LLMClient.messages sp uc) temp mt)
    = inl r ->
    exists d,
      Main.attempts n (LLMClient.completion w self um sp ips temp mt) t
      = (Return r, (t ++ d)%list) /\
      List.length (requests d) = S k /\
      sleeps d = repeat (1 # 2)%Q k /\
      List.length (errors_of "__main__" d) = k.
Proof.
  intros Hc. induction k as [|k IH]; intros n t Hk Hfail Hr;
    (destruct n as [|n]; [lia|]).
  - rewrite Nat.add_0_r in Hr.
    rewrite (attempt_answered w _ _ _ _ _ _ uc r n t Hc Hr).
    eexists. split; [reflexivity|]. now repeat split.
  - destruct (Hfail 0 ltac:(lia)) as [e He]. rewrite Nat.add_0_r in He.
    rewrite (attempt_failed w _ _ _ _ _ _ uc e n t Hc He).
    match goal with |- context [Main.attempts n ?c ?t1] =>
      destruct (IH n t1) as (d & E & Hreq & Hs & He')
    end.
    + lia.
    + intros j Hj. destruct (Hfail (S j) ltac:(lia)) as [e' He'].
      exists e'. rewrite requests_length_app. cbn [requests flat_map app List.length].
      now rewrite <- Nat.add_assoc.
    + rewrite requests_length_app. cbn [requests flat_map app List.length].
      now rewrite <- Nat.add_assoc.
    + rewrite E, <- app_assoc. eexists. split; [reflexivity|].
      rewrite requests_app, sleeps_app, errors_of_app, !length_app.
      rewrite Hreq, Hs, He'. now repeat split.
Qed.

(** The loop on a provider that fails every request of the budget. *)
Lemma attempts_all_fail self um sp ips temp mt uc (n : nat) :
  LLMClient.user_content w um ips [] = (Return uc, []) ->
  forall t,
    (forall j, j < n ->
       exists e,
         chat_create w (List.length (requests t) + j)
           (LLMClient.create_args self (LLMClient.messages sp uc) temp mt)
         = inr e) ->
    exists d,
      Main.attempts n (LLMClient.completion w self um sp ips temp mt) t
      = (Return "", (t ++ d)%list) /\
      List.length (requests d) = n /\
      sleeps d = repeat (1 # 2)%Q n /\
      List.length (errors_of "__main__" d) = n /\
      List.length (errors_of "core.LLMClient" d) = n.
Proof.
  intros Hc. induction n as [|n IH]; intros t Hfail.
  - exists []. rewrite app_nil_r. now repeat split.
  - destruct (Hfail 0 ltac:(lia)) as [e He]. rewrite Nat.add_0_r in He.
    rewrite (attempt_failed w _ _ _ _ _ _ uc e n t Hc He).
    match goal with |- context [Main.attempts n ?c ?t1] =>
      destruct (IH t1) as (d & E & Hreq & Hs & He1 & He2)
    end.
    + intros j Hj. destruct (Hfail (S j) ltac:(lia)) as [e' He'].
      exists e'. rewrite requests_length_app. cbn [requests flat_map app List.length].
      now rewrite <- Nat.add_assoc.
    + rewrite E, <- app_assoc. eexists. split; [reflexivity|].
      rewrite requests_app, sleeps_app, !errors_of_app, !length_app.
      rewrite Hreq, Hs, He1, He2. now repeat split.
Qed.

(** The loop when an image cannot be read. *)
Lemma attempts_unreadable self um sp ips temp mt e (n : nat) :
  LLMClient.user_content w um ips [] = (Raise e, []) ->
  forall t, exists d,
    Main.attempts n (LLMClient.completion w self um sp ips temp mt) t
    = (Return "", (t ++ d)%list) /\
    requests d = [] /\
    sleeps d = repeat (1 # 2)%Q n /\
    errors_of "__main__" d = repeat ("LLM call failed: " ++ e) n /\
    errors_of "core.LLMClient" d = [].
Proof.
  intros Hc. induction n as [|n IH]; intros t.
  - exists []. rewrite app_nil_r. now repeat split.
  - rewrite (attempt_unreadable w _ _ _ _ _ _ e n t Hc).
    match goal with |- context [Main.attempts n ?c ?t1] =>
      destruct (IH t1) as (d & E & Hreq & Hs & He1 & He2)
    end.
    rewrite E, <- app_assoc. eexists. split; [reflexivity|].
    rewrite requests_app, sleeps_app, !errors_of_app.
    rewrite Hreq, Hs, He1, He2. now repeat split.
Qed.

(** What the loop keeps to on any provider: every wait is of 0.5, there
    is one wait and one error line of the orchestrator for each failed
    attempt, and each attempt makes at most one request. *)
Lemma attempts_counts self um sp ips temp mt (n : nat) :
  forall t, exists r d,
    Main.attempts n (LLMClient.completion w self um sp ips temp mt) t
    = (Return r, (t ++ d)%list) /\
    Forall (fun s => s = (1 # 2)%Q) (sleeps d) /\
    List.length (errors_of "__main__" d) = List.length (sleeps d) /\
    List.length (sleeps d) <= n /\
    List.length (requests d) <= S (List.length (sleeps d)) /\
    List.length (requests d) <= n /\
    List.length (errors_of "core.LLMClient" d) <= List.length (sleeps d) /\
    (List.length (sleeps d) < n \/ r = "").
Proof.
  induction n as [|n IH]; intros t.
  - exists "", []. rewrite app_nil_r. cbn. repeat split; auto.
  - destruct (LLMClient.user_content w um ips []) as [[uc|e|c] t0] eqn:E.
    + assert (t0 = []) as -> by (now apply user_content_pure in E).
      destruct (chat_create w (List.length (requests t))
                  (LLMClient.create_args self (LLMClient.messages sp uc)
                     temp mt)) as [r|e] eqn:Er.
      * rewrite (attempt_answered w _ _ _ _ _ _ uc r n t E Er).
        exists r. eexists. split; [reflexivity|]. cbn.
        repeat split; auto; lia.
      * rewrite (attempt_failed w _ _ _ _ _ _ uc e n t E Er).
        match goal with |- context [Main.attempts n ?c ?t1] =>
          destruct (IH t1)
            as (r & d & E' & Hs & Herr & Hn & Hreq & Hreqn & Hcl & Hr)
        end.
        exists r. eexists. rewrite E', <- app_assoc.
        split; [reflexivity|].
        rewrite requests_app, sleeps_app, !errors_of_app, !length_app.
        cbn. repeat split; try lia.
        -- now constructor.
        -- destruct Hr as [Hr|Hr]; [left; lia | now right].
    + assert (t0 = []) as -> by (now apply user_content_pure in E).
      rewrite (attempt_unreadable w _ _ _ _ _ _ e n t E).
      match goal with |- context [Main.attempts n ?c ?t1] =>
        destruct (IH t1)
          as (r & d & E' & Hs & Herr & Hn & Hreq & Hreqn & Hcl & Hr)
      end.
      exists r. eexists. rewrite E', <- app_assoc.
      split; [reflexivity|].
      rewrite requests_app, sleeps_app, !errors_of_app, !length_app.
      cbn. repeat split; try lia.
      * now constructor.
      * destruct Hr as [Hr|Hr]; [left; lia | now right].
    + apply user_content_pure in E as (_ & Hne & _). now destruct (Hne c).
Qed.

(** The two lines on the base URL add no request, wait or error. *)
Lemma completion_prelude_quiet (a b : string) (d : list event) :
  requests ([Log (LogRecord "__main__" INFO a);
             Log (LogRecord "core.LLMClient" INFO b)] ++ d) = requests d /\
  sleeps ([Log (LogRecord "__main__" INFO a);
           Log (LogRecord "core.LLMClient" INFO b)] ++ d) = sleeps d /\
  (forall name,
     errors_of name ([Log (LogRecord "__main__" INFO a);
                      Log (LogRecord "core.LLMClient" INFO b)] ++ d)
     = errors_of name d).
Proof.
  repeat split. intros name. cbn.
  now rewrite !andb_false_r.
Qed.

End RetryMore.

(** X5: for any budget [retry_times] and any [k] below it, when the
    provider fails the first [k] requests and answers the next,
    [completion] returns that answer after exactly [k + 1] requests and
    [k] waits of 0.5, with [k] failures logged. *)
Theorem retry_answer_after_failures (w : World) (message model : string)
    (system_prompt : option string) (image_paths : option (list string))
    (temperature : Q) (max_tokens : Z) (key : string) (tr : list event)
    (retry_times k : nat) (content : list content_part) (r : string) :
  Py.nonempty (getenv w "OPENAI_API_KEY") = Some key ->
  LLMClient.user_content w message image_paths [] = (Return content, []) ->
  k < retry_times ->
  let req :=
    LLMClient.create_args (Main.client w key model)
      (LLMClient.messages system_prompt content) temperature max_tokens in
  (forall j, j < k ->
     exists e, chat_create w (List.length (requests tr) + j) req = inr e) ->
  chat_create w (List.length (requests tr) + k) req = inl r ->
  exists d,
    Main.completion w message model system_prompt image_paths temperature
      max_tokens retry_times tr
    = (Return r, (tr ++ d)%list) /\
    List.length (requests d) = S k /\
    sleeps d = repeat (1 # 2)%Q k /\
    List.length (errors_of "__main__" d) = k.
Proof.
  intros Hkey Hc Hk req Hfail Hr.
  rewrite (completion_with_key w _ _ _ _ _ _ _ _ _ Hkey).
  match goal with |- context [Main.attempts retry_times ?c ?t1] =>
    destruct (attempts_answer_after w (Main.client w key model) message
                system_prompt image_paths temperature max_tokens content r k
                Hc retry_times t1 Hk) as (d & E & Hreq & Hs & He)
  end.
  - intros j Hj. rewrite requests_length_app. cbn.
    rewrite Nat.add_0_r. now apply Hfail.
  - rewrite requests_length_app. cbn. now rewrite Nat.add_0_r.
  - rewrite E, <- app_assoc. eexists. split; [reflexivity|].
    destruct (completion_prelude_quiet
                ("Using API base URL: "
                 ++ Main.api_base_url (getenv w "OPENAI_API_BASE"))
                ("Using API base URL: "
                 ++ Main.endpoint (getenv w "OPENAI_API_BASE")) d)
      as (H1 & H2 & H3).
    now rewrite H1, H2, H3.
Qed.

(** A budget of five on a provider that answers the fourth request. *)
Lemma retry_answer_after_failures_witness :
  exists d,
    Main.completion
      (Sample.world (Some "sk-test") ["page_1.png"]
         (fun n => if (n <? 3)%nat then inr "Connection error."
                   else inl "# Title"))
      "Transcribe." "" None (Some ["page_1.png"]) (3 # 10) 8192 5 []
    = (Return "# Title", d) /\
    List.length (requests d) = 4 /\
    sleeps d = [1 # 2; 1 # 2; 1 # 2]%Q.
Proof.
  edestruct
    (retry_answer_after_failures
       (Sample.world (Some "sk-test") ["page_1.png"]
          (fun n => if (n <? 3)%nat then inr "Connection error."
                    else inl "# Title"))
       "Transcribe." "" None (Some ["page_1.png"]) (3 # 10) 8192
       "sk-test" [] 5 3)
    as (d & Hrun & Hreq & Hs & _);
    [reflexivity | reflexivity | lia | | reflexivity |].
  - intros j Hj. exists "Connection error.".
    destruct j as [|[|[|j]]]; [reflexivity | reflexivity | reflexivity | lia].
  - exists d. split; [exact Hrun|]. split; [exact Hreq | exact Hs].
Defined.

(** X6: for any budget [retry_times], also 0, when the provider fails as
    many requests as the budget allows, or when an image cannot be read,
    [completion] returns the empty string after [retry_times] waits of
    0.5, the last one after the last failure, with [retry_times]
    failures logged; it made [retry_times] requests, or none when the
    image could not be read. *)
Theorem retry_exhausted (w : World) (message model : string)
    (system_prompt : option string) (image_paths : option (list string))
    (temperature : Q) (max_tokens : Z) (key : string) (tr : list event)
    (retry_times : nat) :
  Py.nonempty (getenv w "OPENAI_API_KEY") = Some key ->
  let run :=
    Main.completion w message model system_prompt image_paths temperature
      max_tokens retry_times tr in
  (forall content,
     LLMClient.user_content w message image_paths [] = (Return content, []) ->
     (forall j, j < retry_times ->
        exists e,
          chat_create w (List.length (requests tr) + j)
            (LLMClient.create_args (Main.client w key model)
               (LLMClient.messages system_prompt content) temperature
               max_tokens) = inr e) ->
     exists d,
       run = (Return "", (tr ++ d)%list) /\
       List.length (requests d) = retry_times /\
       sleeps d = repeat (1 # 2)%Q retry_times /\
       List.length (errors_of "__main__" d) = retry_times /\
       List.length (errors_of "core.LLMClient" d) = retry_times) /\
  (forall e,
     LLMClient.user_content w message image_paths [] = (Raise e, []) ->
     exists d,
       run = (Return "", (tr ++ d)%list) /\
       requests d = [] /\
       sleeps d = repeat (1 # 2)%Q retry_times /\
       errors_of "__main__" d
       = repeat ("LLM call failed: " ++ e) retry_times /\
       errors_of "core.LLMClient" d = []).
Proof.
  intros Hkey run. subst run.
  rewrite (completion_with_key w _ _ _ _ _ _ _ _ _ Hkey). split.
  - intros content Hc Hfail.
    match goal with |- context [Main.attempts retry_times ?c ?t1] =>
      destruct (attempts_all_fail w (Main.client w key model) message
                  system_prompt image_paths temperature max_tokens content
                  retry_times Hc t1) as (d & E & Hreq & Hs & He1 & He2)
    end.
    + intros j Hj. rewrite requests_length_app. cbn.
      rewrite Nat.add_0_r. now apply Hfail.
    + rewrite E, <- app_assoc. eexists. split; [reflexivity|].
      destruct (completion_prelude_quiet
                  ("Using API base URL: "
                   ++ Main.api_base_url (getenv w "OPENAI_API_BASE"))
                  ("Using API base URL: "
                   ++ Main.endpoint (getenv w "OPENAI_API_BASE")) d)
        as (H1 & H2 & H3).
      now rewrite H1, H2, !H3.
  - intros e Hc.
    match goal with |- context [Main.attempts retry_times ?c ?t1] =>
      destruct (attempts_unreadable w (Main.client w key model) message
                  system_prompt image_paths temperature max_tokens e
                  retry_times Hc t1) as (d & E & Hreq & Hs & He1 & He2)
    end.
    rewrite E, <- app_assoc. eexists. split; [reflexivity|].
    destruct (completion_prelude_quiet
                ("Using API base URL: "
                 ++ Main.api_base_url (getenv w "OPENAI_API_BASE"))
                ("Using API base URL: "
                 ++ Main.endpoint (getenv w "OPENAI_API_BASE")) d)
      as (H1 & H2 & H3).
    now rewrite H1, H2, !H3.
Qed.

(** A budget of 3.  On a provider that is down: three requests, three
    failures logged by each logger, three waits.  On an image that
    cannot be read: no request, three failures logged by [main.py]
    alone, three waits. *)
Lemma retry_exhausted_witness :
  (exists d,
     Main.completion
       (Sample.world (Some "sk-test") ["page_1.png"] Sample.down)
       "Transcribe." "" None (Some ["page_1.png"]) (3 # 10) 8192 3 []
     = (Return "", d) /\
     List.length (requests d) = 3 /\
     sleeps d = [1 # 2; 1 # 2; 1 # 2]%Q /\
     List.length (errors_of "__main__" d) = 3 /\
     List.length (errors_of "core.LLMClient" d) = 3) /\
  (exists d,
     Main.completion
       (Sample.world (Some "sk-test") ["page_1.png"] Sample.down)
       "Transcribe." "" None (Some ["missing.png"]) (3 # 10) 8192 3 []
     = (Return "", d) /\
     requests d = [] /\
     sleeps d = [1 # 2; 1 # 2; 1 # 2]%Q /\
     List.length (errors_of "__main__" d) = 3 /\
     errors_of "core.LLMClient" d = []).
Proof.
  split.
  - edestruct
      (proj1 (retry_exhausted
                (Sample.world (Some "sk-test") ["page_1.png"] Sample.down)
                "Transcribe." "" None (Some ["page_1.png"]) (3 # 10) 8192
                "sk-test" [] 3 eq_refl))
      as (d & Hrun & Hreq & Hs & He1 & He2).
    + reflexivity.
    + intros j Hj. exists "Connection error.". reflexivity.
    + exists d. now repeat split.
  - edestruct
      (proj2 (retry_exhausted
                (Sample.world (Some "sk-test") ["page_1.png"] Sample.down)
                "Transcribe." "" None (Some ["missing.png"]) (3 # 10) 8192
                "sk-test" [] 3 eq_refl))
      as (d & Hrun & Hreq & Hs & He1 & He2).
    + reflexivity.
    + exists d. rewrite He1. now repeat split.
Defined.

(** X7: on any provider and for any budget, [completion] with a key
    returns a value; every wait it made is of 0.5 (no growth, no
    jitter); it waited once and logged one failure per failed attempt,
    at most [retry_times] times; it made at most one request per
    attempt; and a value returned after [retry_times] failures is the
    empty string. *)
Theorem retry_invariants (w : World) (message model : string)
    (system_prompt : option string) (image_paths : option (list string))
    (temperature : Q) (max_tokens : Z) (key : string) (tr : list event)
    (retry_times : nat) :
  Py.nonempty (getenv w "OPENAI_API_KEY") = Some key ->
  exists r d,
    Main.completion w message model system_prompt image_paths temperature
      max_tokens retry_times tr
    = (Return r, (tr ++ d)%list) /\
    Forall (fun s => s = (1 # 2)%Q) (sleeps d) /\
    List.length (errors_of "__main__" d) = List.length (sleeps d) /\
    List.length (sleeps d) <= retry_times /\
    List.length (requests d) <= S (List.length (sleeps d)) /\
    List.length (requests d) <= retry_times /\
    List.length (errors_of "core.LLMClient" d) <= List.length (sleeps d) /\
    (List.length (sleeps d) < retry_times \/ r = "").
Proof.
  intros Hkey.
  rewrite (completion_with_key w _ _ _ _ _ _ _ _ _ Hkey).
  match goal with |- context [Main.attempts retry_times ?c ?t1] =>
    destruct (attempts_counts w (Main.client w key model) message
                system_prompt image_paths temperature max_tokens
                retry_times t1) as (r & d & E & H)
  end.
  exists r. eexists. rewrite E, <- app_assoc. split; [reflexivity|].
  destruct (completion_prelude_quiet
              ("Using API base URL: "
               ++ Main.api_base_url (getenv w "OPENAI_API_BASE"))
              ("Using API base URL: "
               ++ Main.endpoint (getenv w "OPENAI_API_BASE")) d)
    as (H1 & H2 & H3).
  now rewrite H1, H2, !H3.
Qed.

Lemma retry_invariants_witness :
  exists r d,
    Main.completion
      (Sample.world (Some "sk-test") ["page_1.png"] Sample.third_time_lucky)
      "Transcribe." "" None (Some ["page_1.png"]) (3 # 10) 8192 3 []
    = (Return r, d) /\
    Forall (fun s => s = (1 # 2)%Q) (sleeps d).
Proof.
  destruct
    (retry_invariants
       (Sample.world (Some "sk-test") ["page_1.png"] Sample.third_time_lucky)
       "Transcribe." "" None (Some ["page_1.png"]) (3 # 10) 8192
       "sk-test" [] 3 eq_refl)
    as (r & d & Hrun & Hs & _).
  exists r, d. split; [exact Hrun | exact Hs].
Defined.

(** ** The run as a whole *)

Section RunMore.

Variable w : World.

Lemma of_completion_leaves_files_alone (d : list event) :
  forallb of_completion d = true -> forallb leaves_files_alone d = true.
Proof.
  induction d as [|e d IH]; [reflexivity|]. cbn [forallb].
  rewrite !andb_true_iff. intros [He Hd]. split; [|now apply IH].
  now destruct e.
Qed.

Lemma leaves_files_alone_spec (d : list event) :
  forallb leaves_files_alone d = true ->
  created d = [] /\ removed d = [] /\ written d = [] /\ printed d = [] /\
  stored d = [] /\ documents d = [] /\ ~ In ConvertToImages d.
Proof.
  induction d as [|e d IH]; [now repeat split|]. cbn [forallb].
  rewrite andb_true_iff. intros [He Hd].
  destruct (IH Hd) as (H1 & H2 & H3 & H4 & H5 & H6 & H7).
  destruct e; try discriminate He; cbn; repeat split; auto;
    intros [H|H]; try discriminate H; auto.
Qed.

(** The classifier only logs, and if it stops the script it does so
    with code 1 and one error line. *)
Lemma classify_events (filename : string) (data : list byte) o d :
  Main.classify filename data [] = (o, d) ->
  forallb leaves_files_alone d = true /\
  sleeps d = [] /\
  ((exists ext, o = Return ext) \/
   (o = Exit 1 /\
    d = [Log (LogRecord "__main__" ERROR "Unsupported file type")])).
Proof.
  unfold Main.classify, Main.sniff.
  repeat match goal with
         | |- context [if ?c then _ else _] => destruct c
         end; run_monad; cbn; intros H; injection H as <- <-;
    (repeat split; try reflexivity); eauto.
Qed.

Lemma run_classify_exit (i : Main.Input) c d0 :
  Main.classify (Main.input_filename i) (Main.input_data i) [] = (Exit c, d0) ->
  Main.run w i [] = (Exit c, Makedirs ("output/" ++ timestamp w) :: d0).
Proof.
  intros Hc. unfold Main.run.
  unfold bind at 1. unfold emit at 1.
  unfold bind at 1. rewrite classify_frame, Hc. reflexivity.
Qed.

Lemma run_worker_rejects (i : Main.Input) ext d0 e :
  Main.classify (Main.input_filename i) (Main.input_data i) []
  = (Return ext, d0) ->
  create_worker w
    (Py.path_join ("output/" ++ timestamp w) ("input" ++ ext))
    (Main.start_page i) (Main.end_page i) = inr e ->
  Main.run w i []
  = (Exit 1,
     ([Makedirs ("output/" ++ timestamp w)] ++ d0 ++
      [WriteBytes
         (Py.path_join ("output/" ++ timestamp w) ("input" ++ ext))
         (Main.input_data i);
       Log (LogRecord "__main__" ERROR e)])%list).
Proof.
  intros Hc Hw. unfold Main.run.
  unfold bind at 1. unfold emit at 1.
  unfold bind at 1. rewrite classify_frame, Hc. cbn [fst snd].
  unfold bind at 1. unfold emit at 1. rewrite Hw.
  run_monad. cbn. now rewrite <- !app_assoc.
Qed.

(** One page with a key: at most 3 requests and 3 waits, and each
    request is the page's own. *)
Lemma convert_counts (image_path key : string) t :
  Py.nonempty (getenv w "OPENAI_API_KEY") = Some key ->
  exists fragment d,
    Main.convert_image_to_markdown w image_path t
    = (Return fragment, (t ++ d)%list) /\
    forallb of_completion d = true /\
    List.length (requests d) <= 3 /\
    List.length (sleeps d) <= 3 /\
    Forall (fun s => s = (1 # 2)%Q) (sleeps d) /\
    Forall (fun q => exists data,
              read_file w image_path = inl data /\
              q = page_request w key data) (requests d).
Proof.
  intros Hkey. unfold Main.convert_image_to_markdown, bind.
  destruct (completion_frame w Main.user_prompt "" (Some "")
              (Some [image_path]) (3 # 10) 8192 3 key t Hkey)
    as (r & d & E & Hd & Hlen & Hq).
  pose proof (completion_with_key w Main.user_prompt "" (Some "")
                (Some [image_path]) (3 # 10) 8192 3 key t Hkey) as E'.
  match type of E' with _ = Main.attempts 3 ?c ?t1 =>
    destruct (attempts_counts w (Main.client w key "") Main.user_prompt
                (Some "") (Some [image_path]) (3 # 10) 8192 3 t1)
      as (r' & d' & E'' & Hs & _ & Hn & _)
  end.
  rewrite E'' in E'. rewrite E in E'. injection E' as -> Hd'.
  rewrite <- app_assoc in Hd'. apply app_inv_head in Hd'. subst d.
  rewrite E. exists (remove_markdown_warp w r' "markdown"). eexists.
  split; [reflexivity|]. split; [exact Hd|]. split; [exact Hlen|].
  split; [exact Hn|]. split; [exact Hs|].
  apply Forall_forall. intros q Hin.
  destruct (Hq q Hin) as (uc & Huc & ->).
  unfold LLMClient.user_content in Huc. cbn in Huc.
  unfold LLMClient.encode_image in Huc. run_monad.
  destruct (read_file w image_path) as [data|]; [|discriminate Huc].
  injection Huc as <-. now exists data.
Qed.

(** The page loop with a key. *)
Lemma pages_counts (key : string) (img_paths : list string) :
  Py.nonempty (getenv w "OPENAI_API_KEY") = Some key ->
  forall markdown t, exists markdown' d,
    Main.pages w markdown img_paths t = (Return markdown', (t ++ d)%list) /\
    forallb leaves_files_alone d = true /\
    List.length (requests d) <= 3 * List.length img_paths /\
    List.length (sleeps d) <= 3 * List.length img_paths /\
    Forall (fun s => s = (1 # 2)%Q) (sleeps d) /\
    Forall (fun q => exists p data,
              In p img_paths /\
              read_file w (Py.replace p "\" "/") = inl data /\
              q = page_request w key data) (requests d).
Proof.
  intros Hkey. induction img_paths as [|p rest IH]; intros markdown t.
  - exists markdown, []. rewrite app_nil_r. cbn. repeat split; auto.
  - cbn [Main.pages]. unfold bind at 1. unfold Main.logger, emit.
    destruct (convert_counts (Py.replace p "\" "/") key
                (t ++ [Log (LogRecord "__main__" INFO
                         ("Converting image " ++ Py.replace p "\" "/"
                          ++ " to Markdown"))])%list Hkey)
      as (f & d1 & E1 & Hd1 & Hr1 & Hs1 & Hh1 & Hq1).
    unfold bind. rewrite E1.
    match goal with |- context [Main.pages w ?m rest ?t1] =>
      destruct (IH m t1) as (md' & d2 & E2 & Hd2 & Hr2 & Hs2 & Hh2 & Hq2)
    end.
    rewrite E2. exists md'. eexists. rewrite <- !app_assoc.
    split; [reflexivity|].
    rewrite !forallb_app, !requests_app, !sleeps_app, !length_app.
    rewrite (of_completion_leaves_files_alone _ Hd1), Hd2.
    cbn [forallb leaves_files_alone requests sleeps flat_map app
         List.length andb].
    split; [reflexivity|]. split; [lia|]. split; [lia|].
    split; [apply Forall_app; now split|].
    apply Forall_app. split.
    + eapply Forall_impl; [|exact Hq1]. intros q (data & Hread & ->).
      exists p, data. repeat split; auto. now left.
    + eapply Forall_impl; [|exact Hq2]. intros q (p' & data & Hin & Hread & ->).
      exists p', data. repeat split; auto. now right.
Qed.

End RunMore.

Section RunFacts.

Variable w : World.



Lemma written_app (a b : list event) :
  written (a ++ b) = (written a ++ written b)%list.
Proof. apply flat_map_app. Qed.

Lemma printed_app (a b : list event) :
  printed (a ++ b) = (printed a ++ printed b)%list.
Proof. apply flat_map_app. Qed.


(** The run of a classified input with a worker and a key, event by
    event: the prelude, what the page loop adds, and the tail. *)
Lemma run_success (i : Main.Input) (key ext : string) (d0 : list event)
    (worker : Worker) :
  Py.nonempty (getenv w "OPENAI_API_KEY") = Some key ->
  Main.classify (Main.input_filename i) (Main.input_data i) []
  = (Return ext, d0) ->
  create_worker w
    (Py.path_join ("output/" ++ timestamp w) ("input" ++ ext))
    (Main.start_page i) (Main.end_page i) = inl worker ->
  exists markdown d,
    Main.run w i []
    = (Exit 0,
       (([Makedirs ("output/" ++ timestamp w)] ++ d0 ++
         [WriteBytes
            (Py.path_join ("output/" ++ timestamp w) ("input" ++ ext))
            (Main.input_data i);
          ConvertToImages;
          Log (LogRecord "__main__" INFO "Image conversion completed")])
        ++ d
        ++ [Log (LogRecord "__main__" INFO
                   "Image conversion to Markdown completed")]
        ++ match Py.nonempty (Main.output_path i) with
           | Some path =>
               [WriteText path markdown;
                Log (LogRecord "__main__" INFO
                       ("Markdown saved to " ++ path))]
           | None => [Print markdown]
           end
        ++ [Rmtree ("output/" ++ timestamp w)])%list) /\
    forallb leaves_files_alone d0 = true /\
    forallb leaves_files_alone d = true /\
    requests d0 = [] /\ sleeps d0 = [] /\
    List.length (requests d) <= 3 * List.length (convert_to_images worker) /\
    List.length (sleeps d) <= 3 * List.length (convert_to_images worker) /\
    Forall (fun q => exists p data,
              In p (convert_to_images worker) /\
              read_file w (Py.replace p "\" "/") = inl data /\
              q = page_request w key data) (requests d).
Proof.
  intros Hkey Hc Hw. rewrite (run_after_classify w i ext d0 worker Hc Hw).
  match goal with |- context [Main.pages w "" ?l ?t0] =>
    destruct (pages_counts w key l Hkey "" t0)
      as (md & d & -> & Hd & Hr & Hs & _ & Hq)
  end.
  exists md, d. rewrite <- !app_assoc. split; [reflexivity|].
  destruct (classify_events _ _ _ _ Hc) as (Hd0 & Hs0 & _).
  destruct (classify_quiet _ _ _ _ Hc) as (Hr0 & _).
  rewrite <- (Permutation_length (sorted_perm (convert_to_images worker)))
    in Hr, Hs.
  repeat split; auto.
  eapply Forall_impl; [|exact Hq].
  intros q (p' & data & Hin & Hread & ->). exists p', data.
  repeat split; auto.
  eapply Permutation_in; [|exact Hin].
  apply Permutation_sym, sorted_perm.
Qed.

End RunFacts.

(** X9: in a run, the page loop makes at most 3 requests and 3 waits
    for each page image the renderer returned; with no key it makes
    none. *)
Theorem run_request_bound (w : World) (i : Main.Input) (ext : string)
    (d0 : list event) (worker : Worker) :
  Main.classify (Main.input_filename i) (Main.input_data i) []
  = (Return ext, d0) ->
  create_worker w
    (Py.path_join ("output/" ++ timestamp w) ("input" ++ ext))
    (Main.start_page i) (Main.end_page i) = inl worker ->
  let tr := snd (Main.run w i []) in
  List.length (requests tr) <= 3 * List.length (convert_to_images worker) /\
  List.length (sleeps tr) <= 3 * List.length (convert_to_images worker) /\
  (Py.nonempty (getenv w "OPENAI_API_KEY") = None ->
   requests tr = [] /\ sleeps tr = []).
Proof.
  intros Hc Hw tr. subst tr.
  destruct (classify_events _ _ _ _ Hc) as (_ & Hs0 & _).
  destruct (classify_quiet _ _ _ _ Hc) as (Hr0 & _).
  destruct (Py.nonempty (getenv w "OPENAI_API_KEY")) as [key|] eqn:Hkey.
  - destruct (run_success w i key ext d0 worker Hkey Hc Hw)
      as (md & d & Hrun & _ & _ & _ & _ & Hr & Hs & _).
    rewrite Hrun. cbn [snd].
    rewrite !requests_app, !sleeps_app, !length_app, Hr0, Hs0.
    destruct (Py.nonempty (Main.output_path i)); cbn;
      (split; [lia|]); (split; [lia|]); discriminate.
  - rewrite (run_after_classify w i ext d0 worker Hc Hw).
    destruct (Py.sorted (convert_to_images worker)) as [|p rest] eqn:Es.
    + cbn [Main.pages]. unfold ret. cbn [snd].
      rewrite !requests_app, !sleeps_app, !length_app, Hr0, Hs0.
      destruct (Py.nonempty (Main.output_path i)); cbn;
        (split; [lia|]); (split; [lia|]); intros _; now split.
    + rewrite (pages_without_key w p rest "" _ Hkey). cbn [snd].
      rewrite !requests_app, !sleeps_app, !length_app, Hr0, Hs0. cbn.
      split; [lia|]. split; [lia|]. intros _. now split.
Qed.

Lemma run_request_bound_witness :
  List.length
    (requests
       (snd (Main.run
               (Sample.world (Some "sk-test") ["p1.png"; "p2.png"]
                  Sample.down) Sample.piped_pdf [])))
  <= 6.
Proof.
  exact (proj1 (run_request_bound
    (Sample.world (Some "sk-test") ["p1.png"; "p2.png"] Sample.down)
    Sample.piped_pdf ".pdf"
    [Log (LogRecord "__main__" INFO "Recognized as PDF file by file content")]
    {| convert_to_images := ["p1.png"; "p2.png"] |} eq_refl eq_refl)).
Defined.

(** X10: every request of a run is the request of the page loop for one
    of the rendered images: the key and the endpoint from the
    environment, the default model, temperature 0.3, 8192 tokens, no
    system prompt, and as user content the fixed instruction followed by
    that one image. *)
Theorem run_requests (w : World) (i : Main.Input) (key ext : string)
    (d0 : list event) (worker : Worker) :
  Py.nonempty (getenv w "OPENAI_API_KEY") = Some key ->
  Main.classify (Main.input_filename i) (Main.input_data i) []
  = (Return ext, d0) ->
  create_worker w
    (Py.path_join ("output/" ++ timestamp w) ("input" ++ ext))
    (Main.start_page i) (Main.end_page i) = inl worker ->
  Forall (fun q =>
    (exists p data,
       In p (convert_to_images worker) /\
       read_file w (Py.replace p "\" "/") = inl data /\
       req_messages q
       = [ChatMessage "system" (Text "");
          ChatMessage "user"
            (Parts [TextPart Main.user_prompt;
                    ImageUrlPart ("data:image/jpeg;base64,"
                                  ++ Py.b64encode data)])]) /\
    req_api_key q = key /\
    req_base_url q = Main.endpoint (getenv w "OPENAI_API_BASE") /\
    req_model q = Main.model_name w "" /\
    req_temperature q = (3 # 10)%Q /\
    req_max_tokens q = 8192%Z)
    (requests (snd (Main.run w i []))).
Proof.
  intros Hkey Hc Hw.
  destruct (run_success w i key ext d0 worker Hkey Hc Hw)
    as (md & d & Hrun & _ & _ & Hr0 & _ & _ & _ & Hq).
  rewrite Hrun. cbn [snd].
  match goal with |- Forall _ ?l =>
    assert (Hreq : l = requests d);
      [rewrite !requests_app, Hr0;
       destruct (Py.nonempty (Main.output_path i)); cbn;
       now rewrite app_nil_r
      | rewrite Hreq]
  end.
  eapply Forall_impl; [|exact Hq].
  intros q (p & data & Hin & Hread & ->).
  split; [|now repeat split]. now exists p, data.
Qed.

Lemma run_requests_witness :
  Forall (fun q => req_model q = "gpt-4o" /\ req_api_key q = "sk-test")
    (requests
       (snd (Main.run
               (Sample.world (Some "sk-test") ["p1.png"; "p2.png"]
                  Sample.first_only) Sample.piped_pdf []))).
Proof.
  eapply Forall_impl;
    [|exact (run_requests
        (Sample.world (Some "sk-test") ["p1.png"; "p2.png"] Sample.first_only)
        Sample.piped_pdf "sk-test" ".pdf"
        [Log (LogRecord "__main__" INFO
                "Recognized as PDF file by file content")]
        {| convert_to_images := ["p1.png"; "p2.png"] |}
        eq_refl eq_refl eq_refl)].
  intros q (_ & Hk & _ & Hm & _). split; [exact Hm | exact Hk].
Defined.

(** ** The classifier on input it does not know *)

(** X12: of the JPEG files only those whose fourth byte is [DB] are
    recognised by content: input without an extension, or on standard
    input, that begins with [FF D8 FF] and goes on with any other byte
    (as JFIF and Exif files do) is refused as an unsupported file
    type. *)
Theorem jpeg_needs_fourth_byte (filename : string) (x : byte)
    (rest : list byte) (tr : list event) :
  Py.splitext_ext filename = "" \/ filename = "<stdin>" ->
  x <> xdb ->
  Main.classify filename (xff :: xd8 :: xff :: x :: rest) tr
  = (Exit 1,
     (tr ++ [Log (LogRecord "__main__" ERROR "Unsupported file type")])%list).
Proof.
  intros Hext Hx.
  assert (Hcond : String.eqb (Py.splitext_ext filename) ""
                  || String.eqb filename "<stdin>" = true).
  { apply orb_true_iff.
    destruct Hext as [H|H]; [left|right]; now apply String.eqb_eq. }
  unfold Main.classify. rewrite Hcond. unfold Main.sniff.
  cbn [Py.bytes_startswith].
  assert (Hdb : Byte.eqb xdb x = false).
  { destruct (Byte.eqb xdb x) eqn:E; [|reflexivity].
    apply Byte.byte_dec_bl in E. congruence. }
  rewrite Hdb.
  change (Byte.eqb x25 xff) with false.
  change (Byte.eqb xff xff) with true.
  change (Byte.eqb xd8 xd8) with true.
  change (Byte.eqb x89 xff) with false.
  change (Byte.eqb x42 xff) with false.
  reflexivity.
Qed.

(** A JFIF file on standard input. *)
Lemma jpeg_needs_fourth_byte_witness :
  Main.classify "<stdin>" [xff; xd8; xff; xe0; x00; x10; x4a; x46] []
  = (Exit 1, [Log (LogRecord "__main__" ERROR "Unsupported file type")]).
Proof.
  exact (jpeg_needs_fourth_byte "<stdin>" xe0 [x00; x10; x4a; x46] []
           (or_intror eq_refl) ltac:(discriminate)).
Defined.

(** X13: input of fewer than two bytes, the empty input among it, has no
    signature: without an extension it is refused as an unsupported
    file type, and the run ends with exit code 1 having created the
    work directory and nothing else. *)
Theorem short_input_unsupported (w : World) (i : Main.Input) :
  Py.splitext_ext (Main.input_filename i) = "" \/
  Main.input_filename i = "<stdin>" ->
  List.length (Main.input_data i) < 2 ->
  Main.run w i []
  = (Exit 1,
     [Makedirs ("output/" ++ timestamp w);
      Log (LogRecord "__main__" ERROR "Unsupported file type")]).
Proof.
  intros Hext Hlen.
  assert (Hcond : String.eqb (Py.splitext_ext (Main.input_filename i)) ""
                  || String.eqb (Main.input_filename i) "<stdin>" = true).
  { apply orb_true_iff.
    destruct Hext as [H|H]; [left|right]; now apply String.eqb_eq. }
  apply run_classify_exit.
  unfold Main.classify. rewrite Hcond. unfold Main.sniff.
  destruct (Main.input_data i) as [|a [|b data]]; cbn [List.length] in Hlen;
    [reflexivity | | lia].
  cbn [Py.bytes_startswith]. now rewrite !andb_false_r.
Qed.

Lemma short_input_unsupported_witness :
  fst (Main.run (Sample.world (Some "sk-test") [] Sample.down)
         {| Main.input_filename := "scan";
            Main.input_data := [];
            Main.output_path := Some "scan.md";
            Main.start_page := 1;
            Main.end_page := 0 |} [])
  = Exit 1.
Proof.
  rewrite (short_input_unsupported
    (Sample.world (Some "sk-test") [] Sample.down)
    {| Main.input_filename := "scan";
       Main.input_data := [];
       Main.output_path := Some "scan.md";
       Main.start_page := 1;
       Main.end_page := 0 |} (or_introl eq_refl) ltac:(cbn; lia)).
  reflexivity.
Defined.

(** ** The command line and the input *)


(** X14: when the first argument is neither a file nor a name in
    [.pdf], or when there is no argument, the script reads standard
    input, takes the arguments for page numbers, and runs on the input
    under the file name [<stdin>], with no output path: the document
    goes to standard output and the input is classified by its bytes. *)
Theorem stdin_mode (w : World) (sh : Script.Shell) (prog : string)
    (pages : list string) (first last : Z) :
  Script.argv sh = prog :: pages ->
  (forall arg1 rest,
     pages = arg1 :: rest ->
     Script.isfile sh arg1 || Py.endswith arg1 ".pdf" = false) ->
  Script.page_args sh pages [] = (Return (first, last), []) ->
  Script.stdin sh <> [] ->
  Script.main w sh []
  = Main.run w {| Main.input_filename := "<stdin>";
                  Main.input_data := Script.stdin sh;
                  Main.output_path := None;
                  Main.start_page := first;
                  Main.end_page := last |} [].
Proof.
  intros Hargv Hmode Hpages Hin.
  unfold Script.main, Script.parse_args. rewrite Hargv.
  destruct pages as [|arg1 rest].
  - cbn in Hpages. injection Hpages as <- <-.
    unfold bind at 1. unfold ret at 1. cbn [Script.input_path].
    unfold Script.read_input. cbn [Py.nonempty].
    destruct (Script.stdin sh) as [|b data]; [congruence|].
    reflexivity.
  - rewrite (Hmode arg1 rest eq_refl).
    unfold bind at 1. unfold try_except. unfold bind at 1.
    rewrite Hpages. unfold ret at 1. cbn [Script.input_path fst snd].
    unfold Script.read_input. cbn [Py.nonempty].
    destruct (Script.stdin sh) as [|b data]; [congruence|].
    reflexivity.
Qed.

Lemma stdin_mode_witness :
  fst (Script.main
         (Sample.world (Some "sk-test") ["p1.png"] Sample.first_only)
         (Sample.shell ["2"; "3"] [] [x25; x50; x44; x46; x2d; x31]) [])
  = Exit 0.
Proof.
  rewrite (stdin_mode
    (Sample.world (Some "sk-test") ["p1.png"] Sample.first_only)
    (Sample.shell ["2"; "3"] [] [x25; x50; x44; x46; x2d; x31])
    "main.py" ["2"; "3"] 2 3 eq_refl).
  - reflexivity.
  - intros arg1 rest H. injection H as <- _. reflexivity.
  - reflexivity.
  - discriminate.
Defined.

(** X15: with nothing on standard input the script stops before it
    creates, writes or asks for anything: it logs that no input data
    was received, logs the usage, and exits with code 1. *)
Theorem empty_stdin (w : World) (sh : Script.Shell) (prog : string)
    (pages : list string) (first last : Z) :
  Script.argv sh = prog :: pages ->
  (forall arg1 rest,
     pages = arg1 :: rest ->
     Script.isfile sh arg1 || Py.endswith arg1 ".pdf" = false) ->
  Script.page_args sh pages [] = (Return (first, last), []) ->
  Script.stdin sh = [] ->
  Script.main w sh []
  = (Exit 1,
     [Log (LogRecord "__main__" ERROR "No input data received");
      Log (LogRecord "__main__" ERROR Script.help_msg)]).
Proof.
  intros Hargv Hmode Hpages Hin.
  unfold Script.main, Script.parse_args. rewrite Hargv.
  destruct pages as [|arg1 rest].
  - unfold bind at 1. unfold ret at 1. cbn [Script.input_path].
    unfold Script.read_input. cbn [Py.nonempty]. rewrite Hin.
    reflexivity.
  - rewrite (Hmode arg1 rest eq_refl).
    unfold bind at 1. unfold try_except. unfold bind at 1.
    rewrite Hpages. unfold ret at 1. cbn [Script.input_path fst snd].
    unfold Script.read_input. cbn [Py.nonempty]. rewrite Hin.
    reflexivity.
Qed.

Lemma empty_stdin_witness :
  Script.main (Sample.world None [] Sample.down)
    (Sample.shell [] [] []) []
  = (Exit 1,
     [Log (LogRecord "__main__" ERROR "No input data received");
      Log (LogRecord "__main__" ERROR Script.help_msg)]).
Proof.
  apply (empty_stdin (Sample.world None [] Sample.down)
           (Sample.shell [] [] []) "main.py" [] 1 0 eq_refl);
    [intros arg1 rest H; discriminate H | reflexivity | reflexivity].
Defined.

(** X16: a page number that is not an integer is handled in one mode
    only.  When the script reads standard input, it logs
    [Invalid page number] and the usage and exits with code 1, without
    reading the input.  When the first argument is a file or a name in
    [.pdf], the [ValueError] of [int] is not caught: the script ends
    with that exception and logs nothing.  There the second argument is
    a page number unless it ends in [.md]. *)
Theorem invalid_page_number (w : World) (sh : Script.Shell) (prog arg1 : string)
    (rest : list string) (e : string) :
  Script.argv sh = prog :: arg1 :: rest ->
  (Script.isfile sh arg1 || Py.endswith arg1 ".pdf" = false ->
   Script.page_args sh (arg1 :: rest) [] = (Raise e, []) ->
   Script.main w sh []
   = (Exit 1,
      [Log (LogRecord "__main__" ERROR "Invalid page number");
       Log (LogRecord "__main__" ERROR Script.help_msg)])) /\
  (Script.isfile sh arg1 || Py.endswith arg1 ".pdf" = true ->
   forall arg2 rest',
     rest = arg2 :: rest' ->
     Script.page_args sh
       (if Py.endswith arg2 ".md" then rest' else arg2 :: rest') []
     = (Raise e, []) ->
     Script.main w sh [] = (Raise e, [])).
Proof.
  intros Hargv. split.
  - intros Hmode Hpages.
    unfold Script.main, Script.parse_args. rewrite Hargv, Hmode.
    unfold bind at 1. unfold try_except. unfold bind at 1.
    rewrite Hpages. reflexivity.
  - intros Hmode arg2 rest' -> Hpages.
    unfold Script.main, Script.parse_args. rewrite Hargv, Hmode.
    destruct (Py.endswith arg2 ".md");
      unfold bind at 1; unfold bind at 1; now rewrite Hpages.
Qed.

(** The same word for a page, on standard input and after a path. *)
Lemma invalid_page_number_witness :
  fst (Script.main (Sample.world (Some "sk-test") [] Sample.down)
         (Sample.shell ["two"] [] [x25; x50; x44; x46; x2d]) [])
  = Exit 1 /\
  fst (Script.main (Sample.world (Some "sk-test") [] Sample.down)
         (Sample.shell ["in.pdf"; "two"] [] []) [])
  = Raise "invalid literal for int() with base 10: two".
Proof.
  split.
  - rewrite (proj1 (invalid_page_number
      (Sample.world (Some "sk-test") [] Sample.down)
      (Sample.shell ["two"] [] [x25; x50; x44; x46; x2d])
      "main.py" "two" [] "invalid literal for int() with base 10: two"
      eq_refl) eq_refl eq_refl).
    reflexivity.
  - rewrite (proj2 (invalid_page_number
      (Sample.world (Some "sk-test") [] Sample.down)
      (Sample.shell ["in.pdf"; "two"] [] [])
      "main.py" "in.pdf" ["two"]
      "invalid literal for int() with base 10: two"
      eq_refl) eq_refl "two" [] eq_refl eq_refl).
    reflexivity.
Defined.

(** X17: with a path and an output file in [.md] on the command line
    and a readable input file, the script runs on the bytes of that file
    under the last component of the path, with that output file; an
    empty file is not refused here as empty standard input is.  When
    the file cannot be read, a name in [.pdf] that is no file among
    them, the script ends with the exception of [open] and logs
    nothing. *)
Theorem file_mode (w : World) (sh : Script.Shell) (prog arg1 arg2 : string)
    (pages : list string) (first last : Z) :
  Script.argv sh = prog :: arg1 :: arg2 :: pages ->
  Script.isfile sh arg1 || Py.endswith arg1 ".pdf" = true ->
  Py.endswith arg2 ".md" = true ->
  arg1 <> "" ->
  Script.page_args sh pages [] = (Return (first, last), []) ->
  (forall data,
     read_file w arg1 = inl data ->
     Py.nonempty (Some arg2) = Some arg2 /\
     Script.main w sh []
     = Main.run w {| Main.input_filename := Script.basename arg1;
                     Main.input_data := data;
                     Main.output_path := Some arg2;
                     Main.start_page := first;
                     Main.end_page := last |} []) /\
  (forall e, read_file w arg1 = inr e -> Script.main w sh [] = (Raise e, [])).
Proof.
  intros Hargv Hmode Hmd Hne Hpages.
  assert (Hparse : Script.parse_args sh []
                   = (Return {| Script.input_path := Some arg1;
                                Script.output_path := Some arg2;
                                Script.start_page := first;
                                Script.end_page := last |}, [])).
  { unfold Script.parse_args. rewrite Hargv, Hmode, Hmd.
    unfold bind. now rewrite Hpages. }
  split.
  - intros data Hread. split.
    + apply nonempty_some. intros ->. discriminate Hmd.
    + unfold Script.main. unfold bind at 1. rewrite Hparse.
      cbn [Script.input_path]. unfold Script.read_input.
      rewrite (nonempty_some arg1 Hne), Hread. reflexivity.
  - intros e Hread.
    unfold Script.main. unfold bind at 1. rewrite Hparse.
    cbn [Script.input_path]. unfold Script.read_input.
    rewrite (nonempty_some arg1 Hne), Hread. reflexivity.
Qed.

(** A name in [.pdf] that is no file. *)
Lemma file_mode_witness :
  Script.main (Sample.world (Some "sk-test") [] Sample.down)
    (Sample.shell ["missing.pdf"; "out.md"; "1"; "2"] [] []) []
  = (Raise "[Errno 2] No such file or directory: missing.pdf", []).
Proof.
  apply (proj2 (file_mode (Sample.world (Some "sk-test") [] Sample.down)
                  (Sample.shell ["missing.pdf"; "out.md"; "1"; "2"] [] [])
                  "main.py" "missing.pdf" "out.md" ["1"; "2"] 1 2
                  eq_refl eq_refl eq_refl ltac:(discriminate) eq_refl)).
  reflexivity.
Defined.

(** ** The image payload *)

Lemma list_ind3 (A : Type) (P : list A -> Prop) :
  P [] -> (forall a, P [a]) -> (forall a b, P [a; b]) ->
  (forall a b c l, P l -> P (a :: b :: c :: l)) ->
  forall l, P l.
Proof.
  intros H0 H1 H2 H3 l.
  assert (H : P l /\ (forall a, P (a :: l)) /\ (forall a b, P (a :: b :: l))).
  { induction l as [|x l (Ha & Hb & Hc)]; [now repeat split|].
    repeat split; auto. }
  apply H.
Qed.

Lemma b64encode_length (bs : list byte) :
  String.length (Py.b64encode bs) = 4 * ((List.length bs + 2) / 3).
Proof.
  induction bs as [| a | a b | a b c l IH] using list_ind3; try reflexivity.
  cbn [Py.b64encode String.length List.length]. rewrite IH.
  replace (S (S (S (List.length l))) + 2)
    with ((List.length l + 2) + 1 * 3) by lia.
  rewrite Nat.div_add by lia. lia.
Qed.

Open Scope N_scope.

Lemma land_shiftl_low (x y k : N) : y < 2 ^ k -> N.land (N.shiftl x k) y = 0.
Proof.
  intros Hy. apply N.bits_inj. intros n. rewrite N.land_spec, N.bits_0.
  destruct (N.ltb_spec n k) as [H|H].
  - now rewrite N.shiftl_spec_low.
  - destruct (N.eq_dec y 0) as [->|Hy0].
    + now rewrite N.bits_0, andb_false_r.
    + rewrite (N.bits_above_log2 y n), andb_false_r; [reflexivity|].
      apply N.lt_le_trans with k; [|exact H].
      apply N.log2_lt_pow2; [|exact Hy]. lia.
Qed.

Lemma lor_shiftl_add (x y k : N) :
  y < 2 ^ k -> N.lor (N.shiftl x k) y = x * 2 ^ k + y.
Proof.
  intros Hy. pose proof (land_shiftl_low x y k Hy) as H.
  rewrite <- (N.lxor_lor _ _ H), <- (N.add_nocarry_lxor _ _ H).
  now rewrite N.shiftl_mul_pow2.
Qed.

(** The 24 bits of a group, as a number. *)
Lemma b64_group_value (a b c : byte) :
  Py.b64_group a b c
  = Byte.to_N a * 65536 + Byte.to_N b * 256 + Byte.to_N c.
Proof.
  unfold Py.b64_group.
  pose proof (Byte.to_N_bounded b) as Hb.
  pose proof (Byte.to_N_bounded c) as Hc.
  rewrite (lor_shiftl_add (Byte.to_N b) (Byte.to_N c) 8)
    by (change (2 ^ 8) with 256; lia).
  rewrite (lor_shiftl_add (Byte.to_N a) _ 16)
    by (change (2 ^ 8) with 256; change (2 ^ 16) with 65536; lia).
  change (2 ^ 8) with 256. change (2 ^ 16) with 65536. lia.
Qed.

Lemma div_mod_64_inj (x y : N) :
  x / 64 = y / 64 -> x mod 64 = y mod 64 -> x = y.
Proof.
  intros Hd Hm.
  rewrite (N.div_mod x 64), (N.div_mod y 64) by discriminate.
  now rewrite Hd, Hm.
Qed.

Lemma sextet_mod (n k : N) : N.land (N.shiftr n k) 63 = (n / 2 ^ k) mod 64.
Proof.
  change 63 with (N.ones 6). now rewrite N.land_ones, N.shiftr_div_pow2.
Qed.

(** Four sextets make up a number below [2 ^ 24]. *)
Lemma sextets_inj (n m : N) :
  n < 16777216 -> m < 16777216 ->
  N.land (N.shiftr n 18) 63 = N.land (N.shiftr m 18) 63 ->
  N.land (N.shiftr n 12) 63 = N.land (N.shiftr m 12) 63 ->
  N.land (N.shiftr n 6) 63 = N.land (N.shiftr m 6) 63 ->
  N.land n 63 = N.land m 63 ->
  n = m.
Proof.
  intros Hn Hm.
  rewrite <- (N.shiftr_0_r n) at 4. rewrite <- (N.shiftr_0_r m) at 4.
  rewrite !sextet_mod.
  change (2 ^ 18) with (64 * 64 * 64). change (2 ^ 12) with (64 * 64).
  change (2 ^ 6) with 64. change (2 ^ 0) with 1. rewrite !N.div_1_r.
  rewrite <- !N.Div0.div_div.
  intros H18 H12 H6 H0.
  assert (Hsmall : forall x, x < 16777216 -> (x / 64 / 64 / 64) mod 64 = x / 64 / 64 / 64).
  { intros x Hx. apply N.mod_small.
    rewrite !N.Div0.div_div.
    apply N.Div0.div_lt_upper_bound. exact Hx. }
  rewrite !Hsmall in H18 by assumption.
  apply div_mod_64_inj; [|exact H0].
  apply div_mod_64_inj; [|exact H6].
  apply div_mod_64_inj; [exact H18 | exact H12].
Qed.

Lemma sextet_bound (x : N) : (N.to_nat (N.land x 63) < 64)%nat.
Proof.
  change 63 with (N.ones 6). rewrite N.land_ones.
  pose proof (N.mod_lt x (2 ^ 6) ltac:(discriminate)) as H.
  change (2 ^ 6) with 64 in *. lia.
Qed.

Lemma b64_alphabet_index (k : nat) :
  (k < 64)%nat ->
  String.index 0%nat
    (String match String.get k Py.b64_alphabet with
            | Some c => c
            | None => "="%char
            end "") Py.b64_alphabet
  = Some k.
Proof.
  intros Hk.
  do 64 (destruct k as [|k]; [vm_compute; reflexivity|]). lia.
Qed.

Lemma b64_char_inj (x y : N) :
  Py.b64_char x = Py.b64_char y -> N.land x 63 = N.land y 63.
Proof.
  unfold Py.b64_char. intros H.
  pose proof (b64_alphabet_index _ (sextet_bound x)) as Hx.
  pose proof (b64_alphabet_index _ (sextet_bound y)) as Hy.
  rewrite H, Hy in Hx. injection Hx as Hx. lia.
Qed.

Lemma b64_char_not_pad (x : N) : Py.b64_char x <> "="%char.
Proof.
  unfold Py.b64_char. intros H.
  pose proof (b64_alphabet_index _ (sextet_bound x)) as Hx.
  rewrite H in Hx. discriminate Hx.
Qed.

Lemma b64_group_bound (a b c : byte) : Py.b64_group a b c < 16777216.
Proof.
  rewrite b64_group_value.
  pose proof (Byte.to_N_bounded a). pose proof (Byte.to_N_bounded b).
  pose proof (Byte.to_N_bounded c). lia.
Qed.

Lemma to_N_inj (a b : byte) : Byte.to_N a = Byte.to_N b -> a = b.
Proof.
  intros H. pose proof (Byte.of_to_N a) as Ha.
  rewrite H, Byte.of_to_N in Ha. now injection Ha.
Qed.

(** A group is known by its four characters; the last two matter only
    for the bytes they hold. *)
Lemma b64_group_inj (a b c a' b' c' : byte) :
  Py.b64_char (N.shiftr (Py.b64_group a b c) 18)
  = Py.b64_char (N.shiftr (Py.b64_group a' b' c') 18) ->
  Py.b64_char (N.shiftr (Py.b64_group a b c) 12)
  = Py.b64_char (N.shiftr (Py.b64_group a' b' c') 12) ->
  Py.b64_char (N.shiftr (Py.b64_group a b c) 6)
  = Py.b64_char (N.shiftr (Py.b64_group a' b' c') 6) ->
  Py.b64_char (Py.b64_group a b c) = Py.b64_char (Py.b64_group a' b' c') ->
  a = a' /\ b = b' /\ c = c'.
Proof.
  intros H1 H2 H3 H4.
  apply b64_char_inj in H1, H2, H3, H4.
  pose proof (sextets_inj _ _ (b64_group_bound a b c)
                (b64_group_bound a' b' c') H1 H2 H3 H4) as H.
  rewrite !b64_group_value in H.
  pose proof (Byte.to_N_bounded a). pose proof (Byte.to_N_bounded b).
  pose proof (Byte.to_N_bounded c). pose proof (Byte.to_N_bounded a').
  pose proof (Byte.to_N_bounded b'). pose proof (Byte.to_N_bounded c').
  repeat split; apply to_N_inj; lia.
Qed.

(** The low sextets of a group whose last bytes are zero. *)
Lemma b64_low_sextet (a b : byte) :
  N.land (Py.b64_group a b x00) 63 = 0.
Proof.
  rewrite <- (N.shiftr_0_r (Py.b64_group a b x00)), sextet_mod.
  rewrite b64_group_value. change (2 ^ 0) with 1. rewrite N.div_1_r.
  change (Byte.to_N x00) with 0.
  replace (Byte.to_N a * 65536 + Byte.to_N b * 256 + 0)
    with ((Byte.to_N a * 1024 + Byte.to_N b * 4) * 64) by lia.
  apply N.Div0.mod_mul.
Qed.

Lemma b64_mid_sextet (a : byte) :
  N.land (N.shiftr (Py.b64_group a x00 x00) 6) 63 = 0.
Proof.
  rewrite sextet_mod, b64_group_value. change (2 ^ 6) with 64.
  change (Byte.to_N x00) with 0.
  replace (Byte.to_N a * 65536 + 0 * 256 + 0)
    with ((Byte.to_N a * 1024) * 64) by lia.
  rewrite N.div_mul by discriminate.
  replace (Byte.to_N a * 1024) with ((Byte.to_N a * 16) * 64) by lia.
  apply N.Div0.mod_mul.
Qed.

Close Scope N_scope.

Lemma b64encode_one (a : byte) :
  Py.b64encode [a]
  = String (Py.b64_char (N.shiftr (Py.b64_group a x00 x00) 18))
      (String (Py.b64_char (N.shiftr (Py.b64_group a x00 x00) 12)) "==").
Proof. reflexivity. Qed.

Lemma b64encode_two (a b : byte) :
  Py.b64encode [a; b]
  = String (Py.b64_char (N.shiftr (Py.b64_group a b x00) 18))
      (String (Py.b64_char (N.shiftr (Py.b64_group a b x00) 12))
         (String (Py.b64_char (N.shiftr (Py.b64_group a b x00) 6)) "=")).
Proof. reflexivity. Qed.

Lemma b64encode_three (a b c : byte) (l : list byte) :
  Py.b64encode (a :: b :: c :: l)
  = String (Py.b64_char (N.shiftr (Py.b64_group a b c) 18))
      (String (Py.b64_char (N.shiftr (Py.b64_group a b c) 12))
         (String (Py.b64_char (N.shiftr (Py.b64_group a b c) 6))
            (String (Py.b64_char (Py.b64_group a b c)) (Py.b64encode l)))).
Proof. reflexivity. Qed.

Opaque Py.b64_char Py.b64_group.

Lemma string_cons_inj (a b : ascii) (s t : string) :
  String a s = String b t -> a = b /\ s = t.
Proof. intros H. now inversion H. Qed.

Lemma b64encode_injective (bs : list byte) :
  forall bs', Py.b64encode bs = Py.b64encode bs' -> bs = bs'.
Proof.
  induction bs as [| a | a b | a b c l IH] using list_ind3;
    intros [|a' [|b' [|c' l']]];
    rewrite ?b64encode_one, ?b64encode_two, ?b64encode_three;
    intros H; try reflexivity; try discriminate H;
    apply string_cons_inj in H as [H1 H];
    apply string_cons_inj in H as [H2 H];
    apply string_cons_inj in H as [H3 H];
    apply string_cons_inj in H as [H4 H];
    try (symmetry in H3; now apply b64_char_not_pad in H3);
    try (now apply b64_char_not_pad in H3);
    try (symmetry in H4; now apply b64_char_not_pad in H4);
    try (now apply b64_char_not_pad in H4).
  - apply b64_char_inj in H1, H2.
    pose proof (sextets_inj _ _ (b64_group_bound a x00 x00)
                  (b64_group_bound a' x00 x00) H1 H2) as Hn.
    rewrite !b64_mid_sextet, !b64_low_sextet in Hn.
    specialize (Hn eq_refl eq_refl). rewrite !b64_group_value in Hn.
    f_equal. apply to_N_inj. lia.
  - apply b64_char_inj in H1, H2, H3.
    pose proof (sextets_inj _ _ (b64_group_bound a b x00)
                  (b64_group_bound a' b' x00) H1 H2 H3) as Hn.
    rewrite !b64_low_sextet in Hn. specialize (Hn eq_refl).
    rewrite !b64_group_value in Hn.
    pose proof (Byte.to_N_bounded a). pose proof (Byte.to_N_bounded b).
    pose proof (Byte.to_N_bounded a'). pose proof (Byte.to_N_bounded b').
    change (Byte.to_N x00) with 0%N in Hn.
    f_equal; [|f_equal]; apply to_N_inj; lia.
  - destruct (b64_group_inj _ _ _ _ _ _ H1 H2 H3 H4) as (-> & -> & ->).
    now rewrite (IH l' H).
Qed.

Transparent Py.b64_char Py.b64_group.

(** X18: the payload of an image entry is faithful to the file: files
    of different bytes give different payloads and so different image
    entries, and the payload of [n] bytes is [4 * ceil(n / 3)] characters
    long. *)
Theorem image_payload (data data' : list byte) :
  (LLMClient.image_entry (Py.b64encode data)
   = LLMClient.image_entry (Py.b64encode data') -> data = data') /\
  (Py.b64encode data = Py.b64encode data' -> data = data') /\
  String.length (Py.b64encode data) = 4 * ((List.length data + 2) / 3).
Proof.
  split; [|split].
  - unfold LLMClient.image_entry. intros H. injection H as H.
    now apply b64encode_injective.
  - apply b64encode_injective.
  - apply b64encode_length.
Qed.

(** ** Paths *)

Section Paths.

Lemma str_in_char_cons (c a : ascii) (s : string) :
  Py.str_in (String c "") (String a s)
  = Ascii.eqb c a || Py.str_in (String c "") s.
Proof.
  rewrite str_in_cons. cbn [Py.startswith].
  now rewrite startswith_nil, andb_true_r.
Qed.

Lemma str_in_char_nil (c : ascii) : Py.str_in (String c "") "" = false.
Proof. reflexivity. Qed.

Lemma substring_all (s : string) : substring 0 (String.length s) s = s.
Proof. induction s as [|c s IH]; cbn; [reflexivity | now rewrite IH]. Qed.

Lemma substring_skip (d s : string) (n : nat) :
  substring (String.length d + n) (String.length s - n) (d ++ s)
  = substring n (String.length s - n) s.
Proof. induction d as [|c d IH]; cbn; [reflexivity | exact IH]. Qed.

(** A character that is not in [s] is not found from the right. *)
Lemma rfind_from_absent (c : ascii) (s : string) :
  Py.str_in (String c "") s = false ->
  forall i, Py.rfind_from i s c = (-1)%Z.
Proof.
  induction s as [|a s IH]; intros H i; [reflexivity|].
  rewrite str_in_char_cons in H. apply orb_false_iff in H as [Ha Hs].
  cbn [Py.rfind_from]. rewrite (IH Hs). cbn.
  rewrite Ascii.eqb_sym in Ha. now rewrite Ha.
Qed.

(** The last [c] of [d ++ String c f], when [f] holds none, is the one
    written out. *)
Lemma rfind_from_last (c : ascii) (f : string) :
  Py.str_in (String c "") f = false ->
  forall d i, (0 <= i)%Z ->
    Py.rfind_from i (d ++ String c f) c = (i + Z.of_nat (String.length d))%Z.
Proof.
  intros Hf. induction d as [|a d IH]; intros i Hi.
  - cbn [append Py.rfind_from String.length].
    rewrite (rfind_from_absent c f Hf). cbn.
    rewrite Ascii.eqb_refl. lia.
  - cbn [append Py.rfind_from String.length].
    rewrite (IH (i + 1)%Z) by lia.
    destruct (Z.leb_spec 0 (i + 1 + Z.of_nat (String.length d))); lia.
Qed.

End Paths.

(** X19: the file name the input is classified under is what follows
    the last slash of the path: a path without a slash is its own file
    name, [dir/name] has the file name [name], and no file name holds a
    slash, so that a dot in a directory name never counts as an
    extension. *)
Theorem basename_last_component (dir name : string) :
  Py.str_in "/" name = false ->
  Script.basename name = name /\
  Script.basename (dir ++ "/" ++ name) = name /\
  Py.str_in "/" (Script.basename (dir ++ "/" ++ name)) = false /\
  Py.splitext_ext (Script.basename (dir ++ "/" ++ name))
  = Py.splitext_ext name.
Proof.
  intros Hname.
  assert (H1 : Script.basename name = name).
  { unfold Script.basename, Py.rfind.
    rewrite (rfind_from_absent "/" name Hname). cbn [Z.add Z.to_nat].
    rewrite Nat.sub_0_r. apply substring_all. }
  assert (H2 : Script.basename (dir ++ "/" ++ name) = name).
  { unfold Script.basename, Py.rfind.
    change (dir ++ "/" ++ name) with (dir ++ String "/" name).
    rewrite (rfind_from_last "/" name Hname dir 0) by lia.
    replace (Z.to_nat (0 + Z.of_nat (String.length dir) + 1))
      with (String.length dir + 1) by lia.
    rewrite length_append. cbn [String.length].
    replace (String.length dir + S (String.length name)
             - (String.length dir + 1))
      with (String.length (String "/" name) - 1) by (cbn; lia).
    rewrite substring_skip. cbn [String.length substring].
    replace (S (String.length name) - 1) with (String.length name) by lia.
    apply substring_all. }
  rewrite H2. repeat split; auto.
Qed.

Lemma basename_last_component_witness :
  Script.basename "scans/2024.01/report" = "report" /\
  Py.splitext_ext (Script.basename "scans/2024.01/report") = "".
Proof.
  destruct (basename_last_component "scans/2024.01" "report" eq_refl)
    as (_ & H2 & _ & H4).
  split; [exact H2 | exact H4].
Defined.


(** * The run when file operations can fail *)

Section DiskRun.

Variable w : World.

(** With no fault the script is [Main.run]. *)
Lemma disk_run_none (i : Main.Input) : Disk.run w Disk.none i = Main.run w i.
Proof. reflexivity. Qed.


(** The run, one operation after the other. *)
Lemma disk_run_steps (f : Disk.Faults) (i : Main.Input) :
  let dir := "output/" ++ timestamp w in
  Disk.run w f i []
  = match Disk.makedirs f with
    | Some e => (Raise e, [])
    | None =>
    match Main.classify (Main.input_filename i) (Main.input_data i) [] with
    | (Raise e, d0) => (Raise e, Makedirs dir :: d0)
    | (Exit c, d0) => (Exit c, Makedirs dir :: d0)
    | (Return ext, d0) =>
    let temp := Py.path_join dir ("input" ++ ext) in
    match Disk.store f with
    | Some e => (Raise e, Makedirs dir :: d0)
    | None =>
    let t1 := ([Makedirs dir] ++ d0
               ++ [WriteBytes temp (Main.input_data i)])%list in
    match Disk.factory f with
    | Some e => (Raise e, t1)
    | None =>
    match create_worker w temp (Main.start_page i) (Main.end_page i) with
    | inr e => (Exit 1, (t1 ++ [Log (LogRecord "__main__" ERROR e)])%list)
    | inl worker =>
    match Disk.render f with
    | Some e => (Raise e, t1)
    | None =>
    match Main.pages w "" (Py.sorted (convert_to_images worker))
            (t1 ++ [ConvertToImages;
                    Log (LogRecord "__main__" INFO
                           "Image conversion completed")])%list with
    | (Raise e, t2) => (Raise e, t2)
    | (Exit c, t2) => (Exit c, t2)
    | (Return markdown, t2) =>
    let t3 := (t2 ++ [Log (LogRecord "__main__" INFO
                             "Image conversion to Markdown completed")])%list in
    match Disk.output f with
    | Some e => (Raise e, t3)
    | None =>
    let t4 := (t3 ++ match Py.nonempty (Main.output_path i) with
                     | Some path =>
                         [WriteText path markdown;
                          Log (LogRecord "__main__" INFO
                                 ("Markdown saved to " ++ path))]
                     | None => [Print markdown]
                     end)%list in
    match Disk.rmtree f with
    | Some e => (Raise e, t4)
    | None => (Exit 0, (t4 ++ [Rmtree dir])%list)
    end end end end end end end end end.
Proof.
  cbv zeta. unfold Disk.run, Disk.step.
  destruct (Disk.makedirs f); [reflexivity|].
  unfold bind at 1. unfold emit at 1.
  unfold bind at 1. rewrite classify_frame.
  destruct (Main.classify (Main.input_filename i) (Main.input_data i) [])
    as [[ext|e|c] d0]; cbn [fst snd app]; try reflexivity.
  destruct (Disk.store f); [reflexivity|].
  unfold bind at 1. unfold emit at 1.
  destruct (Disk.factory f); [reflexivity|].
  destruct (create_worker w _ (Main.start_page i) (Main.end_page i))
    as [worker|e].
  2:{ run_monad. reflexivity. }
  destruct (Disk.render f); [reflexivity|].
  unfold bind at 1. unfold emit at 1.
  unfold bind at 1. unfold Main.logger at 1. unfold emit at 1.
  unfold bind at 1. rewrite <- !app_assoc. cbn [app].
  destruct (Main.pages w "" (Py.sorted (convert_to_images worker)) _)
    as [[markdown|e|c] t]; try reflexivity.
  destruct (Disk.output f), (Disk.rmtree f),
    (Py.nonempty (Main.output_path i)) as [path|];
    run_monad; cbn; rewrite <- ?app_assoc; reflexivity.
Qed.

End DiskRun.

Section DiskPages.

Variable w : World.

Lemma page_fragments_length t img_paths fragments t' :
  page_fragments w t img_paths fragments t' ->
  List.length fragments = List.length img_paths.
Proof. induction 1; cbn; congruence. Qed.

(** The page loop runs through when there is a key, or no page. *)
Lemma pages_through (img_paths : list string) t :
  Py.nonempty (getenv w "OPENAI_API_KEY") <> None \/ img_paths = [] ->
  exists fragments d,
    Main.pages w "" img_paths t
    = (Return (assemble fragments), (t ++ d)%list) /\
    page_fragments w t img_paths fragments (t ++ d)%list /\
    forallb leaves_files_alone d = true /\
    announced d = map announcement img_paths.
Proof.
  intros [Hkey| ->].
  - destruct (Py.nonempty (getenv w "OPENAI_API_KEY")) as [key|] eqn:E;
      [|congruence].
    destruct (pages_with_key w key img_paths E "" t)
      as (fs & d & Hfs & Hp & Ha & _).
    destruct (pages_counts w key img_paths E "" t)
      as (md & d' & Hp' & Hd' & _).
    rewrite Hp in Hp'. injection Hp' as _ Hd.
    apply app_inv_head in Hd. subst d'.
    exists fs, d. repeat split; assumption.
  - exists [], []. rewrite app_nil_r. cbn. repeat split. constructor.
Qed.

(** One page whose request the provider answers. *)
Lemma convert_page_answered (key image_path : string) (data : list byte)
    (r : string) t :
  Py.nonempty (getenv w "OPENAI_API_KEY") = Some key ->
  read_file w image_path = inl data ->
  (forall n, chat_create w n (page_request w key data) = inl r) ->
  fst (Main.convert_image_to_markdown w image_path t)
  = Return (remove_markdown_warp w r "markdown").
Proof.
  intros Hkey Hread Hr. unfold Main.convert_image_to_markdown, bind.
  rewrite (completion_with_key _ _ _ _ _ _ _ _ _ _ Hkey).
  erewrite attempt_answered.
  - reflexivity.
  - apply (user_content_read w _ (Some [image_path]) [data]).
    repeat constructor. exact Hread.
  - apply Hr.
Qed.

(** One page whose request the provider fails each time. *)
Lemma convert_page_exhausted (key image_path : string) (data : list byte) t :
  Py.nonempty (getenv w "OPENAI_API_KEY") = Some key ->
  read_file w image_path = inl data ->
  (forall n, exists e, chat_create w n (page_request w key data) = inr e) ->
  fst (Main.convert_image_to_markdown w image_path t)
  = Return (remove_markdown_warp w "" "markdown").
Proof.
  intros Hkey Hread Hfail. unfold Main.convert_image_to_markdown, bind.
  rewrite (completion_with_key _ _ _ _ _ _ _ _ _ _ Hkey).
  assert (E : LLMClient.user_content w Main.user_prompt (Some [image_path]) []
              = (Return [TextPart Main.user_prompt;
                         LLMClient.image_entry (Py.b64encode data)], [])).
  { apply (user_content_read w _ (Some [image_path]) [data]).
    repeat constructor. exact Hread. }
  do 3 (match goal with |- context [Main.attempts (S ?k) ?c ?t1] =>
          let e := fresh "e" in
          let He := fresh "He" in
          destruct (Hfail (List.length (requests t1))) as [e He];
          rewrite (attempt_failed w _ _ _ _ _ _ _ e k t1 E He)
        end).
  reflexivity.
Qed.

End DiskPages.

(** ** The document *)

(** C2, the claim as written fails on two counts.  The pages are taken
    up in the order of their paths as strings, not of their numbers: the
    renderer hands over page 9 and page 10, which the provider reads as
    [NINE] and [TEN], and the document begins with page 10.  And on
    standard output [print] ends the document with a newline of its own:
    the two-page document of the claim arrives there as [# A] followed
    by five newline characters, not four. *)
Lemma markdown_assembly_counterexample :
  (let w := Sample.library (Some "sk-test")
              [("page_9.png", inl "NINE"); ("page_10.png", inl "TEN")]
              ["page_9.png"; "page_10.png"] in
   fst (Main.convert_image_to_markdown w "page_9.png" []) = Return "NINE" /\
   fst (Main.convert_image_to_markdown w "page_10.png" []) = Return "TEN" /\
   Disk.run w Disk.none Sample.piped_pdf []
   = (Exit 0, snd (Disk.run w Disk.none Sample.piped_pdf [])) /\
   documents (snd (Disk.run w Disk.none Sample.piped_pdf []))
   = [assemble ["TEN"; "NINE"]] /\
   assemble ["TEN"; "NINE"] <> assemble ["NINE"; "TEN"]) /\
  (let w := Sample.library (Some "sk-test")
              [("page_1.png", inl "# A");
               ("page_2.png", inr "Connection error.")]
              ["page_1.png"; "page_2.png"] in
   let four := String "010" (String "010" (String "010" (String "010" ""))) in
   Disk.run w Disk.none Sample.piped_pdf []
   = (Exit 0, snd (Disk.run w Disk.none Sample.piped_pdf [])) /\
   stdout (snd (Disk.run w Disk.none Sample.piped_pdf []))
   = "# A" ++ four ++ String "010" "" /\
   stdout (snd (Disk.run w Disk.none Sample.piped_pdf [])) <> "# A" ++ four).
Proof.
  split; cbv zeta.
  - split; [vm_compute; reflexivity|]. split; [vm_compute; reflexivity|].
    split; [vm_compute; reflexivity|]. split; [vm_compute; reflexivity|].
    discriminate.
  - split; [vm_compute; reflexivity|]. split; [vm_compute; reflexivity|].
    vm_compute. discriminate.
Qed.

(** C2, amended: whatever document a run puts out, it puts out one, and
    that is the concatenation of the fragments of the pages, each
    followed by exactly two newline characters, in the ascending order
    of the image paths as strings; a run that ends with exit code 0 has
    put it out.  The document goes unchanged into the output file; on
    standard output [print] adds one newline after it.  For a document
    of two pages, where the first (in that order) yields [# A] and every
    attempt on the second fails, the document is [# A] followed by four
    newline characters. *)
Theorem markdown_assembly (w : World) (f : Disk.Faults) (i : Main.Input)
    (o : outcome unit) (tr : list event) :
  Disk.run w f i [] = (o, tr) ->
  (o = Exit 0 -> documents tr <> []) /\
  (documents tr <> [] ->
   exists ext d0 worker fragments t d tail,
     Main.classify (Main.input_filename i) (Main.input_data i) []
     = (Return ext, d0) /\
     create_worker w
       (Py.path_join ("output/" ++ timestamp w) ("input" ++ ext))
       (Main.start_page i) (Main.end_page i) = inl worker /\
     let img_paths := Py.sorted (convert_to_images worker) in
     Permutation (convert_to_images worker) img_paths /\
     StronglySorted (fun a b => String.leb a b = true) img_paths /\
     tr = (t ++ d ++ tail)%list /\
     page_fragments w t img_paths fragments (t ++ d)%list /\
     List.length fragments = List.length img_paths /\
     announced tr = map announcement img_paths /\
     documents tr = [assemble fragments] /\
     match Py.nonempty (Main.output_path i) with
     | Some path =>
         written tr = [(path, assemble fragments)] /\ printed tr = [] /\
         stdout tr = ""
     | None =>
         written tr = [] /\ printed tr = [assemble fragments] /\
         stdout tr = assemble fragments ++ String "010" ""
     end /\
     forall key p1 p2 data1 data2,
       Py.nonempty (getenv w "OPENAI_API_KEY") = Some key ->
       img_paths = [p1; p2] ->
       read_file w (Py.replace p1 "\" "/") = inl data1 ->
       read_file w (Py.replace p2 "\" "/") = inl data2 ->
       (forall n, chat_create w n (page_request w key data1) = inl "# A") ->
       (forall n, exists e,
          chat_create w n (page_request w key data2) = inr e) ->
       remove_markdown_warp w "# A" "markdown" = "# A" ->
       remove_markdown_warp w "" "markdown" = "" ->
       assemble fragments
       = String "#" (String " " (String "A" (String "010" (String "010"
           (String "010" (String "010" ""))))))).
Proof.
  intros Hrun. rewrite disk_run_steps in Hrun. cbv zeta in Hrun.
  match goal with |- ?G =>
    assert (Hdead : forall (o' : outcome unit) tr',
              (o', tr') = (o, tr) -> o' <> Exit 0 -> documents tr' = [] -> G)
  end.
  { intros o' tr' E Ho Hd. injection E as <- <-.
    split; [intros E; now destruct (Ho E) | intros H; now destruct (H Hd)]. }
  destruct (Disk.makedirs f); [now apply (Hdead _ _ Hrun)|].
  destruct (Main.classify (Main.input_filename i) (Main.input_data i) [])
    as [o0 d0] eqn:Hc.
  destruct (classify_events _ _ _ _ Hc) as (Hd0 & _ & _).
  destruct (leaves_files_alone_spec _ Hd0)
    as (_ & _ & Hw0 & Hp0 & _ & Hdoc0 & _).
  destruct (classify_quiet _ _ _ _ Hc) as (_ & Ha0 & _ & _ & Hne).
  destruct o0 as [ext|e|c].
  2:{ now destruct (Hne e). }
  2:{ destruct (classify_events _ _ _ _ Hc) as (_ & _ & [[? E]|[E _]]);
        [discriminate E|]. injection E as ->.
      apply (Hdead _ _ Hrun); [discriminate|].
      change (Makedirs ("output/" ++ timestamp w) :: d0)
        with ([Makedirs ("output/" ++ timestamp w)] ++ d0)%list.
      now rewrite documents_app, Hdoc0. }
  destruct (Disk.store f).
  { apply (Hdead _ _ Hrun); [discriminate|].
    change (Makedirs ("output/" ++ timestamp w) :: d0)
      with ([Makedirs ("output/" ++ timestamp w)] ++ d0)%list.
    now rewrite documents_app, Hdoc0. }
  destruct (Disk.factory f).
  { apply (Hdead _ _ Hrun); [discriminate|].
    now rewrite !documents_app, Hdoc0. }
  destruct (create_worker w _ (Main.start_page i) (Main.end_page i))
    as [worker|e] eqn:Hw.
  2:{ apply (Hdead _ _ Hrun); [discriminate|].
      now rewrite !documents_app, Hdoc0. }
  destruct (Disk.render f).
  { apply (Hdead _ _ Hrun); [discriminate|].
    now rewrite !documents_app, Hdoc0. }
  assert (Hthrough :
    Py.nonempty (getenv w "OPENAI_API_KEY") <> None \/
    Py.sorted (convert_to_images worker) = [] \/
    exists p rest, Py.nonempty (getenv w "OPENAI_API_KEY") = None /\
                   Py.sorted (convert_to_images worker) = p :: rest).
  { destruct (Py.nonempty (getenv w "OPENAI_API_KEY")); [left; discriminate|].
    destruct (Py.sorted (convert_to_images worker)) as [|p rest];
      [now right; left | right; right; now exists p, rest]. }
  destruct Hthrough as [Hk|[Hk|(p & rest & Hkey & Es)]].
  3:{ rewrite Es, (pages_without_key w p rest "" _ Hkey) in Hrun.
      apply (Hdead _ _ Hrun); [discriminate|].
      now rewrite !documents_app, Hdoc0. }
  all: match type of Hrun with context [Main.pages _ _ ?l ?t0] =>
         destruct (pages_through w l t0) as (fs & d & Hp & Hfs & Hd & Ha);
           [tauto|]; rewrite Hp in Hrun;
         destruct (leaves_files_alone_spec _ Hd)
           as (_ & _ & Hw1 & Hp1 & _ & Hdoc1 & _)
       end.
  all: destruct (Disk.output f);
    [apply (Hdead _ _ Hrun); [discriminate|];
     now rewrite !documents_app, Hdoc0, Hdoc1|].
  all: assert (Hparticular :
    forall key p1 p2 data1 data2,
       Py.nonempty (getenv w "OPENAI_API_KEY") = Some key ->
       Py.sorted (convert_to_images worker) = [p1; p2] ->
       read_file w (Py.replace p1 "\" "/") = inl data1 ->
       read_file w (Py.replace p2 "\" "/") = inl data2 ->
       (forall n, chat_create w n (page_request w key data1) = inl "# A") ->
       (forall n, exists e,
          chat_create w n (page_request w key data2) = inr e) ->
       remove_markdown_warp w "# A" "markdown" = "# A" ->
       remove_markdown_warp w "" "markdown" = "" ->
       assemble fs
       = String "#" (String " " (String "A" (String "010" (String "010"
           (String "010" (String "010" "")))))));
    [intros key p1 p2 data1 data2 Hkey Hpaths Hr1 Hr2 Hans Hfail Hu1 Hu2;
     rewrite Hpaths in Hfs;
     inversion Hfs as [|? ? ? f1 t1 fs1 ? E1 Hfs1]; subst;
     inversion Hfs1 as [|? ? ? f2 t2 fs2 ? E2 Hfs2]; subst;
     inversion Hfs2; subst;
     apply (f_equal fst) in E1, E2;
     rewrite (convert_page_answered w key _ data1 "# A" _ Hkey Hr1 Hans)
       in E1;
     rewrite (convert_page_exhausted w key _ data2 _ Hkey Hr2 Hfail) in E2;
     injection E1 as <-; injection E2 as <-;
     now rewrite Hu1, Hu2|].
  all: destruct (Disk.rmtree f).
  all: clear Hdead.
  all: apply pair_equal_spec in Hrun as [<- <-].
  all: (split; [intros _ |intros _;
         match type of Hfs with page_fragments _ ?t0 _ _ _ =>
           exists ext, d0, worker, fs, t0, d
         end; eexists;
         split; [reflexivity|]; split; [exact Hw|]; cbv zeta;
         split; [apply sorted_perm|]; split; [apply sorted_sorted|];
         split; [rewrite <- !app_assoc; reflexivity|];
         split; [exact Hfs|];
         split; [exact (page_fragments_length w _ _ _ _ Hfs)|]]).
  all: unfold stdout;
    rewrite ?announced_app, ?documents_app, ?written_app, ?printed_app,
      ?Ha0, ?Ha, ?Hdoc0, ?Hdoc1, ?Hw0, ?Hw1, ?Hp0, ?Hp1;
    destruct (Py.nonempty (Main.output_path i)) as [path|]; cbn;
    rewrite ?app_nil_r; try discriminate.
  all: split; [reflexivity|]; split; [reflexivity|];
    split; [now repeat split | exact Hparticular].
Qed.

(** The two-page run on a world whose pages differ: the renderer returns
    page 2 before page 1, the provider reads page 1 as [# A] and fails
    every request for page 2; the document is printed. *)
Lemma markdown_assembly_witness :
  let w := Sample.library (Some "sk-test")
             [("out/page_1.png", inl "# A");
              ("out/page_2.png", inr "Connection error.")]
             ["out/page_2.png"; "out/page_1.png"] in
  let tr := snd (Disk.run w Disk.none Sample.piped_pdf []) in
  let four := String "010" (String "010" (String "010" (String "010" ""))) in
  Disk.run w Disk.none Sample.piped_pdf [] = (Exit 0, tr) /\
  documents tr = ["# A" ++ four] /\
  stdout tr = "# A" ++ four ++ String "010" "".
Proof.
  intros w tr four.
  assert (Hrun : Disk.run w Disk.none Sample.piped_pdf [] = (Exit 0, tr))
    by (vm_compute; reflexivity).
  split; [exact Hrun|].
  destruct (markdown_assembly w Disk.none Sample.piped_pdf (Exit 0) tr Hrun)
    as [Hout Hdoc].
  destruct (Hdoc (Hout eq_refl))
    as (ext & d0 & worker & fs & t & d & tail & _ & Hw & _ & _ & _ & _ & _
        & _ & Hdocs & Hstd & Hpart).
  injection Hw as <-.
  assert (Hfs : assemble fs = "# A" ++ four).
  { apply (Hpart "sk-test" "out/page_1.png" "out/page_2.png"
             (list_byte_of_string "out/page_1.png")
             (list_byte_of_string "out/page_2.png"));
      try (vm_compute; reflexivity).
    intros n. exists "Connection error.". vm_compute. reflexivity. }
  unfold Sample.piped_pdf in Hstd.
  cbn [Main.output_path Py.nonempty] in Hstd.
  destruct Hstd as (_ & _ & Hstd).
  rewrite Hfs in Hdocs, Hstd. split; [exact Hdocs | exact Hstd].
Defined.

(** ** How a run ends *)



